(** * HYDROLIB workflows: a shallow embedding and its verified properties

    The development follows the repository layout:
    - [Py]            : the few Python/pandas idioms the sources rely on
                        (exceptions, keep-first de-duplication, stable sort);
    - [Crosssections] : [hydromt_delft3dfm/workflows/crosssections.py];
    - [Mesh]          : [dhydamo/geometry/mesh.py];
    - [HisReader]     : [contrib/HydroLogic/hisreader.py];
    - [Friction]      : [contrib/Arcadis/scripts/change_friction_channels.py];
    - [Statistics]    : [contrib/Arcadis/scripts/export_statistics.py];
    - [Pipes]         : [hydromt_delft3dfm/dflowfm.py] ([setup_pipes]);
    - [MeshLateral]   : [dhydamo/geometry/mesh.py] (lateral links);
    - [CrosssectionsSetup] : [hydromt_delft3dfm/dflowfm.py]
                        ([_setup_crosssections] and its callers);
    - [BranchesGui]   : [hydromt_delft3dfm/utils.py].

    Floating point columns are modelled by rationals ([Q]); functions of
    external libraries whose values are irrational or unspecified
    ([numpy.hypot], string formatting of floats, geometry length) are
    section variables. *)

From Stdlib Require Import List String Ascii ZArith QArith Qround Bool Lia Lqa.
From Stdlib Require Import Permutation Sorted DecimalString.
Import ListNotations.

Local Open Scope Z_scope.
Local Open Scope string_scope.

(* ================================================================== *)
(** * Python idioms *)
(* ================================================================== *)

Module Py.

(** The exception classes that occur in the modelled code. *)
Inductive PyExc : Type :=
| TypeError (msg : string)
| ValueError (msg : string)
| KeyError (key : string)
| IndexError (msg : string)
| Exception_ (msg : string)
| InvalidInput (msg : string).

(** A computation either returns or raises. *)
Inductive result (A : Type) : Type :=
| Ok (a : A)
| Raise (e : PyExc).
Arguments Ok {A} a.
Arguments Raise {A} e.

Definition bind {A B} (m : result A) (k : A -> result B) : result B :=
  match m with
  | Ok a => k a
  | Raise e => Raise e
  end.

Fixpoint mapM {A B} (f : A -> result B) (l : list A) : result (list B) :=
  match l with
  | [] => Ok []
  | a :: t =>
      bind (f a) (fun b => bind (mapM f t) (fun bs => Ok (b :: bs)))
  end.

(** [str.lower] on ASCII text. *)
Definition lower_ascii (c : ascii) : ascii :=
  let n := nat_of_ascii c in
  if (andb (Nat.leb 65 n) (Nat.leb n 90)) then ascii_of_nat (n + 32) else c.

Fixpoint lower (s : string) : string :=
  match s with
  | EmptyString => EmptyString
  | String c t => String (lower_ascii c) (lower t)
  end.

Section Lists.
Context {A : Type}.
Variable eqb : A -> A -> bool.

(** [Series.unique] / [DataFrame.drop_duplicates]: the first occurrence
    of every value is kept, in order of appearance. *)
Fixpoint drop_duplicates_from (seen : list A) (l : list A) : list A :=
  match l with
  | [] => []
  | x :: t =>
      if existsb (eqb x) seen then drop_duplicates_from seen t
      else x :: drop_duplicates_from (x :: seen) t
  end.

Definition drop_duplicates (l : list A) : list A :=
  drop_duplicates_from [] l.
End Lists.

Section Sort.
Context {A : Type}.
Variable leb : A -> A -> bool.

(** [sort_values]: insertion sort that keeps rows with equal keys in
    their input order. *)
Fixpoint insert_sorted (x : A) (l : list A) : list A :=
  match l with
  | [] => [x]
  | y :: t => if leb x y then x :: y :: t else y :: insert_sorted x t
  end.

Fixpoint sort (l : list A) : list A :=
  match l with
  | [] => []
  | x :: t => insert_sorted x (sort t)
  end.
End Sort.

End Py.

Import Py.

Declare Scope py_scope.
Notation "x <- m ;; k" := (Py.bind m (fun x => k))
  (at level 61, m at next level, right associativity) : py_scope.
Local Open Scope py_scope.

(* ================================================================== *)
(** * Cross-section workflows *)
(* ================================================================== *)

Module Crosssections.

(** ** xyz survey points: [set_xyz_crosssections] and [xyzp2xyzl] *)

(** One row of the survey table after the column selection of
    [set_xyz_crosssections]; the table index carries the profile id. *)
Record SurveyPoint : Type := {
  sp_index : string;
  sp_geometry : Q * Q;
  sp_crsId : string;
  sp_order : Q;
  sp_z : Q
}.

(** The same row once the columns [x], [y] are added and [order] is cast
    to int. *)
Record XyzRow : Type := {
  row_index : string;
  row_geometry : Q * Q;
  row_crsId : string;
  row_order : Z;
  row_z : Q;
  row_x : Q;
  row_y : Q
}.

(** [astype("int")] truncates towards zero. *)
Definition astype_int (q : Q) : Z := Z.quot (Qnum q) (Zpos (Qden q)).

Definition apply_data_type (p : SurveyPoint) : XyzRow :=
  {| row_index := sp_index p;
     row_geometry := sp_geometry p;
     row_crsId := sp_crsId p;
     row_order := astype_int (sp_order p);
     row_z := sp_z p;
     row_x := fst (sp_geometry p);
     row_y := snd (sp_geometry p) |}.

(** A cell of a column that [sort_values] can order. *)
Inductive Cell : Type :=
| CNum (q : Q)
| CStr (s : string).

(** Column lookup by (lower-cased) name, as done by
    [xyz.columns = [c.lower() for c in xyz.columns]]. *)
Definition column (name : string) : result (XyzRow -> Cell) :=
  if String.eqb name "order" then Ok (fun r => CNum (inject_Z (row_order r)))
  else if String.eqb name "x" then Ok (fun r => CNum (row_x r))
  else if String.eqb name "y" then Ok (fun r => CNum (row_y r))
  else if String.eqb name "z" then Ok (fun r => CNum (row_z r))
  else if String.eqb name "crsid" then Ok (fun r => CStr (row_crsId r))
  else if String.eqb name "geometry"
       then Raise (TypeError "geometry column cannot be ordered")
  else Raise (KeyError name).

Definition cell_compare (a b : Cell) : comparison :=
  match a, b with
  | CNum p, CNum q => Qcompare p q
  | CStr s, CStr t => String.compare s t
  | CNum _, CStr _ => Lt
  | CStr _, CNum _ => Gt
  end.

(** Lexicographic comparison on the list of sort keys. *)
Fixpoint rows_compare (keys : list (XyzRow -> Cell)) (a b : XyzRow)
  : comparison :=
  match keys with
  | [] => Eq
  | k :: ks =>
      match cell_compare (k a) (k b) with
      | Eq => rows_compare ks a b
      | c => c
      end
  end.

Definition rows_leb (keys : list (XyzRow -> Cell)) (a b : XyzRow) : bool :=
  match rows_compare keys a b with
  | Gt => false
  | _ => true
  end.

(** [xyz.sort_values(by=sort_by)]. *)
Definition sort_values (by_ : list string) (xyz : list XyzRow)
  : result (list XyzRow) :=
  keys <- mapM column by_ ;;
  Ok (Py.sort (rows_leb keys) xyz).

(** [np.diff] and [np.cumsum]. *)
Fixpoint diff (l : list Q) : list Q :=
  match l with
  | a :: (b :: _) as t => (b - a)%Q :: diff t
  | _ => []
  end.

Fixpoint cumsum_from (acc : Q) (l : list Q) : list Q :=
  match l with
  | [] => []
  | a :: t => (acc + a)%Q :: cumsum_from (acc + a)%Q t
  end.

Definition cumsum (l : list Q) : list Q := cumsum_from 0%Q l.

(** The [pd.Series] returned by [xyzp2xyzl]. *)
Record XyzLine : Type := {
  line_geometry : list (Q * Q);
  line_l : list Q;
  line_index : string;
  line_x : list Q;
  line_y : list Q;
  line_z : list Q
}.

Definition default_sort_by : list string := ["x"; "y"].

Section Profiles.
(** [numpy.hypot]. *)
Variable hypot : Q -> Q -> Q.

Fixpoint zip_hypot (dx dy : list Q) : list Q :=
  match dx, dy with
  | a :: dx', b :: dy' => hypot a b :: zip_hypot dx' dy'
  | _, _ => []
  end.

(** [xyzp2xyzl(xyz, sort_by)] on one (non-empty) group of rows.
    A [LineString] needs at least two coordinate tuples. *)
Definition xyzp2xyzl (xyz : list XyzRow) (sort_by : list string)
  : result XyzLine :=
  let sort_by := map lower sort_by in
  match xyz with
  | [] => Raise (IndexError "list index out of range")
  | first :: _ =>
      let yz_index := row_index first in
      xyz_sorted <- sort_values sort_by xyz ;;
      let new_z := map row_z xyz_sorted in
      let line := map (fun r => (row_x r, row_y r)) xyz_sorted in
      match line with
      | [_] =>
          Raise (ValueError
                   "LineStrings must have at least 2 coordinate tuples")
      | _ =>
          Ok {| line_geometry := line;
                line_l := 0%Q :: cumsum (zip_hypot (diff (map fst line))
                                                   (diff (map snd line)));
                line_index := yz_index;
                line_x := map row_x xyz_sorted;
                line_y := map row_y xyz_sorted;
                line_z := new_z |}
      end
  end.

(** [groupby(level=0)]: the group keys in sorted order, each with its
    rows in table order. *)
Definition group_keys (rows : list XyzRow) : list string :=
  Py.sort String.leb (Py.drop_duplicates String.eqb (map row_index rows)).

Definition group_rows (k : string) (rows : list XyzRow) : list XyzRow :=
  filter (fun r => String.eqb (row_index r) k) rows.

(** [set_xyz_crosssections], lines 238-255: column selection, data
    types, and [groupby(level=0).apply(xyzp2xyzl, (["order"]))].  The
    extra positional argument of [apply] is handed to [xyzp2xyzl] as
    its [sort_by]. *)
Definition set_xyz_crosssections_profiles (crosssections : list SurveyPoint)
  : result (list (string * XyzLine)) :=
  let rows := map apply_data_type crosssections in
  mapM (fun k => line <- xyzp2xyzl (group_rows k rows) ["order"] ;;
                 Ok (k, line))
       (group_keys rows).
End Profiles.


(** The comparison that [sort_values] uses for [by=["order"]]. *)
Definition order_leb (a b : XyzRow) : bool :=
  rows_leb [fun r => CNum (inject_Z (row_order r))] a b.

(** "Ordered by their spatial coordinates": lexicographic order on
    [(x, y)]. *)
Definition xy_le (p q : Q * Q) : Prop :=
  (fst p < fst q)%Q \/ ((fst p == fst q)%Q /\ (snd p <= snd q)%Q).

(** A stand-in for [numpy.hypot] in examples: exact whenever the length
    is an integer. *)
Definition hypot_floor (a b : Q) : Q :=
  inject_Z (Z.sqrt (Qfloor (a * a + b * b)%Q)).

(** A survey of one profile, walked from the right bank to the left
    bank: [order] increases while [x] decreases. *)
Definition survey_right_to_left : list SurveyPoint :=
  [ {| sp_index := "crs1"; sp_geometry := (8, 0)%Q; sp_crsId := "crs1";
       sp_order := 1%Q; sp_z := 2%Q |};
    {| sp_index := "crs1"; sp_geometry := (4, 0)%Q; sp_crsId := "crs1";
       sp_order := 2%Q; sp_z := (1 # 2)%Q |};
    {| sp_index := "crs1"; sp_geometry := (0, 3)%Q; sp_crsId := "crs1";
       sp_order := 3%Q; sp_z := 2%Q |} ].

(** The profile that [set_xyz_crosssections] builds from it. *)
Definition profile_right_to_left : XyzLine :=
  {| line_geometry := [(8, 0); (4, 0); (0, 3)]%Q;
     line_l := [0; 4; 9]%Q;
     line_index := "crs1";
     line_x := [8; 4; 0]%Q;
     line_y := [0; 0; 3]%Q;
     line_z := [2; 1 # 2; 2]%Q |}.

(** ** Branch cross-sections at both ends: [set_branch_crosssections]
       with [midpoint=False] *)

(** The columns of the branches table that the [midpoint=False] path
    reads. *)
Record Branch : Type := {
  br_index : string;
  br_branchId : string;
  br_geometry : list (Q * Q);
  br_shape : string;
  br_diameter : Q;
  br_invlev_up : Q;
  br_invlev_dn : Q;
  br_frictionId : string;
  br_frictionType : string;
  br_frictionValue : Q
}.

(** A row of [crosssections_up] / [crosssections_dn]. *)
Record EndRow : Type := {
  er_index : string;
  er_geometry : Q * Q;
  er_crsloc_id : string;
  er_branch_id : string;
  er_branch_offset : Q;
  er_shift : Q;
  er_shape : string;
  er_diameter : Q;
  er_frictionId : string;
  er_frictionType : string;
  er_frictionValue : Q
}.

(** The [crsdef_closed] cell: a string before, an int after
    [replace({"yes": 1, "no": 0})]. *)
Inductive Closed : Type :=
| ClosedStr (s : string)
| ClosedInt (z : Z).

Record CrsLoc : Type := {
  crsloc_id : string;
  crsloc_branchId : string;
  crsloc_chainage : Q;
  crsloc_shift : Q;
  crsloc_definitionId : string;
  geometry : Q * Q
}.

Record CrsDef : Type := {
  crsdef_id : string;
  crsdef_type : string;
  crsdef_branchId : string;
  crsdef_diameter : Q;
  crsdef_closed : Closed;
  crsdef_frictionId : string;
  frictionType : string;
  frictionValue : Q
}.

(** A row of the returned table: the location columns, the definition
    columns joined to it (absent when the left join finds no partner),
    and the thalweg column. *)
Record CrsRow : Type := {
  crs_loc : CrsLoc;
  crs_def : option CrsDef;
  crsdef_thalweg : Q
}.

Definition point_eqb (p q : Q * Q) : bool :=
  Qeq_bool (fst p) (fst q) && Qeq_bool (snd p) (snd q).

Definition closed_eqb (a b : Closed) : bool :=
  match a, b with
  | ClosedStr s, ClosedStr t => String.eqb s t
  | ClosedInt x, ClosedInt y => Z.eqb x y
  | _, _ => false
  end.

Definition crsloc_eqb (a b : CrsLoc) : bool :=
  String.eqb (crsloc_id a) (crsloc_id b)
  && String.eqb (crsloc_branchId a) (crsloc_branchId b)
  && Qeq_bool (crsloc_chainage a) (crsloc_chainage b)
  && Qeq_bool (crsloc_shift a) (crsloc_shift b)
  && String.eqb (crsloc_definitionId a) (crsloc_definitionId b)
  && point_eqb (geometry a) (geometry b).

Definition crsdef_eqb (a b : CrsDef) : bool :=
  String.eqb (crsdef_id a) (crsdef_id b)
  && String.eqb (crsdef_type a) (crsdef_type b)
  && String.eqb (crsdef_branchId a) (crsdef_branchId b)
  && Qeq_bool (crsdef_diameter a) (crsdef_diameter b)
  && closed_eqb (crsdef_closed a) (crsdef_closed b)
  && String.eqb (crsdef_frictionId a) (crsdef_frictionId b)
  && String.eqb (frictionType a) (frictionType b)
  && Qeq_bool (frictionValue a) (frictionValue b).

Definition crsrow_eqb (a b : CrsRow) : bool :=
  crsloc_eqb (crs_loc a) (crs_loc b)
  && match crs_def a, crs_def b with
     | Some d, Some e => crsdef_eqb d e
     | None, None => true
     | _, _ => false
     end
  && Qeq_bool (crsdef_thalweg a) (crsdef_thalweg b).

(** The point at the first coordinate of the branch line (the upstream
    end). *)
Definition start_point (b : Branch) : Q * Q :=
  hd (0%Q, 0%Q) (br_geometry b).

(** [Point(l.coords[0])]. *)
Definition first_point (coords : list (Q * Q)) : result (Q * Q) :=
  match coords with
  | [] => Raise (IndexError "index out of range")
  | p :: _ => Ok p
  end.

(** [pd.merge(left, right, how="left", left_on=..., right_on=...)]: every
    left row is paired with each matching right row, in order; a left
    row without partner is kept once. *)
Definition merge_left {L R : Type} (on : L -> R -> bool)
  (left : list L) (right : list R) : list (L * option R) :=
  flat_map (fun l =>
              match filter (on l) right with
              | [] => [(l, None)]
              | rs => map (fun r => (l, Some r)) rs
              end) left.

Section BranchCrosssections.
(** [LineString.length] of a coordinate sequence. *)
Variable geom_length : list (Q * Q) -> Q.
(** ["{:.2f}".format] and ["{:,.3f}".format]. *)
Variable format_2f : Q -> string.
Variable format_3f : Q -> string.

(** The row of [crosssections_up] for branch [b], whose point is [g]. *)
Definition up_row (b : Branch) (g : Q * Q) : EndRow :=
  {| er_index := br_index b ++ "_up";
     er_geometry := g;
     er_crsloc_id := "crs_up_" ++ br_branchId b;
     er_branch_id := br_branchId b;
     er_branch_offset := 0%Q;
     er_shift := br_invlev_up b;
     er_shape := br_shape b;
     er_diameter := br_diameter b;
     er_frictionId := br_frictionId b;
     er_frictionType := br_frictionType b;
     er_frictionValue := br_frictionValue b |}.

(** The row of [crosssections_dn] for branch [b], whose point is [g]. *)
Definition dn_row (b : Branch) (g : Q * Q) : EndRow :=
  {| er_index := br_index b ++ "_dn";
     er_geometry := g;
     er_crsloc_id := "crs_dn_" ++ br_branchId b;
     er_branch_id := br_branchId b;
     er_branch_offset := geom_length (br_geometry b);
     er_shift := br_invlev_dn b;
     er_shape := br_shape b;
     er_diameter := br_diameter b;
     er_frictionId := br_frictionId b;
     er_frictionType := br_frictionType b;
     er_frictionValue := br_frictionValue b |}.

(** Both tables take their geometry column from
    [[Point(l.coords[0]) for l in branches.geometry]]. *)
Definition crosssections_up (branches : list Branch)
  : result (list EndRow) :=
  geoms <- mapM (fun b => first_point (br_geometry b)) branches ;;
  Ok (map (fun bg => up_row (fst bg) (snd bg)) (combine branches geoms)).

Definition crosssections_dn (branches : list Branch)
  : result (list EndRow) :=
  geoms <- mapM (fun b => first_point (br_geometry b)) branches ;;
  Ok (map (fun bg => dn_row (fst bg) (snd bg)) (combine branches geoms)).

(** ["circ_d{:,.3f}_{:s}".format(x["diameter"], "branch")]. *)
Definition circle_definitionid (r : EndRow) : string :=
  "circ_d" ++ format_3f (er_diameter r) ++ "_" ++ "branch".

Definition circle_crsdef (c : EndRow * string) : CrsDef :=
  {| crsdef_id := snd c;
     crsdef_type := "circle";
     crsdef_branchId := er_branch_id (fst c);
     crsdef_diameter := er_diameter (fst c);
     crsdef_closed := ClosedStr "yes";
     crsdef_frictionId := er_frictionId (fst c);
     frictionType := er_frictionType (fst c);
     frictionValue := er_frictionValue (fst c) |}.

Definition circle_crsloc (c : EndRow * string) : CrsLoc :=
  {| crsloc_id := er_branch_id (fst c) ++ "_"
                  ++ format_2f (er_branch_offset (fst c));
     crsloc_branchId := er_branch_id (fst c);
     crsloc_chainage := er_branch_offset (fst c);
     crsloc_shift := er_shift (fst c);
     crsloc_definitionId := snd c;
     geometry := er_geometry (fst c) |}.

Definition circle_on (l : CrsLoc) (d : CrsDef) : bool :=
  String.eqb (crsloc_branchId l) (crsdef_branchId d)
  && String.eqb (crsloc_definitionId l) (crsdef_id d).

(** [_set_circle_crs]: rows carry their [definitionid] as second
    component. *)
Definition _set_circle_crs (crosssections : list (EndRow * string))
  : list (CrsLoc * option CrsDef) :=
  let crsdefs := map circle_crsdef crosssections in
  let crslocs := map circle_crsloc crosssections in
  merge_left circle_on crslocs crsdefs.

(** The loop over [all_shapes]; only ["circle"] contributes rows. *)
Definition shape_loop (all_shapes : list string)
  (crosssections : list EndRow) : list (CrsLoc * option CrsDef) :=
  fold_left
    (fun crosssections_ shape =>
       if String.eqb shape "circle" then
         let circle_crs :=
           filter (fun r => String.eqb (er_shape r) shape) crosssections in
         let circle_crs :=
           map (fun r => (r, circle_definitionid r)) circle_crs in
         (crosssections_ ++ _set_circle_crs circle_crs)%list
       else crosssections_)
    all_shapes [].

Definition replace_closed (c : Closed) : Closed :=
  match c with
  | ClosedStr s =>
      if String.eqb s "yes" then ClosedInt 1
      else if String.eqb s "no" then ClosedInt 0
      else c
  | _ => c
  end.

Definition finish_row (ld : CrsLoc * option CrsDef) : CrsRow :=
  {| crs_loc := fst ld;
     crs_def :=
       option_map
         (fun d =>
            {| crsdef_id := crsdef_id d;
               crsdef_type := crsdef_type d;
               crsdef_branchId := crsdef_branchId d;
               crsdef_diameter := crsdef_diameter d;
               crsdef_closed := replace_closed (crsdef_closed d);
               crsdef_frictionId := crsdef_frictionId d;
               frictionType := frictionType d;
               frictionValue := frictionValue d |})
         (snd ld);
     crsdef_thalweg := 0%Q |}.

(** [set_branch_crosssections(branches, midpoint=False)].  When no row
    was produced the table has no column [crsdef_closed] and the lookup
    raises. *)
Definition set_branch_crosssections (branches : list Branch)
  : result (list CrsRow) :=
  up <- crosssections_up branches ;;
  dn <- crosssections_dn branches ;;
  let crosssections := (up ++ dn)%list in
  let all_shapes :=
    Py.drop_duplicates String.eqb (map er_shape crosssections) in
  let crosssections_ := shape_loop all_shapes crosssections in
  match crosssections_ with
  | [] => Raise (KeyError "crsdef_closed")
  | _ => Ok (Py.drop_duplicates crsrow_eqb (map finish_row crosssections_))
  end.

(** The rows on which the shape loop works, once the geometries are
    known to be non-empty. *)
Definition end_rows (branches : list Branch) : list EndRow :=
  (map (fun b => up_row b (start_point b)) branches
   ++ map (fun b => dn_row b (start_point b)) branches)%list.

(** The circular rows, each with its [definitionid]. *)
Definition circle_rows (cs : list EndRow) : list (EndRow * string) :=
  map (fun r => (r, circle_definitionid r))
      (filter (fun r => String.eqb (er_shape r) "circle") cs).

(** The returned row that stems from one end row. *)
Definition branch_row (e : EndRow) : CrsRow :=
  let c := (e, circle_definitionid e) in
  finish_row (circle_crsloc c, Some (circle_crsdef c)).
End BranchCrosssections.

(** Stand-ins for the external functions, used in examples: the length
    of a polyline from [hypot_floor], and fixed-point formatting with
    [d] decimals (rounding half up, no thousands separator). *)
Definition line_length (coords : list (Q * Q)) : Q :=
  fold_left Qplus
    (zip_hypot hypot_floor (diff (map fst coords)) (diff (map snd coords)))
    0%Q.

Definition string_of_nat (n : nat) : string :=
  DecimalString.NilZero.string_of_uint (Nat.to_uint n).

Fixpoint pad_left (width : nat) (s : string) : string :=
  match width with
  | O => s
  | S w => if Nat.ltb (String.length s) width
           then pad_left w ("0" ++ s) else s
  end.

Definition format_fixed (d : nat) (q : Q) : string :=
  let scale := Z.pow 10 (Z.of_nat d) in
  let n := Qfloor (q * inject_Z scale + (1 # 2))%Q in
  let a := Z.abs n in
  (if Z.ltb n 0 then "-" else "")
  ++ string_of_nat (Z.to_nat (Z.div a scale)) ++ "."
  ++ pad_left d (string_of_nat (Z.to_nat (Z.modulo a scale))).

(** Two pipes: a circular one and a rectangular one. *)
Definition pipe_circle : Branch :=
  {| br_index := "pipe_1"; br_branchId := "pipe_1";
     br_geometry := [(0, 0); (60, 0); (60, 80)]%Q;
     br_shape := "circle"; br_diameter := (1 # 2)%Q;
     br_invlev_up := (- 2)%Q; br_invlev_dn := (- 23 # 10)%Q;
     br_frictionId := "WhiteColebrook_0.003";
     br_frictionType := "WhiteColebrook";
     br_frictionValue := (3 # 1000)%Q |}.

Definition pipe_rectangle : Branch :=
  {| br_index := "pipe_2"; br_branchId := "pipe_2";
     br_geometry := [(60, 80); (60, 180)]%Q;
     br_shape := "rectangle"; br_diameter := 0%Q;
     br_invlev_up := (- 23 # 10)%Q; br_invlev_dn := (- 25 # 10)%Q;
     br_frictionId := "WhiteColebrook_0.003";
     br_frictionType := "WhiteColebrook";
     br_frictionValue := (3 # 1000)%Q |}.

Definition run_example (branches : list Branch) : result (list CrsRow) :=
  set_branch_crosssections line_length (format_fixed 2) (format_fixed 3)
    branches.

End Crosssections.

(* ================================================================== *)
(** * Mesh helpers *)
(* ================================================================== *)

Module Mesh.

Local Open Scope Z_scope.

(** ** numpy arrays *)

(** Integer index arrays are [int32]; additions wrap around. *)
Definition int32_min : Z := - 2147483648.
Definition int32_max : Z := 2147483647.

Definition wrap32 (z : Z) : Z := (z + 2147483648) mod 4294967296 - 2147483648.

Definition add32 (a b : Z) : Z := wrap32 (a + b).

(** [arr.max()] of an integer array. *)
Definition array_max (arr : list Z) : result Z :=
  match arr with
  | [] => Raise (ValueError
            "zero-size array to reduction operation maximum which has no identity")
  | a :: t => Ok (fold_left Z.max t a)
  end.

Definition Qmin' (a b : Q) : Q := if Qlt_le_dec b a then b else a.
Definition Qmax' (a b : Q) : Q := if Qlt_le_dec a b then b else a.

(** [arr.min()] and [arr.max()] of a float array. *)
Definition array_minQ (arr : list Q) : result Q :=
  match arr with
  | [] => Raise (ValueError
            "zero-size array to reduction operation minimum which has no identity")
  | a :: t => Ok (fold_left Qmin' t a)
  end.

Definition array_maxQ (arr : list Q) : result Q :=
  match arr with
  | [] => Raise (ValueError
            "zero-size array to reduction operation maximum which has no identity")
  | a :: t => Ok (fold_left Qmax' t a)
  end.

(** [arr[i]]: negative indices count from the end, anything else out of
    range raises. *)
Definition np_get {A : Type} (arr : list A) (i : Z) : result A :=
  let n := Z.of_nat (List.length arr) in
  let j := if i <? 0 then i + n else i in
  if (0 <=? j) && (j <? n) then
    match nth_error arr (Z.to_nat j) with
    | Some a => Ok a
    | None => Raise (IndexError "index out of bounds")
    end
  else Raise (IndexError "index out of bounds").

(** [arr[idx]] for an index array. *)
Definition np_take {A : Type} (arr : list A) (idx : list Z)
  : result (list A) :=
  mapM (np_get arr) idx.

(** [np.arange(n)]. *)
Definition arange (n : nat) : list Z := map Z.of_nat (seq 0 n).

(** [np.where(mask)[0]]. *)
Fixpoint where_from (i : Z) (mask : list bool) : list Z :=
  match mask with
  | [] => []
  | b :: t => if b then i :: where_from (i + 1) t else where_from (i + 1) t
  end.

Definition where_ (mask : list bool) : list Z := where_from 0 mask.

(** ** Merging a rectilinear mesh: [mesh2d_add_rectilinear] *)

Record Mesh2d : Type := {
  node_x : list Q;
  node_y : list Q;
  edge_nodes : list Z;
  face_nodes : list Z;
  nodes_per_face : list Z;
  edge_x : list Q;
  edge_y : list Q;
  face_x : list Q;
  face_y : list Q
}.

(** Lines 67-94 of [mesh2d_add_rectilinear]: [existing_mesh2d] is the mesh
    stored before the kernel generated and clipped [new_mesh2d].  The
    function returns the mesh handed to [_process] (the new mesh itself
    when there was nothing to merge with). *)
Definition mesh2d_add_rectilinear_merge (existing_mesh2d new_mesh2d : Mesh2d)
  : result Mesh2d :=
  match node_x existing_mesh2d with
  | [] => Ok new_mesh2d
  | _ =>
      m1 <- array_max (edge_nodes existing_mesh2d) ;;
      let new_edge_nodes :=
        map (fun i => add32 i (add32 m1 1)) (edge_nodes new_mesh2d) in
      m2 <- array_max (edge_nodes existing_mesh2d) ;;
      let new_face_nodes :=
        map (fun i => add32 i (add32 m2 1)) (face_nodes new_mesh2d) in
      Ok {| node_x := node_x existing_mesh2d ++ node_x new_mesh2d;
            node_y := node_y existing_mesh2d ++ node_y new_mesh2d;
            edge_nodes := edge_nodes existing_mesh2d ++ new_edge_nodes;
            face_nodes := face_nodes existing_mesh2d ++ new_face_nodes;
            nodes_per_face :=
              nodes_per_face existing_mesh2d ++ nodes_per_face new_mesh2d;
            edge_x := edge_x existing_mesh2d ++ edge_x new_mesh2d;
            edge_y := edge_y existing_mesh2d ++ edge_y new_mesh2d;
            face_x := face_x existing_mesh2d ++ face_x new_mesh2d;
            face_y := face_y existing_mesh2d ++ face_y new_mesh2d |}
  end%list.

(** ** 1D-2D links: [links1d2d_add_links_1d_to_2d] *)

(** The four parallel arrays of the link object. *)
Record Link1d2d : Type := {
  link1d2d : list (Z * Z);
  link1d2d_contact_type : list Z;
  link1d2d_id : list string;
  link1d2d_long_name : list string
}.

Record Network : Type := {
  mesh1d_node_x : list Q;
  mesh1d_node_y : list Q;
  mesh2d_node_x : list Q;
  mesh2d_node_y : list Q;
  mesh2d_face_x : list Q;
  mesh2d_face_y : list Q;
  _link1d2d : Link1d2d
}.

Definition set_links (network : Network) (l : Link1d2d) : Network :=
  {| mesh1d_node_x := mesh1d_node_x network;
     mesh1d_node_y := mesh1d_node_y network;
     mesh2d_node_x := mesh2d_node_x network;
     mesh2d_node_y := mesh2d_node_y network;
     mesh2d_face_x := mesh2d_face_x network;
     mesh2d_face_y := mesh2d_face_y network;
     _link1d2d := l |}.

(** [_filter_links_on_idx]. *)
Definition _filter_links_on_idx (network : Network) (keep : list Z)
  : result Network :=
  let l := _link1d2d network in
  a <- np_take (link1d2d l) keep ;;
  b <- np_take (link1d2d_contact_type l) keep ;;
  c <- np_take (link1d2d_id l) keep ;;
  d <- np_take (link1d2d_long_name l) keep ;;
  Ok (set_links network
        {| link1d2d := a;
           link1d2d_contact_type := b;
           link1d2d_id := c;
           link1d2d_long_name := d |}).

(** [x < max_length] where [max_length] may be [np.inf] ([None]). *)
Definition lt_max_length (x : Q) (max_length : option Q) : bool :=
  match max_length with
  | None => true
  | Some m => if Qlt_le_dec x m then true else false
  end.

Section Links.
(** [numpy.hypot]. *)
Variable hypot : Q -> Q -> Q.
(** Shapely polygons and [box]. *)
Variable Polygon : Type.
Variable box : Q -> Q -> Q -> Q -> Polygon.
(** [Mesh1d.get_node_mask] and [Link1d2d._link_from_1d_to_2d] of the
    kernel wrapper; the latter returns the link arrays after the
    generation. *)
Variable get_node_mask : Network -> option (list string) -> list bool.
Variable _link_from_1d_to_2d : Network -> list bool -> Polygon -> Link1d2d.

(** The Euclidean length of one link [[id1d, id2d]]. *)
Definition link_length (network : Network) (link : Z * Z) : result Q :=
  x1 <- np_get (mesh1d_node_x network) (fst link) ;;
  y1 <- np_get (mesh1d_node_y network) (fst link) ;;
  fx <- np_get (mesh2d_face_x network) (snd link) ;;
  fy <- np_get (mesh2d_face_y network) (snd link) ;;
  Ok (hypot (x1 - fx)%Q (y1 - fy)%Q).

Definition links1d2d_add_links_1d_to_2d (network : Network)
  (branchids : option (list string)) (within : option Polygon)
  (max_length : option Q) : result Network :=
  within <-
    match within with
    | Some p => Ok p
    | None =>
        x1min <- array_minQ (mesh1d_node_x network) ;;
        x2min <- array_minQ (mesh2d_node_x network) ;;
        x1max <- array_maxQ (mesh1d_node_x network) ;;
        x2max <- array_maxQ (mesh2d_node_x network) ;;
        y1min <- array_minQ (mesh1d_node_y network) ;;
        y2min <- array_minQ (mesh2d_node_y network) ;;
        y1max <- array_maxQ (mesh1d_node_y network) ;;
        y2max <- array_maxQ (mesh2d_node_y network) ;;
        Ok (box (Qmin' x1min x2min) (Qmin' y1min y2min)
                (Qmax' x1max x2max) (Qmax' y1max y2max))
    end ;;
  let node_mask := get_node_mask network branchids in
  let npresent := List.length (link1d2d (_link1d2d network)) in
  let network :=
    set_links network (_link_from_1d_to_2d network node_mask within) in
  let generated := skipn npresent (link1d2d (_link1d2d network)) in
  lengths <- mapM (link_length network) generated ;;
  let keep :=
    (arange npresent
     ++ map (fun i => i + Z.of_nat npresent)
            (where_ (map (fun x => lt_max_length x max_length) lengths)))%list
  in
  _filter_links_on_idx network keep.
End Links.

(** Examples.  A unit square cell, and the same cell generated a second
    time next to it. *)
Definition square_existing : Mesh2d :=
  {| node_x := [0; 1; 1; 0]%Q; node_y := [0; 0; 1; 1]%Q;
     edge_nodes := [0; 1; 1; 2; 2; 3; 3; 0];
     face_nodes := [0; 1; 2; 3];
     nodes_per_face := [4];
     edge_x := [1 # 2; 1; 1 # 2; 0]%Q; edge_y := [0; 1 # 2; 1; 1 # 2]%Q;
     face_x := [1 # 2]%Q; face_y := [1 # 2]%Q |}.

Definition square_new : Mesh2d :=
  {| node_x := [1; 2; 2; 1]%Q; node_y := [0; 0; 1; 1]%Q;
     edge_nodes := [0; 1; 1; 2; 2; 3; 3; 0];
     face_nodes := [0; 1; 2; 3];
     nodes_per_face := [4];
     edge_x := [3 # 2; 2; 3 # 2; 1]%Q; edge_y := [0; 1 # 2; 1; 1 # 2]%Q;
     face_x := [3 # 2]%Q; face_y := [1 # 2]%Q |}.

Definition square_merged : Mesh2d :=
  {| node_x := [0; 1; 1; 0; 1; 2; 2; 1]%Q;
     node_y := [0; 0; 1; 1; 0; 0; 1; 1]%Q;
     edge_nodes := [0; 1; 1; 2; 2; 3; 3; 0; 4; 5; 5; 6; 6; 7; 7; 4];
     face_nodes := [0; 1; 2; 3; 4; 5; 6; 7];
     nodes_per_face := [4; 4];
     edge_x := [1 # 2; 1; 1 # 2; 0; 3 # 2; 2; 3 # 2; 1]%Q;
     edge_y := [0; 1 # 2; 1; 1 # 2; 0; 1 # 2; 1; 1 # 2]%Q;
     face_x := [1 # 2; 3 # 2]%Q; face_y := [1 # 2; 1 # 2]%Q |}.

(** A network with three 1D nodes and three faces, one link of length 30
    already present; the kernel stand-in appends a link of length 3 and a
    link of length 31. *)
Definition linked_network : Network :=
  {| mesh1d_node_x := [0; 10; 20]%Q; mesh1d_node_y := [0; 0; 0]%Q;
     mesh2d_node_x := [0; 20]%Q; mesh2d_node_y := [0; 30]%Q;
     mesh2d_face_x := [0; 10; 20]%Q; mesh2d_face_y := [3; 4; 30]%Q;
     _link1d2d :=
       {| link1d2d := [(2, 2)]; link1d2d_contact_type := [3];
          link1d2d_id := ["present"]; link1d2d_long_name := ["present"] |} |}.

Definition append_two_links (network : Network) (mask : list bool)
  (polygon : unit) : Link1d2d :=
  let l := _link1d2d network in
  {| link1d2d := link1d2d l ++ [(0, 0); (1, 2)];
     link1d2d_contact_type := link1d2d_contact_type l ++ [3; 3];
     link1d2d_id := link1d2d_id l ++ ["near"; "far"];
     link1d2d_long_name := link1d2d_long_name l ++ ["near"; "far"] |}%list.

Definition linked_network_after : Network :=
  set_links linked_network
    {| link1d2d := [(2, 2); (0, 0)]; link1d2d_contact_type := [3; 3];
       link1d2d_id := ["present"; "near"];
       link1d2d_long_name := ["present"; "near"] |}.

End Mesh.

(* ================================================================== *)
(** * History file reader *)
(* ================================================================== *)

Module HisReader.

Local Open Scope Z_scope.

(** ** String methods used on the [units] attribute *)

(** [s.split(sep)] for a non-empty separator: [skip] counts the
    characters of a separator occurrence still to be dropped, [cur] is
    the piece being collected. *)
Fixpoint split_go (sep : string) (skip : nat) (cur : string) (s : string)
  : list string :=
  match s with
  | EmptyString => [cur]
  | String c t =>
      match skip with
      | S k => split_go sep k cur t
      | O =>
          if String.prefix sep s
          then cur :: split_go sep (String.length sep - 1) EmptyString t
          else split_go sep 0 (cur ++ String c EmptyString)%string t
      end
  end.

Definition split (sep s : string) : list string := split_go sep 0 EmptyString s.

(** [s.replace(old, new)] for a non-empty [old]. *)
Fixpoint replace_go (old new : string) (skip : nat) (s : string) : string :=
  match s with
  | EmptyString => EmptyString
  | String c t =>
      match skip with
      | S k => replace_go old new k t
      | O =>
          if String.prefix old s
          then (new ++ replace_go old new (String.length old - 1) t)%string
          else String c (replace_go old new 0 t)
      end
  end.

Definition replace (old new s : string) : string := replace_go old new 0 s.

Definition is_space (c : ascii) : bool :=
  let n := nat_of_ascii c in
  (Nat.eqb n 32 || (Nat.leb 9 n && Nat.leb n 13))%bool.

Fixpoint lstrip (s : string) : string :=
  match s with
  | String c t => if is_space c then lstrip t else s
  | EmptyString => EmptyString
  end.

Fixpoint rstrip (s : string) : string :=
  match s with
  | EmptyString => EmptyString
  | String c t =>
      match rstrip t with
      | EmptyString => if is_space c then EmptyString else String c EmptyString
      | t' => String c t'
      end
  end.

Definition strip (s : string) : string := rstrip (lstrip s).

(** ** Dates *)

(** A [datetime] / [Timestamp] is a point of the time line, counted in
    seconds from 1970-01-01 00:00:00; adding a [timedelta] is addition. *)
Definition datetime : Type := Z.

Definition is_leap (y : Z) : bool :=
  ((y mod 4 =? 0) && negb (y mod 100 =? 0) || (y mod 400 =? 0))%bool.

Definition days_in_month (y m : Z) : Z :=
  if m =? 2 then (if is_leap y then 29 else 28)
  else if (m =? 4) || (m =? 6) || (m =? 9) || (m =? 11) then 30
  else 31.

(** Days between 1970-01-01 and the given civil date. *)
Definition days_from_civil (y m d : Z) : Z :=
  let y := if m <=? 2 then y - 1 else y in
  let era := y / 400 in
  let yoe := y - era * 400 in
  let doy := (153 * (if m >? 2 then m - 3 else m + 9) + 2) / 5 + d - 1 in
  let doe := yoe * 365 + yoe / 4 - yoe / 100 + doy in
  era * 146097 + doe - 719468.

(** The civil date and time of day of a point of the time line, as
    [(year, month, day, hour, minute, second)]. *)
Definition civil (t : datetime) : Z * Z * Z * Z * Z * Z :=
  let days := t / 86400 in
  let secs := t mod 86400 in
  let z := days + 719468 in
  let era := z / 146097 in
  let doe := z - era * 146097 in
  let yoe := (doe - doe / 1460 + doe / 36524 - doe / 146096) / 365 in
  let y := yoe + era * 400 in
  let doy := doe - (365 * yoe + yoe / 4 - yoe / 100) in
  let mp := (5 * doy + 2) / 153 in
  let d := doy - (153 * mp + 2) / 5 + 1 in
  let m := if mp <? 10 then mp + 3 else mp - 9 in
  (if m <=? 2 then y + 1 else y, m, d,
   secs / 3600, (secs mod 3600) / 60, secs mod 60).

Definition digit (c : ascii) : option Z :=
  let n := nat_of_ascii c in
  if (Nat.leb 48 n && Nat.leb n 57)%bool then Some (Z.of_nat (n - 48))
  else None.

Definition num2 (a b : ascii) : option Z :=
  match digit a, digit b with
  | Some x, Some y => Some (10 * x + y)
  | _, _ => None
  end.

Definition invalid_iso (s : string) : PyExc :=
  ValueError ("Invalid isoformat string: " ++ s).

(** The time part [HH[:MM[:SS]]]; fractions of a second and utc offsets
    are outside the modelled input language and are rejected. *)
Definition parse_isoformat_time (whole tstr : string) : result Z :=
  let check h m s :=
    if (h <? 24) && (m <? 60) && (s <? 60)
    then Ok (h * 3600 + m * 60 + s)
    else Raise (invalid_iso whole) in
  match tstr with
  | String h1 (String h2 EmptyString) =>
      match num2 h1 h2 with
      | Some h => check h 0 0
      | None => Raise (invalid_iso whole)
      end
  | String h1 (String h2 (String ":" (String m1 (String m2 EmptyString)))) =>
      match num2 h1 h2, num2 m1 m2 with
      | Some h, Some m => check h m 0
      | _, _ => Raise (invalid_iso whole)
      end
  | String h1 (String h2 (String ":" (String m1 (String m2
      (String ":" (String s1 (String s2 EmptyString))))))) =>
      match num2 h1 h2, num2 m1 m2, num2 s1 s2 with
      | Some h, Some m, Some s => check h m s
      | _, _, _ => Raise (invalid_iso whole)
      end
  | _ => Raise (invalid_iso whole)
  end.

(** [datetime.fromisoformat]: [YYYY-MM-DD], optionally followed by one
    separator character and a time. *)
Definition fromisoformat (s : string) : result datetime :=
  match s with
  | String y1 (String y2 (String y3 (String y4 (String "-"
      (String m1 (String m2 (String "-" (String d1 (String d2 rest))))))))) =>
      match num2 y1 y2, num2 y3 y4, num2 m1 m2, num2 d1 d2 with
      | Some yh, Some yl, Some m, Some d =>
          let y := 100 * yh + yl in
          if (1 <=? y) && (1 <=? m) && (m <=? 12)
             && (1 <=? d) && (d <=? days_in_month y m)
          then
            match rest with
            | EmptyString => Ok (days_from_civil y m d * 86400)
            | String _ tstr =>
                secs <- parse_isoformat_time s tstr ;;
                Ok (days_from_civil y m d * 86400 + secs)
            end
          else Raise (invalid_iso s)
      | _, _, _, _ => Raise (invalid_iso s)
      end
  | _ => Raise (invalid_iso s)
  end.

(** [pd.date_range(start, end, freq="<step>S")]: the instants
    [start + k * step] that do not pass [end]. *)
Definition date_range (start end_ : datetime) (step : Z)
  : result (list datetime) :=
  if step =? 0 then Raise (ValueError "Offset <0 * Seconds> did not increment date")
  else if 0 <? step then
    if end_ <? start then Ok []
    else Ok (map (fun k => start + Z.of_nat k * step)
                 (seq 0 (S (Z.to_nat ((end_ - start) / step)))))
  else
    if start <? end_ then Ok []
    else Ok (map (fun k => start + Z.of_nat k * step)
                 (seq 0 (S (Z.to_nat ((start - end_) / (- step)))))).

(** [np.amax] of the time values. *)
Definition amax (l : list Z) : result Z :=
  match l with
  | [] => Raise (ValueError
            "zero-size array to reduction operation maximum which has no identity")
  | a :: t => Ok (fold_left Z.max t a)
  end.

Definition get_item {A : Type} (l : list A) (i : nat) : result A :=
  match nth_error l i with
  | Some a => Ok a
  | None => Raise (IndexError "index out of range")
  end.

(** The start instant read from the [units] attribute. *)
Definition parse_units (units : string) : result datetime :=
  piece <- get_item (split "since " units) 1 ;;
  let t_start := strip (replace "+00:00" "" piece) in
  fromisoformat t_start.

(** [HisResults.__make_timeframe]: [units] and [time] are the attribute
    and the values (whole seconds) of the file's [time] variable; the
    result is the index of [self.timeframe]. *)
Definition make_timeframe (units : string) (time : list Z)
  : result (list datetime) :=
  start_datetime <- parse_units units ;;
  tmax <- amax time ;;
  let end_datetime := start_datetime + tmax in
  t1 <- get_item time 1 ;;
  t0 <- get_item time 0 ;;
  let delta_time := t1 - t0 in
  date_range start_datetime end_datetime delta_time.

End HisReader.

(* ================================================================== *)
(** * Friction shapefile overlay *)
(* ================================================================== *)

Module Friction.

Local Open Scope Z_scope.

(** A number is an [int] or a [float]; the code tests with
    [isinstance]. *)
Inductive Num : Type :=
| NInt (z : Z)
| NFloat (q : Q).

(** A cell of the friction table: [None], a scalar or a list. *)
Inductive Cell : Type :=
| CNone
| CNum (n : Num)
| CList (l : list Num).

Definition num_value (n : Num) : Q :=
  match n with
  | NInt z => inject_Z z
  | NFloat q => q
  end.

(** Python [==] on numbers and on cells. *)
Definition num_eqb (a b : Num) : bool := Qeq_bool (num_value a) (num_value b).

Fixpoint nums_eqb (a b : list Num) : bool :=
  match a, b with
  | [], [] => true
  | x :: a', y :: b' => num_eqb x y && nums_eqb a' b'
  | _, _ => false
  end.

Definition cell_eqb (a b : Cell) : bool :=
  match a, b with
  | CNone, CNone => true
  | CNum x, CNum y => num_eqb x y
  | CList x, CList y => nums_eqb x y
  | _, _ => false
  end.

(** The global and per-branch records of a friction file. *)
Record FrictGlobal : Type := {
  g_frictionid : string;
  g_frictiontype : string;
  g_frictionvalue : Q
}.

Record FrictBranch : Type := {
  branchid : string;
  frictiontype : string;
  functiontype : string;
  numlocations : Cell;
  chainage : Cell;
  frictionvalues : Cell
}.

Record FrictionModel : Type := {
  global_ : list FrictGlobal;
  branch : list FrictBranch
}.

(** Dictionaries keep insertion order; assigning an existing key
    replaces its value in place. *)
Fixpoint dict_set {V : Type} (k : string) (v : V) (d : list (string * V))
  : list (string * V) :=
  match d with
  | [] => [(k, v)]
  | (k', v') :: t =>
      if String.eqb k' k then (k, v) :: t else (k', v') :: dict_set k v t
  end.

Fixpoint dict_get {V : Type} (k : string) (d : list (string * V))
  : result V :=
  match d with
  | [] => Raise (KeyError k)
  | (k', v) :: t => if String.eqb k' k then Ok v else dict_get k t
  end.

(** [friction2dict]: both dictionaries are keyed by the [frictionid] of
    the first global record of each friction file. *)
Fixpoint friction2dict_loop (frictfile : list FrictionModel)
  (dfsglob : list (string * list FrictGlobal))
  (dfschan : list (string * list FrictBranch))
  : result (list (string * list FrictGlobal)
            * list (string * list FrictBranch)) :=
  match frictfile with
  | [] => Ok (dfsglob, dfschan)
  | f :: rest =>
      match global_ f with
      | [] => Raise (IndexError "list index out of range")
      | g0 :: _ =>
          friction2dict_loop rest
            (dict_set (g_frictionid g0) (global_ f) dfsglob)
            (dict_set (g_frictionid g0) (branch f) dfschan)
      end
  end.

Definition friction2dict (frictfile : list FrictionModel) :=
  friction2dict_loop frictfile [] [].

(** A branch of the network and a feature of the friction shapefile. *)
Record BranchLine (Geometry : Type) : Type := {
  id : string;
  branch_geometry : Geometry
}.
Arguments id {Geometry} _.
Arguments branch_geometry {Geometry} _.

(** The [fricval] attribute is an [int] or a [float], as the field of
    the shapefile is. *)
Record FrictShape (Geometry : Type) : Type := {
  fricval : Num;
  shape_geometry : Geometry
}.
Arguments fricval {Geometry} _.
Arguments shape_geometry {Geometry} _.

(** A row of [merge]: the friction record, and the columns of [in_model]
    joined to it (absent when the branch has no row in [in_model]). *)
Record MergeRow (Geometry : Type) : Type := {
  m_branchid : string;
  m_frictiontype : string;
  m_functiontype : string;
  m_numlocations : Cell;
  m_chainage : Cell;
  m_frictionvalues : Cell;
  m_joined : option (BranchLine Geometry * FrictShape Geometry * bool)
}.
Arguments m_branchid {Geometry} _.
Arguments m_frictiontype {Geometry} _.
Arguments m_functiontype {Geometry} _.
Arguments m_numlocations {Geometry} _.
Arguments m_chainage {Geometry} _.
Arguments m_frictionvalues {Geometry} _.
Arguments m_joined {Geometry} _.

Definition buffer : Q := 10.

(** A numeric column is [float64] as soon as one of its values is a
    float; [astype_float] is the value an [int] takes in such a
    column. *)
Definition is_float (n : Num) : bool :=
  match n with
  | NFloat _ => true
  | NInt _ => false
  end.

Definition astype_float (n : Num) : Num := NFloat (num_value n).

Section Overlay.
Variable Geometry : Type.
(** [geopandas.sjoin_nearest(left, right, max_distance)]. *)
Variable sjoin_nearest :
  list (BranchLine Geometry) -> list (FrictShape Geometry) -> Q ->
  list (BranchLine Geometry * FrictShape Geometry).

Definition InModelRow : Type :=
  (BranchLine Geometry * FrictShape Geometry * bool)%type.

(** [intersect.assign(result=intersect["id"].isin(...branchid))]. *)
Definition assign_result
  (intersect : list (BranchLine Geometry * FrictShape Geometry))
  (frictions : list FrictBranch) : list InModelRow :=
  map (fun bs =>
         (bs, existsb (fun f => String.eqb (id (fst bs)) (branchid f))
                      frictions))
      intersect.

(** [dict_frictions[key].merge(in_model, how="left", on="branchid")]. *)
Definition merge_on_branchid (frictions : list FrictBranch)
  (in_model : list InModelRow) : list (MergeRow Geometry) :=
  let mk f j :=
    {| m_branchid := branchid f;
       m_frictiontype := frictiontype f;
       m_functiontype := functiontype f;
       m_numlocations := numlocations f;
       m_chainage := chainage f;
       m_frictionvalues := frictionvalues f;
       m_joined := j |} in
  flat_map
    (fun f =>
       match filter (fun r => String.eqb (branchid f) (id (fst (fst r))))
                    in_model with
       | [] => [mk f None]
       | rs => map (fun r => mk f (Some r)) rs
       end)
    frictions.

(** [merge.result == True]. *)
Definition result_true (r : MergeRow Geometry) : bool :=
  match m_joined r with
  | Some (_, res) => res
  | None => false
  end.

(** The three [merge.loc[merge.result == True, ...] = ...]
    assignments; [float_column] tells whether the column
    [merge["fricval"]] is [float64]. *)
Definition overwrite (float_column : bool) (r : MergeRow Geometry)
  : MergeRow Geometry :=
  match m_joined r with
  | Some (_, s, true) =>
      {| m_branchid := m_branchid r;
         m_frictiontype := m_frictiontype r;
         m_functiontype := m_functiontype r;
         m_numlocations := CNum (NInt 1);
         m_chainage := CNum (NInt 0);
         m_frictionvalues :=
           CNum (if float_column then astype_float (fricval s)
                 else fricval s);
         m_joined := m_joined r |}
  | _ => r
  end.

(** A row of [merge] without a match in [in_model]: its joined columns
    hold not-a-number. *)
Definition unmatched (r : MergeRow Geometry) : bool :=
  match m_joined r with
  | None => true
  | Some _ => false
  end.

(** [lambda x: [x] if isinstance(x, float) else x] and its [int]
    counterpart. *)
Definition list_if_float (x : Cell) : Cell :=
  match x with
  | CNum (NFloat q) => CList [NFloat q]
  | _ => x
  end.

Definition list_if_int (x : Cell) : Cell :=
  match x with
  | CNum (NInt z) => CList [NInt z]
  | _ => x
  end.

Definition to_lists (r : MergeRow Geometry) : MergeRow Geometry :=
  {| m_branchid := m_branchid r;
     m_frictiontype := m_frictiontype r;
     m_functiontype := m_functiontype r;
     m_numlocations := m_numlocations r;
     m_chainage := list_if_int (m_chainage r);
     m_frictionvalues := list_if_float (m_frictionvalues r);
     m_joined := m_joined r |}.

(** Dropping the columns that came from [in_model] and
    [to_dict("records")]. *)
Definition to_record (r : MergeRow Geometry) : FrictBranch :=
  {| branchid := m_branchid r;
     frictiontype := m_frictiontype r;
     functiontype := m_functiontype r;
     numlocations := m_numlocations r;
     chainage := m_chainage r;
     frictionvalues := m_frictionvalues r |}.

(** The body of the loop over [dict_frictions] for one key: the file
    name and the model that is saved.  [fricval_float] tells whether the
    [fricval] column of the shapefile is [float64]; after the left merge
    the column is [float64] as well when a record without a match puts
    not-a-number into it. *)
Definition overlay_file
  (intersect : list (BranchLine Geometry * FrictShape Geometry))
  (fricval_float : bool)
  (wipe : bool) (key : string) (globals : list FrictGlobal)
  (frictions : list FrictBranch) : string * FrictionModel :=
  let path := ("roughness-" ++ key ++ ".ini")%string in
  match frictions with
  | [] => (path, {| global_ := globals; branch := [] |})
  | _ =>
      let in_model := assign_result intersect frictions in
      let merge := merge_on_branchid frictions in_model in
      let float_column := fricval_float || existsb unmatched merge in
      let merge := map (overwrite float_column) merge in
      let merge := map to_lists merge in
      if wipe then
        let new_branches := filter result_true merge in
        (path, {| global_ := globals; branch := map to_record new_branches |})
      else
        (path, {| global_ := globals; branch := map to_record merge |})
  end.

(** [change_friction_shape]: [frictfile] is [fm.geometry.frictfile],
    [branches] the ["1d_branches"] layer of the net file and
    [gdf_frict] the friction shapefile.  The result lists the files
    written, in order. *)
Definition change_friction_shape (frictfile : list FrictionModel)
  (branches : list (BranchLine Geometry))
  (gdf_frict : list (FrictShape Geometry)) (wipe : bool)
  : result (list (string * FrictionModel)) :=
  dicts <- friction2dict frictfile ;;
  let dict_global := fst dicts in
  let dict_frictions := snd dicts in
  let intersect := sjoin_nearest branches gdf_frict buffer in
  let fricval_float := existsb (fun s => is_float (fricval s)) gdf_frict in
  mapM (fun kv : string * list FrictBranch =>
          globals <- dict_get (fst kv) dict_global ;;
          Ok (overlay_file intersect fricval_float wipe (fst kv) globals
                (snd kv)))
       dict_frictions.
End Overlay.

(** Two records hold the same values in the sense of Python's [==]
    (an [int] equals the [float] of the same value). *)
Definition same_values (a b : FrictBranch) : Prop :=
  branchid a = branchid b
  /\ cell_eqb (numlocations a) (numlocations b) = true
  /\ cell_eqb (chainage a) (chainage b) = true
  /\ cell_eqb (frictionvalues a) (frictionvalues b) = true.

(** Example: one friction file with two channel records, of which
    [channel_1] lies next to a shapefile feature with value 0.05.  The
    join stand-in pairs every branch with the features of the same
    abscissa. *)
Definition channels_file : FrictionModel :=
  {| global_ := [ {| g_frictionid := "Channels"; g_frictiontype := "Manning";
                     g_frictionvalue := (3 # 100)%Q |} ];
     branch :=
       [ {| branchid := "channel_1"; frictiontype := "Manning";
            functiontype := "constant"; numlocations := CNum (NInt 2);
            chainage := CList [NFloat 0; NFloat 100];
            frictionvalues := CList [NFloat (3 # 100); NFloat (4 # 100)] |};
         {| branchid := "channel_2"; frictiontype := "Manning";
            functiontype := "constant"; numlocations := CNum (NInt 0);
            chainage := CNone;
            frictionvalues := CList [NFloat (3 # 100)] |} ] |}.

Definition example_branches : list (BranchLine Z) :=
  [ {| id := "channel_1"; branch_geometry := 0 |};
    {| id := "channel_2"; branch_geometry := 500 |} ].

Definition example_shapes : list (FrictShape Z) :=
  [ {| fricval := NFloat (5 # 100)%Q; shape_geometry := 3 |} ].

(** A shapefile whose [fricval] field is an integer field, and a
    friction file with the single record of [channel_1], which is
    joined. *)
Definition example_shapes_int : list (FrictShape Z) :=
  [ {| fricval := NInt 30; shape_geometry := 3 |} ].

Definition channel_1_file : FrictionModel :=
  {| global_ := global_ channels_file;
     branch := firstn 1 (branch channels_file) |}.

Definition join_within (left : list (BranchLine Z))
  (right : list (FrictShape Z)) (max_distance : Q)
  : list (BranchLine Z * FrictShape Z) :=
  flat_map
    (fun b =>
       map (fun s => (b, s))
           (filter (fun s =>
                      Qle_bool
                        (inject_Z (Z.abs (branch_geometry b - shape_geometry s)))
                        max_distance)
                   right))
    left.

Definition channel_1_overlaid : FrictBranch :=
  {| branchid := "channel_1"; frictiontype := "Manning";
     functiontype := "constant"; numlocations := CNum (NInt 1);
     chainage := CList [NInt 0];
     frictionvalues := CList [NFloat (5 # 100)] |}.

Definition channels_file_overlaid : FrictionModel :=
  {| global_ := global_ channels_file;
     branch :=
       [ channel_1_overlaid;
         {| branchid := "channel_2"; frictiontype := "Manning";
            functiontype := "constant"; numlocations := CNum (NInt 0);
            chainage := CNone;
            frictionvalues := CList [NFloat (3 # 100)] |} ] |}.

End Friction.

(* ================================================================== *)
(** * Statistics export *)
(* ================================================================== *)

Module Statistics.

Local Open Scope Z_scope.

(** A [Timestamp] of the time index, in seconds from 1970-01-01. *)
Definition Timestamp : Type := Z.

(** A column of the data frame: one value per time step, [None] for
    not-a-number. *)
Definition Series : Type := list (option Q).

(** The table returned by [read_nc_data]: the time index and one column
    per feature id. *)
Record DataFrame : Type := {
  index : list Timestamp;
  columns : list (string * Series)
}.

(** [datetime.strptime(s, "%Y/%m/%d")]. *)
Fixpoint digits_value (acc : Z) (s : string) : option Z :=
  match s with
  | EmptyString => Some acc
  | String c t =>
      match HisReader.digit c with
      | Some d => digits_value (10 * acc + d) t
      | None => None
      end
  end.

Definition strptime_error (s : string) : PyExc :=
  ValueError ("time data " ++ s ++ " does not match format %Y/%m/%d").

Definition strptime (s : string) : result Timestamp :=
  match HisReader.split "/" s with
  | [ys; ms; ds] =>
      if (Nat.eqb (String.length ys) 4)
         && (Nat.leb 1 (String.length ms)) && (Nat.leb (String.length ms) 2)
         && (Nat.leb 1 (String.length ds)) && (Nat.leb (String.length ds) 2)
      then
        match digits_value 0 ys, digits_value 0 ms, digits_value 0 ds with
        | Some y, Some m, Some d =>
            if (1 <=? y) && (1 <=? m) && (m <=? 12)
               && (1 <=? d) && (d <=? HisReader.days_in_month y m)
            then Ok (HisReader.days_from_civil y m d * 86400)
            else Raise (strptime_error s)
        | _, _, _ => Raise (strptime_error s)
        end
      else Raise (strptime_error s)
  | _ => Raise (strptime_error s)
  end.

(** [min(df.index)] and [max(df.index)]. *)
Definition min_index (l : list Timestamp) : result Timestamp :=
  match l with
  | [] => Raise (ValueError "min() arg is an empty sequence")
  | a :: t => Ok (fold_left Z.min t a)
  end.

Definition max_index (l : list Timestamp) : result Timestamp :=
  match l with
  | [] => Raise (ValueError "max() arg is an empty sequence")
  | a :: t => Ok (fold_left Z.max t a)
  end.

(** [df[mask]]: the rows of every column at the positions where the
    mask holds. *)
Fixpoint select {A : Type} (mask : list bool) (l : list A) : list A :=
  match mask, l with
  | b :: mask', a :: l' => if b then a :: select mask' l' else select mask' l'
  | _, _ => []
  end.

Definition filter_rows (keep : Timestamp -> bool) (df : DataFrame)
  : DataFrame :=
  let mask := map keep (index df) in
  {| index := select mask (index df);
     columns := map (fun c => (fst c, select mask (snd c))) (columns df) |}.

(** [raise ("...")]: the operand of [raise] is a [str], which is not an
    exception; the interpreter raises [TypeError] instead. *)
Definition raise_str (msg : string) : PyExc :=
  TypeError "exceptions must derive from BaseException".

(** Substring test, [needle in s]. *)
Fixpoint contains (needle s : string) : bool :=
  String.prefix needle s
  || match s with
     | EmptyString => false
     | String _ t => contains needle t
     end.

(** ** Column statistics *)

Fixpoint dropna (s : Series) : list Q :=
  match s with
  | [] => []
  | Some q :: t => q :: dropna t
  | None :: t => dropna t
  end.

Definition Qmax' (a b : Q) : Q := if Qlt_le_dec a b then b else a.
Definition Qmin' (a b : Q) : Q := if Qlt_le_dec b a then b else a.

(** [Series.max()] and [Series.min()], skipping not-a-number. *)
Definition series_max (s : Series) : option Q :=
  match dropna s with
  | [] => None
  | a :: t => Some (fold_left Qmax' t a)
  end.

Definition series_min (s : Series) : option Q :=
  match dropna s with
  | [] => None
  | a :: t => Some (fold_left Qmin' t a)
  end.

Definition Qsum (l : list Q) : Q := fold_left Qplus l 0%Q.

Definition series_count (s : Series) : Q :=
  inject_Z (Z.of_nat (List.length (dropna s))).

Definition series_mean (s : Series) : option Q :=
  match dropna s with
  | [] => None
  | l => Some (Qsum l / inject_Z (Z.of_nat (List.length l)))%Q
  end.

Definition Qleb (a b : Q) : bool := if Qlt_le_dec b a then false else true.

(** The 0.5 quantile with linear interpolation between the two middle
    values. *)
Definition series_median (s : Series) : option Q :=
  let v := Py.sort Qleb (dropna s) in
  let n := List.length v in
  match n with
  | O => None
  | _ =>
      let lo := nth ((n - 1) / 2)%nat v 0%Q in
      if Nat.even (n - 1) then Some lo
      else
        let hi := nth (S ((n - 1) / 2))%nat v 0%Q in
        Some (lo + (1 # 2) * (hi - lo))%Q
  end.

(** A feature of the geometry layer. *)
Record Feature (Geometry : Type) : Type := {
  feature_id : string;
  feature_geometry : Geometry
}.
Arguments feature_id {Geometry} _.
Arguments feature_geometry {Geometry} _.

(** A row of the returned table: the feature and its statistic columns,
    by name. *)
Record StatRow (Geometry : Type) : Type := {
  feature : Feature Geometry;
  stats : list (string * option Q)
}.
Arguments feature {Geometry} _.
Arguments stats {Geometry} _.

(** [gdf.merge(df_stat, left_on="id", right_index=True)]: an inner
    join. *)
Definition merge_stats {Geometry : Type} (gdf : list (Feature Geometry))
  (df_stat : list (string * list (string * option Q)))
  : list (StatRow Geometry) :=
  flat_map
    (fun f =>
       map (fun r => {| feature := f; stats := snd r |})
           (filter (fun r => String.eqb (feature_id f) (fst r)) df_stat))
    gdf.

(** What the model knows of the opened dataset. *)
Record Dataset (Geometry : Type) : Type := {
  variables : list string;
  par_mesh : string;
  par_location : string;
  read_nc_data : DataFrame;
  net_nc2gdf : string -> list (Feature Geometry)
}.
Arguments variables {Geometry} _.
Arguments par_mesh {Geometry} _.
Arguments par_location {Geometry} _.
Arguments read_nc_data {Geometry} _.
Arguments net_nc2gdf {Geometry} _.

Section StatisticsExport.
Variable Geometry : Type.
(** The sample standard deviation computed by [describe]. *)
Variable series_std : Series -> option Q.
(** The comparisons [sdate > edata] and [edate < sdata] between a date
    string and a time stamp of the index. *)
Variable str_gt : string -> Timestamp -> result bool.
Variable str_lt : string -> Timestamp -> result bool.

(** Lines 95-109: the date-range guard and the time filter. *)
Definition filter_time (df : DataFrame) (sdate edate : string)
  : result DataFrame :=
  sdata <- min_index (index df) ;;
  edata <- max_index (index df) ;;
  df <-
    (if String.eqb sdate "" then Ok df
     else
       later <- str_gt sdate edata ;;
       if later : bool
       then Raise (raise_str "start date later then end date in model results")
       else
         t <- strptime sdate ;;
         Ok (filter_rows (fun i => t <=? i) df)) ;;
  if String.eqb edate "" then Ok df
  else
    earlier <- str_lt edate sdata ;;
    if earlier : bool
    then Raise (raise_str "end date earlier then start date in model results")
    else
      t <- strptime edate ;;
      Ok (filter_rows (fun i => i <=? t) df).

(** [df.describe(percentiles=[0.5]).transpose()]. *)
Definition describe (df : DataFrame)
  : result (list (string * list (string * option Q))) :=
  match columns df with
  | [] => Raise (ValueError "Cannot describe a DataFrame without columns")
  | cols =>
      Ok (map (fun c =>
                 (fst c,
                  [("count", Some (series_count (snd c)));
                   ("mean", series_mean (snd c));
                   ("std", series_std (snd c));
                   ("min", series_min (snd c));
                   ("50%", series_median (snd c));
                   ("max", series_max (snd c))]))
              cols)
  end.

(** [pd.DataFrame(df.max(), columns=["max"])]. *)
Definition max_frame (df : DataFrame)
  : list (string * list (string * option Q)) :=
  map (fun c => (fst c, [("max", series_max (snd c))])) (columns df).

Definition known_extension (extension : string) : bool :=
  existsb (String.eqb extension) [".csv"; ".xlsx"; ".shp"; ".tif"].

(** [statistics_dhydro]: [extension] is the lower-cased extension of
    [output_file]; writing the export file is not part of the state
    modelled here, only its failure for [.tif] is. *)
Definition statistics_dhydro (ds : Dataset Geometry) (par : string)
  (sdate edate : string) (extension : string) (stat : string)
  : result (list (StatRow Geometry)) :=
  if negb (existsb (String.eqb par) (variables ds))
  then Raise (ValueError ("Parameter '" ++ par ++ "'niet in nc-file"))
  else
    let df := read_nc_data ds in
    df <- filter_time df sdate edate ;;
    network_type <-
      (if contains "mesh2d" (Py.lower (par_mesh ds)) then Ok "2d_faces"
       else if contains "mesh1d" (Py.lower (par_mesh ds)) then
         Ok (if contains "node" (par_location ds)
             then "1d_meshnodes" else "1d_edges")
       else Raise (Exception_ "Onbekende celsoort, check de code en waardes.")) ;;
    let gdf := net_nc2gdf ds network_type in
    gdf <-
      (if String.eqb stat "" then
         df_stat <- describe df ;;
         Ok (merge_stats gdf df_stat)
       else if String.eqb stat "max" then
         Ok (merge_stats gdf (max_frame df))
       else Ok (map (fun f => {| feature := f; stats := [] |}) gdf)) ;;
    match gdf with
    | [] => Raise (IndexError "single positional indexer is out-of-bounds")
    | _ =>
        if known_extension extension then
          if String.eqb extension ".tif"
          then Raise (TypeError "argument after ** must be a mapping, not str")
          else Ok gdf
        else Ok gdf
    end.
End StatisticsExport.

(** Python's [sdate > edata] and [edate < sdata]: the left operand is a
    [str], the right one a [Timestamp] of the index.  Neither type
    implements the comparison with the other, so the interpreter raises
    [TypeError]. *)
Definition str_gt_timestamp (s : string) (t : Timestamp) : result bool :=
  Raise (TypeError
           "'>' not supported between instances of 'str' and 'Timestamp'").

Definition str_lt_timestamp (s : string) (t : Timestamp) : result bool :=
  Raise (TypeError
           "'<' not supported between instances of 'str' and 'Timestamp'").

(** The comparison that the date guard intends: the date string, read
    with the format of the filter, against the time stamp.  It is not
    Python's comparison ([str_gt_timestamp], [str_lt_timestamp]); the
    examples use it to reach the statements behind the comparison. *)
Definition date_str_gt (s : string) (t : Timestamp) : result bool :=
  d <- strptime s ;; Ok (t <? d).

Definition date_str_lt (s : string) (t : Timestamp) : result bool :=
  d <- strptime s ;; Ok (d <? t).

(** A stand-in for the sample standard deviation in examples: the
    integer part of the root of the sample variance. *)
Definition std_floor (s : Series) : option Q :=
  match dropna s with
  | [] | [_] => None
  | l =>
      let n := inject_Z (Z.of_nat (List.length l)) in
      let mean := (Qsum l / n)%Q in
      let ss := Qsum (map (fun x => (x - mean) * (x - mean))%Q l) in
      Some (inject_Z (Z.sqrt (Qfloor (ss / (n - 1))%Q)))
  end.

(** Example: water levels at two mesh nodes on 2020-01-01, hourly. *)
Definition levels : DataFrame :=
  {| index := [1577836800; 1577840400; 1577844000];
     columns := [("n1", [Some 1; Some 3; Some 2]%Q);
                 ("n2", [Some 5; None; Some 4]%Q)] |}.

Definition levels_dataset : Dataset Z :=
  {| variables := ["mesh1d_s1"];
     par_mesh := "mesh1d";
     par_location := "node";
     read_nc_data := levels;
     net_nc2gdf := fun _ =>
       [ {| feature_id := "n1"; feature_geometry := 0 |};
         {| feature_id := "n2"; feature_geometry := 1 |} ] |}.

Definition statistics_example (sdate edate stat : string)
  : result (list (StatRow Z)) :=
  statistics_dhydro Z std_floor date_str_gt date_str_lt levels_dataset
    "mesh1d_s1" sdate edate ".csv" stat.

(** The same call with Python's comparison of the dates. *)
Definition statistics_python_example (sdate edate stat : string)
  : result (list (StatRow Z)) :=
  statistics_dhydro Z std_floor str_gt_timestamp str_lt_timestamp
    levels_dataset "mesh1d_s1" sdate edate ".csv" stat.

Definition levels_max_rows : list (StatRow Z) :=
  [ {| feature := {| feature_id := "n1"; feature_geometry := 0 |};
       stats := [("max", Some 3%Q)] |};
    {| feature := {| feature_id := "n2"; feature_geometry := 1 |};
       stats := [("max", Some 5%Q)] |} ].

End Statistics.

(* ================================================================== *)
(** * Pipe setup: invert levels *)
(* ================================================================== *)

Module Pipes.

Local Open Scope Z_scope.

(** A cell of a (geo)dataframe. *)
Inductive Value : Type :=
| VNull
| VNum (q : Q)
| VStr (s : string)
| VGeom (coords : list (Q * Q)).

(** A table is the list of its named columns, all of the same length. *)
Definition Table : Type := list (string * list Value).

Definition has_column (name : string) (t : Table) : bool :=
  existsb (fun c => String.eqb (fst c) name) t.

Fixpoint get_column (name : string) (t : Table) : result (list Value) :=
  match t with
  | [] => Raise (KeyError name)
  | (n, v) :: rest => if String.eqb n name then Ok v else get_column name rest
  end.

Definition nrows (t : Table) : nat :=
  match t with
  | [] => O
  | (_, v) :: _ => List.length v
  end.

(** [t[name] = v]: replaces the column or appends it. *)
Fixpoint set_column (name : string) (v : list Value) (t : Table) : Table :=
  match t with
  | [] => [(name, v)]
  | (n, w) :: rest =>
      if String.eqb n name then (n, v) :: rest
      else (n, w) :: set_column name v rest
  end.

Definition is_null (v : Value) : bool :=
  match v with
  | VNull => true
  | _ => false
  end.

(** The literal list of [setup_pipes], lines 570-583. *)
Definition _allowed_columns : list string :=
  ["geometry"; "branchId"; "branchType"; "branchOrder"; "material";
   "spacing"; "shape"; "diameter"; "width"; "height";
   "invlev_up"; "inlev_dn"].

(** [gdf_pipe[set(_allowed_columns).intersection(gdf_pipe.columns)]]
    (the order of the retained columns is not specified by the code;
    table order is used). *)
Definition select_allowed (gdf_pipe : Table) : Table :=
  filter (fun c => existsb (String.eqb (fst c)) _allowed_columns) gdf_pipe.

Definition value_eqb_str (v : Value) (s : string) : bool :=
  match v with
  | VStr t => String.eqb t s
  | _ => false
  end.

(** Position of the first row of [defaults] whose [branchType] is
    [brtype]. *)
Fixpoint find_row (brtype : string) (col : list Value) (i : nat)
  : option nat :=
  match col with
  | [] => None
  | v :: t => if value_eqb_str v brtype then Some i else find_row brtype t (S i)
  end.

Fixpoint fill_cells (key : list Value) (brtype : string) (d : Value)
  (cells : list Value) : list Value :=
  match key, cells with
  | k :: key', c :: cells' =>
      (if value_eqb_str k brtype && is_null c then d else c)
        :: fill_cells key' brtype d cells'
  | _, _ => cells
  end.

(** Modelled from the spec: [update_data_columns_attributes] of the
    [workflows] package is not among the sources.  It "joins a
    [branchType]-keyed defaults table onto the input, filling any column
    absent or null, without overwriting populated values". *)
Definition update_data_columns_attributes (gdf : Table) (defaults : Table)
  (brtype : string) : Table :=
  match get_column "branchType" defaults, get_column "branchType" gdf with
  | Ok dkey, Ok key =>
      match find_row brtype dkey 0 with
      | None => gdf
      | Some i =>
          fold_left
            (fun (t : Table) (c : string * list Value) =>
               if String.eqb (fst c) "branchType" then t
               else
                 let d := nth i (snd c) VNull in
                 let old :=
                   match get_column (fst c) t with
                   | Ok cells => cells
                   | Raise _ => repeat VNull (nrows gdf)
                   end in
                 set_column (fst c) (fill_cells key brtype d old) t)
            defaults gdf
      end
  | _, _ => gdf
  end.

(** [crosssections_value]: a float, or a list. *)
Inductive CrsValue : Type :=
| CrsFloat (q : Q)
| CrsInt (z : Z)
| CrsList (l : list Q).

(** [defaults[name] = v] for a scalar [v]. *)
Definition set_scalar (name : string) (v : Value) (t : Table) : Table :=
  set_column name (repeat v (nrows t)) t.

(** Lines 592-617: the cross-section defaults; [None] when the setup is
    skipped. *)
Definition add_crosssection_defaults (crosssections_shape : string)
  (crosssections_value : CrsValue) (defaults : Table) : option Table :=
  if String.eqb crosssections_shape "circle" then
    match crosssections_value with
    | CrsFloat d =>
        Some (set_scalar "diameter" (VNum d)
                (set_scalar "shape" (VStr crosssections_shape) defaults))
    | _ => None
    end
  else if String.eqb crosssections_shape "rectangle" then
    match crosssections_value with
    | CrsList [w; h] =>
        Some (set_scalar "height" (VNum h)
                (set_scalar "width" (VNum w)
                   (set_scalar "shape" (VStr crosssections_shape) defaults)))
    | _ => None
    end
  else None.

Definition count_null (cells : list Value) : nat :=
  List.length (filter is_null cells).

(** [cells[mask]]. *)
Fixpoint keep_rows (mask : list bool) (cells : list Value) : list Value :=
  match mask, cells with
  | b :: mask', c :: cells' =>
      if b then c :: keep_rows mask' cells' else keep_rows mask' cells'
  | _, _ => []
  end.

(** Lines 536-538: [gdf_pipe[gdf_pipe["branchType"] == pipe_filter]],
    when a filter is given and the column exists. *)
Definition apply_pipe_filter (pipe_filter : option string)
  (gdf_pipe : Table) : Table :=
  match pipe_filter, get_column "branchType" gdf_pipe with
  | Some flt, Ok key =>
      let mask := map (fun v => value_eqb_str v flt) key in
      map (fun c => (fst c, keep_rows mask (snd c))) gdf_pipe
  | _, _ => gdf_pipe
  end.

(** Lines 544-552: the columns [branchType] (all ["pipe"]) and
    [branchId] ([pipe_1], [pipe_2], ...) are added when missing. *)
Definition add_branch_ids (gdf_pipe : Table) : Table :=
  let gdf_pipe :=
    if has_column "branchType" gdf_pipe then gdf_pipe
    else set_column "branchType" (repeat (VStr "pipe") (nrows gdf_pipe))
           gdf_pipe in
  if has_column "branchId" gdf_pipe then gdf_pipe
  else
    set_column "branchId"
      (map (fun i => VStr ("pipe_" ++ Crosssections.string_of_nat i))
           (seq 1 (nrows gdf_pipe)))
      gdf_pipe.

Section SetupPipes.
(** The terrain raster. *)
Variable Dem : Type.
(** [process_branches] followed by [validate_branches] and the
    reprojection, as called by [_setup_branches]: the processed
    branches table. *)
Variable process_branches : Table -> result Table.
(** [invert_levels_from_dem(gdf, dem, depth)]. *)
Variable invert_levels_from_dem : Table -> Dem -> Q -> Table.
(** [f"{ftype}_{fvalue}"]. *)
Variable friction_id : Value -> Value -> Value.

(** [_setup_branches] with [spacing=None]. *)
Definition _setup_branches (gdf_br defaults : Table) (br_type : string)
  : result Table :=
  let gdf_br := update_data_columns_attributes gdf_br defaults br_type in
  process_branches gdf_br.

Fixpoint zip_with (f : Value -> Value -> Value) (a b : list Value)
  : list Value :=
  match a, b with
  | x :: a', y :: b' => f x y :: zip_with f a' b'
  | _, _ => []
  end.

(** [setup_pipes], lines 569-669, on the pipes read from [pipes_fn]
    (with [branchType] and [branchId] present).  The result is the
    [pipes] table, or [None] when the setup is skipped. *)
Definition setup_pipes (gdf_pipe : Table) (defaults : Table)
  (spacing : Q) (friction_type : string) (friction_value : Q)
  (crosssections_shape : string) (crosssections_value : CrsValue)
  (dem_fn : option Dem) (pipes_depth pipes_invlev : Q)
  : result (option Table) :=
  let gdf_pipe := select_allowed gdf_pipe in
  let defaults := set_scalar "spacing" (VNum spacing) defaults in
  let defaults := set_scalar "frictionType" (VStr friction_type) defaults in
  let defaults := set_scalar "frictionValue" (VNum friction_value) defaults in
  match add_crosssection_defaults crosssections_shape crosssections_value
          defaults with
  | None => Ok None
  | Some defaults =>
      pipes <- _setup_branches gdf_pipe defaults "pipe" ;;
      ftype <- get_column "frictionType" pipes ;;
      fvalue <- get_column "frictionValue" pipes ;;
      let pipes :=
        set_column "frictionId" (zip_with friction_id ftype fvalue) pipes in
      (* "invlev_up" and "invlev_dn" in pipes.columns *)
      fill_invlev <-
        (if has_column "invlev_dn" pipes then
           up <- get_column "invlev_up" pipes ;;
           dn <- get_column "invlev_dn" pipes ;;
           Ok (Nat.ltb 0 (count_null up + count_null dn))
         else Ok true) ;;
      match fill_invlev, dem_fn with
      | true, Some dem =>
          Ok (Some (invert_levels_from_dem pipes dem pipes_depth))
      | _, _ =>
          let df_inv : Table :=
            [("branchType", [VStr "pipe"]);
             ("invlev_up", [VNum pipes_invlev]);
             ("invlev_dn", [VNum pipes_invlev])] in
          Ok (Some (update_data_columns_attributes pipes df_inv "pipe"))
      end
  end.

(** [setup_pipes] from line 531 on: [gdf_pipe] is the table that the
    data catalog returns for [pipes_fn] within the region.  Without a
    row left after the filter the setup ends with [None] (lines
    540-542); otherwise the missing id columns are added and the setup
    goes on from line 569. *)
Definition setup_pipes_from_source (gdf_pipe : Table)
  (pipe_filter : option string) (defaults : Table)
  (spacing : Q) (friction_type : string) (friction_value : Q)
  (crosssections_shape : string) (crosssections_value : CrsValue)
  (dem_fn : option Dem) (pipes_depth pipes_invlev : Q)
  : result (option Table) :=
  let gdf_pipe := apply_pipe_filter pipe_filter gdf_pipe in
  if Nat.eqb (nrows gdf_pipe) 0 then Ok None
  else
    setup_pipes (add_branch_ids gdf_pipe) defaults spacing friction_type
      friction_value crosssections_shape crosssections_value dem_fn
      pipes_depth pipes_invlev.
End SetupPipes.

(** Example: a pipes source that fully populates both invert levels, and
    the packaged defaults. *)
Definition pipes_source : Table :=
  [("geometry", [VGeom [(0, 0); (10, 0)]%Q]);
   ("branchId", [VStr "pipe_1"]);
   ("branchType", [VStr "pipe"]);
   ("invlev_up", [VNum (- 2)%Q]);
   ("invlev_dn", [VNum (- 23 # 10)%Q])].

Definition pipes_defaults : Table :=
  [("branchType", [VStr "pipe"]);
   ("branchOrder", [VNum (- 1)%Q]);
   ("material", [VStr "concrete"])].

(** [setup_pipes] on the example with the default arguments; the branch
    processing leaves the attribute columns as they are. *)
Definition setup_pipes_example (Dem : Type)
  (invert_levels_from_dem : Table -> Dem -> Q -> Table)
  (friction_id : Value -> Value -> Value) (dem_fn : option Dem)
  : result (option Table) :=
  setup_pipes Dem (fun t => Ok t) invert_levels_from_dem friction_id
    pipes_source pipes_defaults 50%Q "WhiteColebrook" (3 # 1000)%Q
    "circle" (CrsFloat (1 # 2)%Q) dem_fn (- 2)%Q (- 25 # 10)%Q.

(** The table on which the invert levels are derived in the example. *)
Definition pipes_before_invlev (friction_id : Value -> Value -> Value)
  : Table :=
  [("geometry", [VGeom [(0, 0); (10, 0)]%Q]);
   ("branchId", [VStr "pipe_1"]);
   ("branchType", [VStr "pipe"]);
   ("invlev_up", [VNum (- 2)%Q]);
   ("branchOrder", [VNum (- 1)%Q]);
   ("material", [VStr "concrete"]);
   ("spacing", [VNum 50%Q]);
   ("frictionType", [VStr "WhiteColebrook"]);
   ("frictionValue", [VNum (3 # 1000)%Q]);
   ("shape", [VStr "circle"]);
   ("diameter", [VNum (1 # 2)%Q]);
   ("frictionId",
    [friction_id (VStr "WhiteColebrook") (VNum (3 # 1000)%Q)])].

End Pipes.


(* ================================================================== *)
(** * Lateral 1D-2D links *)
(* ================================================================== *)

Module MeshLateral.

Import Mesh.
Local Open Scope Z_scope.

Section Lateral.
(** [numpy.hypot]. *)
Variable hypot : Q -> Q -> Q.
(** Shapely geometries, and the geometry list of the kernel. *)
Variable Polygon : Type.
Variable MultiPolygon : Type.
Variable MultiLineString : Type.
Variable Geometry : Type.
Variable GeometryList : Type.
(** [network.meshkernel.mesh2d_get_mesh_boundaries_as_polygons()] and
    [GeometryList(..).to_geometry()]. *)
Variable mesh2d_get_mesh_boundaries_as_polygons : Network -> GeometryList.
Variable to_geometry : GeometryList -> MultiPolygon.
(** Lines 542-548: the boundaries intersected with [within], as a
    geometry list. *)
Variable intersection_within : MultiPolygon -> Polygon -> GeometryList.
(** Line 566: the exteriors of the boundary polygons. *)
Variable exteriors : MultiPolygon -> MultiLineString.
(** [multilinestring.intersection(LineString([face2d, node1d]))]. *)
Variable intersection : MultiLineString -> Q * Q -> Q * Q -> Geometry.
(** [isinstance(isect, (Point, MultiPoint))] and [common.as_point_list]. *)
Variable is_point_or_multipoint : Geometry -> bool.
Variable as_point_list : Geometry -> list (Q * Q).
(** [Mesh1d.get_node_mask] and [Link1d2d._link_from_2d_to_1d_lateral] of
    the kernel wrapper; the latter returns the link arrays after the
    generation. *)
Variable get_node_mask : Network -> option (list string) -> list bool.
Variable _link_from_2d_to_1d_lateral :
  Network -> list bool -> GeometryList -> option Q -> Link1d2d.
(** Lines 580-595: the mean distance between the face centre and the face
    edges, one value for each face index of [id2d]. *)
Variable face_edge_distance : Network -> list Z -> result (list Q).

(** [zip(nodes1d, faces2d, distance * dist_factor)]. *)
Fixpoint zip3 {A B C : Type} (a : list A) (b : list B) (c : list C)
  : list (A * B * C) :=
  match a, b, c with
  | x :: a', y :: b', z :: c' => (x, y, z) :: zip3 a' b' c'
  | _, _, _ => []
  end.

(** The body of the loop of lines 599-617 for one link: [true] when the
    loop reaches [keep.append(i)]. *)
Definition lateral_keeps (multilinestring : MultiLineString)
  (node1d face2d : Q * Q) (comp_dist : Q) : bool :=
  let isect := intersection multilinestring face2d node1d in
  if negb (is_point_or_multipoint isect) then false
  else
    match as_point_list isect with
    | [p] =>
        let dist := hypot (fst face2d - fst p)%Q (snd face2d - snd p)%Q in
        if Qlt_le_dec dist comp_dist then true else false
    | _ => false
    end.

(** The loop of lines 599-617: [i] is the counter of [enumerate], the
    result is what the loop appends to [keep]. *)
Fixpoint lateral_loop (multilinestring : MultiLineString) (i : Z)
  (rows : list ((Q * Q) * (Q * Q) * Q)) : list Z :=
  match rows with
  | [] => []
  | (node1d, face2d, comp_dist) :: t =>
      if lateral_keeps multilinestring node1d face2d comp_dist
      then i :: lateral_loop multilinestring (i + 1) t
      else lateral_loop multilinestring (i + 1) t
  end.

Definition links1d2d_add_links_2d_to_1d_lateral (network : Network)
  (dist_factor : option Q) (branchids : option (list string))
  (within : option Polygon) (max_length : option Q) : result Network :=
  let geometrylist := mesh2d_get_mesh_boundaries_as_polygons network in
  let mpboundaries := to_geometry geometrylist in
  let geometrylist :=
    match within with
    | Some w => intersection_within mpboundaries w
    | None => geometrylist
    end in
  let node_mask := get_node_mask network branchids in
  let npresent := List.length (link1d2d (_link1d2d network)) in
  let network :=
    set_links network
      (_link_from_2d_to_1d_lateral network node_mask geometrylist max_length)
  in
  match dist_factor with
  | None => Ok network
  | Some dist_factor =>
      let multilinestring := exteriors mpboundaries in
      let generated := skipn npresent (link1d2d (_link1d2d network)) in
      let id1d := map fst generated in
      let id2d := map snd generated in
      n1x <- np_take (mesh1d_node_x network) id1d ;;
      n1y <- np_take (mesh1d_node_y network) id1d ;;
      f2x <- np_take (mesh2d_face_x network) id2d ;;
      f2y <- np_take (mesh2d_face_y network) id2d ;;
      distance <- face_edge_distance network id2d ;;
      let keep :=
        (arange npresent
         ++ lateral_loop multilinestring 0
              (zip3 (combine n1x n1y) (combine f2x f2y)
                    (map (fun d => (d * dist_factor)%Q) distance)))%list in
      _filter_links_on_idx network keep
  end.
End Lateral.

(** Example: a kernel stand-in that appends one link, and a boundary test
    that every link passes. *)
Definition append_one_link (network : Network) (mask : list bool)
  (polygon : unit) (search_radius : option Q) : Link1d2d :=
  let l := _link1d2d network in
  {| link1d2d := link1d2d l ++ [(0, 0)];
     link1d2d_contact_type := link1d2d_contact_type l ++ [3];
     link1d2d_id := link1d2d_id l ++ ["lateral"];
     link1d2d_long_name := link1d2d_long_name l ++ ["lateral"] |}%list.

Definition lateral_example (network : Network) : result Network :=
  links1d2d_add_links_2d_to_1d_lateral Crosssections.hypot_floor
    unit unit unit (list (Q * Q)) unit
    (fun _ => tt) (fun _ => tt) (fun _ _ => tt) (fun _ => tt)
    (fun _ face2d _ => [face2d]) (fun _ => true) (fun g => g)
    (fun _ _ => []) append_one_link
    (fun _ id2d => Ok (map (fun _ => 1%Q) id2d))
    network (Some 2%Q) None None None.

End MeshLateral.

(* ================================================================== *)
(** * The cross-section step of the river and pipe setup *)
(* ================================================================== *)

Module CrosssectionsSetup.

(** The exceptions of this step. *)
Inductive SetupExc : Type :=
| AssertionError
| AttributeError (msg : string)
| NotImplementedError (msg : string)
| CatalogError (msg : string).

(** How a call of [_setup_crosssections] that does not raise ends: with
    the cross-sections of [set_branch_crosssections(branches, midpoint)]
    or of [set_xyz_crosssections(branches, gdf_cs)] handed to
    [set_crosssections], or with an early [return None] before any
    cross-section is set. *)
Inductive CrsSource : Type :=
| FromBranches (midpoint : bool)
| FromXyz (crosssections_fn : option string)
| NoCrosssections.

(** Line 761, [helper.heck_gpd_attributes(gdf_cs, ...)]: the module
    [workflows.helper] defines [check_gpd_attributes] (imported under
    that name by [workflows/crosssections.py]); the misspelt name is not
    an attribute of the module, so the attribute lookup raises before
    any call. *)
Definition helper_heck_gpd_attributes : bool + SetupExc :=
  inr (AttributeError
         "module 'hydrolib.hydromt_delft3dfm.workflows.helper' has no attribute 'heck_gpd_attributes'").

Section Setup.
(** [self.data_catalog.get_geodataframe(crosssections_fn, ...)]: the
    number of rows [len(gdf_cs)] of the xyz data within the region and
    its buffer, or the error that the data catalog raises for a source
    it cannot read. *)
Variable get_geodataframe : option string -> nat + SetupExc.

(** The dispatch of [_setup_crosssections], lines 739-789. *)
Definition _setup_crosssections (crosssections_fn : option string)
  (crosssections_type : string) (midpoint : bool) : CrsSource + SetupExc :=
  if match crosssections_fn with None => true | Some _ => false end
     && String.eqb crosssections_type "branch"
  then inl (FromBranches midpoint)
  else if String.eqb crosssections_type "xyz"
  then
    match get_geodataframe crosssections_fn with
    | inr e => inr e
    | inl len_gdf_cs =>
        if Nat.eqb len_gdf_cs 0 then inl NoCrosssections
        else
          match helper_heck_gpd_attributes with
          | inr e => inr e
          | inl valid_attributes =>
              if negb valid_attributes then inl NoCrosssections
              else inl (FromXyz crosssections_fn)
          end
    end
  else if String.eqb crosssections_type "point"
  then inr (NotImplementedError
              ("Method " ++ crosssections_type ++ " is not implemented."))
  else inr (NotImplementedError
              ("Method " ++ crosssections_type ++ " is not implemented.")).

(** Lines 430-437 of [setup_rivers] ([assert] statements enabled): the
    default type, the assertion and the call, with the default
    [midpoint=True]. *)
Definition setup_rivers_crosssections (crosssections_fn : option string)
  (crosssections_type : option string) : CrsSource + SetupExc :=
  let crosssections_type :=
    match crosssections_type with
    | None => "branch"
    | Some t => t
    end in
  if negb (existsb (String.eqb crosssections_type) ["xyzpoints"; "branch"])
  then inr AssertionError
  else _setup_crosssections crosssections_fn crosssections_type true.

(** Line 674 of [setup_pipes]. *)
Definition setup_pipes_crosssections : CrsSource + SetupExc :=
  _setup_crosssections None "branch" false.
End Setup.

End CrosssectionsSetup.

(* ================================================================== *)
(** * The branches.gui file *)
(* ================================================================== *)

Module BranchesGui.

Local Open Scope Z_scope.

(** A cell of the [branchtype] column: the name of the type, or its code
    in the file. *)
Inductive TypeCell : Type :=
| TStr (s : string)
| TInt (z : Z).

(** A [branch] record of [BranchModel]. *)
Record GuiBranch : Type := {
  name : string;
  branchtype : TypeCell;
  sourcecompartmentname : string;
  targetcompartmentname : string
}.

(** A row of the branches table with the columns used by
    [write_branches_gui]. *)
Record BranchRow : Type := {
  branchid : string;
  row_branchtype : TypeCell;
  manhole_up : string;
  manhole_dn : string
}.

(** A row of [df_gui]. *)
Record GuiRow : Type := {
  gui_branchid : string;
  gui_branchtype : TypeCell;
  gui_manhole_up : string;
  gui_manhole_dn : string
}.

(** [replace({0: "river", 2: "pipe", 1: "sewerconnection"})] on one
    cell. *)
Definition replace_codes (c : TypeCell) : TypeCell :=
  match c with
  | TInt 0 => TStr "river"
  | TInt 2 => TStr "pipe"
  | TInt 1 => TStr "sewerconnection"
  | _ => c
  end.

(** [replace({"river": 0, "pipe": 2, "sewerconnection": 1})] on one
    cell. *)
Definition replace_names (c : TypeCell) : TypeCell :=
  match c with
  | TStr s =>
      if String.eqb s "river" then TInt 0
      else if String.eqb s "pipe" then TInt 2
      else if String.eqb s "sewerconnection" then TInt 1
      else c
  | _ => c
  end.

(** [read_branches_gui]: [branchid_of] reads the [branchid] of a row of
    [gdf]; [file] holds the [branch] records of [branches.gui] when the
    file exists.  The result pairs every row of [gdf] with the columns
    joined to it ([None] where the left merge finds no record). *)
Definition read_branches_gui {A : Type} (branchid_of : A -> string)
  (gdf : list A) (file : option (list GuiBranch))
  : list (A * option GuiRow) :=
  let df_gui :=
    match file with
    | None =>
        map (fun b => {| gui_branchid := branchid_of b;
                         gui_branchtype := TStr "river";
                         gui_manhole_up := "";
                         gui_manhole_dn := "" |}) gdf
    | Some br_list =>
        map (fun b => {| gui_branchid := name b;
                         gui_branchtype := branchtype b;
                         gui_manhole_up := sourcecompartmentname b;
                         gui_manhole_dn := targetcompartmentname b |})
            br_list
    end in
  let df_gui :=
    map (fun r => {| gui_branchid := gui_branchid r;
                     gui_branchtype := replace_codes (gui_branchtype r);
                     gui_manhole_up := gui_manhole_up r;
                     gui_manhole_dn := gui_manhole_dn r |}) df_gui in
  let df_gui :=
    Py.drop_duplicates
      (fun a b => String.eqb (gui_branchid a) (gui_branchid b)) df_gui in
  flat_map
    (fun b =>
       match filter (fun r => String.eqb (branchid_of b) (gui_branchid r))
                    df_gui with
       | [] => [(b, None)]
       | rs => map (fun r => (b, Some r)) rs
       end)
    gdf.

(** [gdf["branchtype"].isin(["pipe", "tunnel"])] on one cell. *)
Definition is_pipe_or_tunnel (c : TypeCell) : bool :=
  match c with
  | TStr s => String.eqb s "pipe" || String.eqb s "tunnel"
  | TInt _ => false
  end.

(** [write_branches_gui]: the records handed to [BranchModel]. *)
Definition write_branches_gui (gdf : list BranchRow) : list GuiBranch :=
  let gdf :=
    if negb (existsb (fun r => is_pipe_or_tunnel (row_branchtype r)) gdf)
    then map (fun r => {| branchid := branchid r;
                          row_branchtype := row_branchtype r;
                          manhole_up := "";
                          manhole_dn := "" |}) gdf
    else gdf in
  map (fun r => {| name := branchid r;
                   branchtype := replace_names (row_branchtype r);
                   sourcecompartmentname := manhole_up r;
                   targetcompartmentname := manhole_dn r |}) gdf.

(** Example: a river and a pipe between two manholes. *)
Definition gui_example : list BranchRow :=
  [ {| branchid := "river_1"; row_branchtype := TStr "river";
       manhole_up := ""; manhole_dn := "" |};
    {| branchid := "pipe_1"; row_branchtype := TStr "pipe";
       manhole_up := "manhole_1"; manhole_dn := "manhole_2" |} ].

End BranchesGui.

(* ================================================================== *)
(** * Properties *)
(* ================================================================== *)

(** ** Facts about the Python idioms *)

Module PyFacts.

Local Open Scope list_scope.

Lemma bind_ok_inv {A B} (m : result A) (k : A -> result B) (b : B) :
  Py.bind m k = Ok b -> exists a, m = Ok a /\ k a = Ok b.
Proof.
  destruct m as [a|e]; simpl; intros H.
  - exists a; split; [reflexivity | exact H].
  - discriminate H.
Qed.

Lemma mapM_In {A B} (f : A -> result B) :
  forall l l', mapM f l = Ok l' ->
  forall y, In y l' -> exists x, In x l /\ f x = Ok y.
Proof.
  induction l as [|a t IH]; simpl; intros l' H y Hy.
  - inversion H; subst. destruct Hy.
  - apply bind_ok_inv in H. destruct H as [b [Hb H]].
    apply bind_ok_inv in H. destruct H as [bs [Hbs H]].
    inversion H; subst. destruct Hy as [->|Hy].
    + exists a; auto.
    + destruct (IH _ Hbs _ Hy) as [x [Hx Hfx]]. exists x; auto.
Qed.

Lemma mapM_total {A B} (f : A -> result B) (g : A -> B) :
  forall l, (forall x, In x l -> f x = Ok (g x)) -> mapM f l = Ok (map g l).
Proof.
  induction l as [|a t IH]; simpl; intros H; [reflexivity|].
  rewrite (H a (or_introl eq_refl)). simpl.
  rewrite IH by (intros; apply H; auto). reflexivity.
Qed.

Lemma mapM_app {A B} (f : A -> result B) :
  forall l1 l2 r, mapM f (l1 ++ l2) = Ok r ->
  exists r1 r2, mapM f l1 = Ok r1 /\ mapM f l2 = Ok r2 /\ r = r1 ++ r2.
Proof.
  induction l1 as [|a t IH]; simpl; intros l2 r H.
  - exists [], r. auto.
  - apply bind_ok_inv in H. destruct H as [b [Hb H]].
    apply bind_ok_inv in H. destruct H as [bs [Hbs H]].
    inversion H; subst.
    destruct (IH _ _ Hbs) as [r1 [r2 [H1 [H2 ->]]]].
    exists (b :: r1), r2. rewrite Hb, H1. simpl. auto.
Qed.

Section SortFacts.
Context {A : Type}.
Variable leb : A -> A -> bool.

Lemma insert_sorted_perm (x : A) :
  forall l, Permutation (Py.insert_sorted leb x l) (x :: l).
Proof.
  induction l as [|y t IH]; simpl; [reflexivity|].
  destruct (leb x y); [reflexivity|].
  rewrite IH. apply perm_swap.
Qed.

Lemma sort_perm : forall l, Permutation (Py.sort leb l) l.
Proof.
  induction l as [|x t IH]; simpl; [reflexivity|].
  rewrite insert_sorted_perm. constructor. exact IH.
Qed.

Hypothesis leb_total : forall a b, leb a b = false -> leb b a = true.
Hypothesis leb_trans :
  forall a b c, leb a b = true -> leb b c = true -> leb a c = true.

Lemma insert_sorted_sorted (x : A) :
  forall l, StronglySorted (fun a b => leb a b = true) l ->
            StronglySorted (fun a b => leb a b = true)
              (Py.insert_sorted leb x l).
Proof.
  induction l as [|y t IH]; simpl; intros H.
  - repeat constructor.
  - inversion H as [|? ? Ht Hy]; subst.
    destruct (leb x y) eqn:E.
    + constructor; [exact H|]. constructor; [exact E|].
      eapply Forall_impl; [|exact Hy]. intros z Hz. eapply leb_trans; eauto.
    + constructor; [apply IH; exact Ht|].
      apply (Permutation_Forall (Permutation_sym (insert_sorted_perm x t))).
      constructor; [apply leb_total; exact E | exact Hy].
Qed.

Lemma sort_sorted :
  forall l, StronglySorted (fun a b => leb a b = true) (Py.sort leb l).
Proof.
  induction l as [|x t IH]; simpl; [constructor|].
  apply insert_sorted_sorted. exact IH.
Qed.
End SortFacts.

Section DropDuplicatesFacts.
Context {A : Type}.
Variable eqb : A -> A -> bool.

Lemma drop_duplicates_from_incl :
  forall l seen x, In x (Py.drop_duplicates_from eqb seen l) -> In x l.
Proof.
  induction l as [|a t IH]; simpl; intros seen x H; [exact H|].
  destruct (existsb (eqb a) seen).
  - right. eapply IH; eauto.
  - destruct H as [->|H]; [auto | right; eapply IH; eauto].
Qed.

(** Filtering commutes with de-duplication when equal rows agree on the
    filter. *)
Lemma filter_drop_duplicates_from (P : A -> bool) :
  (forall x y, eqb x y = true -> P x = P y) ->
  forall l seen,
    filter P (Py.drop_duplicates_from eqb seen l)
    = Py.drop_duplicates_from eqb (filter P seen) (filter P l).
Proof.
  intros HP. induction l as [|a t IH]; simpl; intros seen; [reflexivity|].
  assert (Hex : P a = true ->
                existsb (eqb a) (filter P seen) = existsb (eqb a) seen).
  { intros Pa. induction seen as [|s seen' IHs]; simpl; [reflexivity|].
    destruct (P s) eqn:Ps; simpl.
    - rewrite IHs. reflexivity.
    - destruct (eqb a s) eqn:E; simpl; [|exact IHs].
      apply HP in E. congruence. }
  destruct (P a) eqn:Pa.
  - simpl. rewrite (Hex eq_refl).
    destruct (existsb (eqb a) seen).
    + apply IH.
    + simpl. rewrite Pa. f_equal. rewrite IH. simpl. rewrite Pa. reflexivity.
  - destruct (existsb (eqb a) seen).
    + apply IH.
    + simpl. rewrite Pa. rewrite IH. simpl. rewrite Pa. reflexivity.
Qed.

Lemma filter_drop_duplicates (P : A -> bool) :
  (forall x y, eqb x y = true -> P x = P y) ->
  forall l, filter P (Py.drop_duplicates eqb l)
            = Py.drop_duplicates eqb (filter P l).
Proof.
  intros HP l. unfold Py.drop_duplicates.
  rewrite filter_drop_duplicates_from by exact HP. reflexivity.
Qed.
End DropDuplicatesFacts.

(** De-duplication of strings keeps exactly the strings of the list. *)
Lemma unique_strings_from_In :
  forall l seen x,
    In x (Py.drop_duplicates_from String.eqb seen l)
    <-> In x l /\ ~ In x seen.
Proof.
  induction l as [|a t IH]; simpl; intros seen x.
  - tauto.
  - destruct (existsb (String.eqb a) seen) eqn:E.
    + rewrite IH. apply existsb_exists in E. destruct E as [s [Hs Es]].
      apply String.eqb_eq in Es. subst s. split.
      * intros [H1 H2]. auto.
      * intros [[->|H1] H2]; [contradiction | auto].
    + simpl. rewrite IH. simpl. split.
      * intros [->|[H1 H2]].
        -- split; [auto|]. intros Hin.
           assert (existsb (String.eqb x) seen = true).
           { apply existsb_exists. exists x. split; [exact Hin|].
             apply String.eqb_refl. }
           congruence.
        -- split; [auto|]. intros Hin. apply H2. auto.
      * intros [[->|H1] H2]; [auto|].
        destruct (String.eqb a x) eqn:Eax.
        -- apply String.eqb_eq in Eax. auto.
        -- right. split; [exact H1|]. intros [->|Hin]; [|contradiction].
           rewrite String.eqb_refl in Eax. discriminate.
Qed.

Lemma unique_strings_from_NoDup :
  forall l seen, NoDup (Py.drop_duplicates_from String.eqb seen l).
Proof.
  induction l as [|a t IH]; simpl; intros seen; [constructor|].
  destruct (existsb (String.eqb a) seen); [apply IH|].
  constructor; [|apply IH].
  rewrite unique_strings_from_In. intros [_ H]. apply H. left. reflexivity.
Qed.

End PyFacts.

(** ** xyz cross-section profiles *)

Module XyzFacts.

Import Crosssections.
Local Open Scope list_scope.

Lemma Qcompare_inject_Z (a b : Z) :
  Qcompare (inject_Z a) (inject_Z b) = Z.compare a b.
Proof.
  unfold Qcompare. simpl. rewrite !Z.mul_1_r. reflexivity.
Qed.

Lemma order_leb_iff (a b : XyzRow) :
  order_leb a b = true <-> (row_order a <= row_order b)%Z.
Proof.
  unfold order_leb, rows_leb. simpl. rewrite Qcompare_inject_Z.
  unfold Z.le. destruct (row_order a ?= row_order b)%Z; split; intros H;
    try reflexivity; try discriminate; try (exfalso; apply H; reflexivity).
Qed.

Lemma sort_values_order (xyz : list XyzRow) :
  sort_values ["order"] xyz = Ok (Py.sort order_leb xyz).
Proof. reflexivity. Qed.

Lemma sort_by_order_sorted (xyz : list XyzRow) :
  StronglySorted (fun a b => (row_order a <= row_order b)%Z)
    (Py.sort order_leb xyz).
Proof.
  assert (H : StronglySorted (fun a b => order_leb a b = true)
                (Py.sort order_leb xyz)).
  { apply PyFacts.sort_sorted.
    - intros a b Hab. apply order_leb_iff.
      destruct (Z.le_gt_cases (row_order b) (row_order a)) as [Hle|Hgt];
        [exact Hle|].
      assert (order_leb a b = true) by (apply order_leb_iff; lia).
      congruence.
    - intros a b c Hab Hbc. apply order_leb_iff.
      apply order_leb_iff in Hab. apply order_leb_iff in Hbc. lia. }
  induction H as [|a l Hl IH Ha]; constructor; [exact IH|].
  eapply Forall_impl; [|exact Ha]. intros b Hb. apply order_leb_iff. exact Hb.
Qed.

(** What [xyzp2xyzl] returns when called with [sort_by = ["order"]]. *)
Lemma xyzp2xyzl_order (hypot : Q -> Q -> Q) (xyz : list XyzRow)
  (line : XyzLine) :
  xyzp2xyzl hypot xyz ["order"] = Ok line ->
  line_geometry line
  = map (fun r => (row_x r, row_y r)) (Py.sort order_leb xyz)
  /\ line_x line = map row_x (Py.sort order_leb xyz)
  /\ line_y line = map row_y (Py.sort order_leb xyz)
  /\ line_z line = map row_z (Py.sort order_leb xyz).
Proof.
  unfold xyzp2xyzl. destruct xyz as [|first rest]; [discriminate|].
  change (map Py.lower ["order"]) with ["order"].
  rewrite sort_values_order. cbn [Py.bind].
  destruct (map (fun r => (row_x r, row_y r))
                (Py.sort order_leb (first :: rest))) as [|p [|q t]] eqn:E;
    intros H; inversion H; subst; cbn; auto.
Qed.

(** C1 (as amended).  Every profile built by [set_xyz_crosssections] lists
    the points of its group in the sequence given by the explicit [order]
    column: the rows behind the polyline and the [x], [y], [z] lists are a
    rearrangement of the group's rows in non-decreasing [order]; the
    default [sort_by] of [xyzp2xyzl] is overridden by the caller. *)
Theorem xyz_profile_sorted_by_order :
  forall (hypot : Q -> Q -> Q) (crosssections : list SurveyPoint)
         (profiles : list (string * XyzLine)) (k : string) (line : XyzLine),
    set_xyz_crosssections_profiles hypot crosssections = Ok profiles ->
    In (k, line) profiles ->
    exists rows : list XyzRow,
      Permutation rows (group_rows k (map apply_data_type crosssections))
      /\ StronglySorted (fun a b => (row_order a <= row_order b)%Z) rows
      /\ line_geometry line = map (fun r => (row_x r, row_y r)) rows
      /\ line_x line = map row_x rows
      /\ line_y line = map row_y rows
      /\ line_z line = map row_z rows.
Proof.
  intros hypot cs profiles k line Hrun Hin.
  unfold set_xyz_crosssections_profiles in Hrun.
  destruct (PyFacts.mapM_In _ _ _ Hrun _ Hin) as [k' [_ Hk']].
  apply PyFacts.bind_ok_inv in Hk'. destruct Hk' as [line' [Hline Heq]].
  inversion Heq; subst k' line'.
  exists (Py.sort order_leb (group_rows k (map apply_data_type cs))).
  split; [apply PyFacts.sort_perm|].
  split; [apply sort_by_order_sorted|].
  apply (xyzp2xyzl_order hypot). exact Hline.
Qed.

Lemma xyz_profile_sorted_by_order_witness :
  exists rows : list XyzRow,
    Permutation rows
      (group_rows "crs1" (map apply_data_type survey_right_to_left))
    /\ StronglySorted (fun a b => (row_order a <= row_order b)%Z) rows
    /\ [(8, 0); (4, 0); (0, 3)]%Q = map (fun r => (row_x r, row_y r)) rows
    /\ [8; 4; 0]%Q = map row_x rows
    /\ [0; 0; 3]%Q = map row_y rows
    /\ [2; 1 # 2; 2]%Q = map row_z rows.
Proof.
  apply (xyz_profile_sorted_by_order hypot_floor survey_right_to_left
           [("crs1", profile_right_to_left)] "crs1" profile_right_to_left).
  - vm_compute. reflexivity.
  - simpl. left. reflexivity.
Defined.

(** C1 (as stated) fails: for a survey walked from right to left the
    profile keeps the [order] sequence, whose coordinates decrease, while
    the default [sort_by] of [xyzp2xyzl] would have produced the
    coordinate order. *)
Lemma xyz_profile_not_sorted_by_xy :
  exists line : XyzLine,
    set_xyz_crosssections_profiles hypot_floor survey_right_to_left
    = Ok [("crs1", line)]
    /\ line_geometry line = [(8, 0); (4, 0); (0, 3)]%Q
    /\ ~ StronglySorted xy_le (line_geometry line)
    /\ (exists line', xyzp2xyzl hypot_floor
                        (map apply_data_type survey_right_to_left)
                        default_sort_by = Ok line'
                      /\ line_geometry line' = [(0, 3); (4, 0); (8, 0)]%Q).
Proof.
  eexists. split; [vm_compute; reflexivity|].
  split; [reflexivity|]. split.
  - cbn [line_geometry]. intros H.
    inversion H as [|a l _ Hall]; subst.
    inversion Hall as [|b l' Hxy _]; subst.
    destruct Hxy as [Hlt|[Heq _]]; cbn in *.
    + revert Hlt. unfold Qlt. simpl. lia.
    + revert Heq. unfold Qeq. simpl. lia.
  - eexists. split; [vm_compute; reflexivity|]. reflexivity.
Qed.

End XyzFacts.


(** ** Cross-sections at both ends of a branch *)

Module BranchFacts.

Import Crosssections.
Local Open Scope list_scope.

Lemma filter_map_comm {A B} (p : B -> bool) (f : A -> B) :
  forall l, filter p (map f l) = map f (filter (fun a => p (f a)) l).
Proof.
  induction l as [|a t IH]; simpl; [reflexivity|].
  destruct (p (f a)); simpl; rewrite IH; reflexivity.
Qed.

Lemma filter_all {A} (p : A -> bool) :
  forall l, (forall a, In a l -> p a = true) -> filter p l = l.
Proof.
  induction l as [|a t IH]; simpl; intros H; [reflexivity|].
  rewrite (H a (or_introl eq_refl)). f_equal. apply IH. intros; apply H; auto.
Qed.

Lemma filter_none {A} (p : A -> bool) :
  forall l, (forall a, In a l -> p a = false) -> filter p l = [].
Proof.
  induction l as [|a t IH]; simpl; intros H; [reflexivity|].
  rewrite (H a (or_introl eq_refl)). apply IH. intros; apply H; auto.
Qed.

Lemma filter_flat_map_comm {A B} (p : B -> bool) (q : A -> bool)
  (f : A -> list B) :
  (forall a b, In b (f a) -> p b = q a) ->
  forall l, filter p (flat_map f l) = flat_map f (filter q l).
Proof.
  intros H. induction l as [|a t IH]; simpl; [reflexivity|].
  rewrite filter_app, IH. destruct (q a) eqn:E; simpl.
  - f_equal. apply filter_all. intros b Hb. rewrite (H a b Hb). exact E.
  - rewrite filter_none; [reflexivity|].
    intros b Hb. rewrite (H a b Hb). exact E.
Qed.

(** In a table with unique ids, an id selects exactly its branch. *)
Lemma filter_unique_id {A} (key : A -> string) :
  forall (l : list A) (b : A),
    NoDup (map key l) -> In b l ->
    filter (fun x => String.eqb (key x) (key b)) l = [b].
Proof.
  induction l as [|a t IH]; simpl; intros b Hnd Hin; [destruct Hin|].
  inversion Hnd as [|? ? Hnotin Hnd']; subst.
  destruct Hin as [->|Hin].
  - rewrite String.eqb_refl. f_equal. apply filter_none.
    intros x Hx. apply String.eqb_neq. intros E. apply Hnotin.
    rewrite <- E. apply in_map. exact Hx.
  - destruct (String.eqb (key a) (key b)) eqn:E.
    + apply String.eqb_eq in E. exfalso. apply Hnotin. rewrite E.
      apply in_map. exact Hin.
    + apply IH; assumption.
Qed.

Lemma unique_id_inj {A} (key : A -> string) :
  forall (l : list A) (a b : A),
    NoDup (map key l) -> In a l -> In b l -> key a = key b -> a = b.
Proof.
  intros l a b Hnd Ha Hb E.
  pose proof (filter_unique_id key l b Hnd Hb) as F.
  assert (Hin : In a (filter (fun x => String.eqb (key x) (key b)) l)).
  { apply filter_In. split; [exact Ha|]. rewrite E. apply String.eqb_refl. }
  rewrite F in Hin. destruct Hin as [->|[]]. reflexivity.
Qed.

Lemma Qeq_bool_true_refl (q : Q) : Qeq_bool q q = true.
Proof. apply Qeq_bool_iff. reflexivity. Qed.

Lemma crsloc_eqb_refl (l : CrsLoc) : crsloc_eqb l l = true.
Proof.
  unfold crsloc_eqb, point_eqb.
  rewrite !String.eqb_refl, !Qeq_bool_true_refl. reflexivity.
Qed.

Lemma crsdef_eqb_refl (d : CrsDef) : crsdef_eqb d d = true.
Proof.
  unfold crsdef_eqb. rewrite !String.eqb_refl, !Qeq_bool_true_refl.
  destruct (crsdef_closed d); simpl;
    [rewrite String.eqb_refl | rewrite Z.eqb_refl]; reflexivity.
Qed.

Lemma crsrow_eqb_refl (r : CrsRow) : crsrow_eqb r r = true.
Proof.
  unfold crsrow_eqb. rewrite crsloc_eqb_refl, Qeq_bool_true_refl.
  destruct (crs_def r); [rewrite crsdef_eqb_refl|]; reflexivity.
Qed.

(** Rows that [drop_duplicates] identifies agree on the location
    columns. *)
Lemma crsrow_eqb_loc (a b : CrsRow) :
  crsrow_eqb a b = true ->
  crsloc_branchId (crs_loc a) = crsloc_branchId (crs_loc b)
  /\ (crsloc_chainage (crs_loc a) == crsloc_chainage (crs_loc b))%Q
  /\ (crsloc_shift (crs_loc a) == crsloc_shift (crs_loc b))%Q
  /\ point_eqb (geometry (crs_loc a)) (geometry (crs_loc b)) = true.
Proof.
  unfold crsrow_eqb, crsloc_eqb. intros H.
  repeat (apply andb_true_iff in H; destruct H as [H ?]).
  repeat split.
  - apply String.eqb_eq. assumption.
  - apply Qeq_bool_iff. assumption.
  - apply Qeq_bool_iff. assumption.
  - assumption.
Qed.

Section WithExternals.
Variable geom_length : list (Q * Q) -> Q.
Variable format_2f : Q -> string.
Variable format_3f : Q -> string.

Lemma geoms_of_branches :
  forall branches geoms,
    mapM (fun b => first_point (br_geometry b)) branches = Ok geoms ->
    combine branches geoms = map (fun b => (b, start_point b)) branches
    /\ Forall (fun b => exists rest,
                   br_geometry b = start_point b :: rest) branches.
Proof.
  induction branches as [|b t IH]; simpl; intros geoms H.
  - inversion H. split; [reflexivity | constructor].
  - apply PyFacts.bind_ok_inv in H. destruct H as [g [Hg H]].
    apply PyFacts.bind_ok_inv in H. destruct H as [gs [Hgs H]].
    inversion H; subst. destruct (IH _ Hgs) as [Hc Hall].
    unfold first_point in Hg.
    destruct (br_geometry b) as [|p rest] eqn:E; [discriminate|].
    inversion Hg; subst.
    assert (Hs : start_point b = g) by (unfold start_point; rewrite E; reflexivity).
    simpl. rewrite Hc, Hs. split; [reflexivity|].
    constructor; [exists rest; rewrite Hs; exact E | exact Hall].
Qed.

Lemma shape_loop_from (cs : list EndRow) :
  forall shapes acc,
    NoDup shapes ->
    fold_left
      (fun crosssections_ shape =>
         if String.eqb shape "circle" then
           crosssections_
           ++ _set_circle_crs format_2f
                (map (fun r => (r, circle_definitionid format_3f r))
                   (filter (fun r => String.eqb (er_shape r) shape) cs))
         else crosssections_)
      shapes acc
    = acc ++ (if existsb (String.eqb "circle") shapes
              then _set_circle_crs format_2f (circle_rows format_3f cs) else []).
Proof.
  induction shapes as [|s t IH]; cbn [fold_left existsb]; intros acc Hnd.
  - rewrite app_nil_r. reflexivity.
  - inversion Hnd as [|? ? Hnotin Hnd']; subst.
    rewrite (IH _ Hnd'). rewrite (String.eqb_sym "circle" s).
    destruct (String.eqb s "circle") eqn:E; cbn [orb].
    + apply String.eqb_eq in E. subst s.
      assert (Hex : existsb (String.eqb "circle") t = false).
      { apply not_true_is_false. intros Hex. apply existsb_exists in Hex.
        destruct Hex as [x [Hx Ex]]. apply String.eqb_eq in Ex. subst x.
        contradiction. }
      rewrite Hex, app_nil_r. reflexivity.
    + reflexivity.
Qed.

Lemma set_branch_crosssections_inv (branches : list Branch)
  (rows : list CrsRow) :
  set_branch_crosssections geom_length format_2f format_3f branches = Ok rows ->
  Forall (fun b => exists rest, br_geometry b = start_point b :: rest) branches
  /\ rows = Py.drop_duplicates crsrow_eqb
              (map finish_row
                 (_set_circle_crs format_2f (circle_rows format_3f (end_rows geom_length branches)))).
Proof.
  unfold set_branch_crosssections, crosssections_up, crosssections_dn.
  intros H.
  apply PyFacts.bind_ok_inv in H. destruct H as [up [Hup H]].
  apply PyFacts.bind_ok_inv in H. destruct H as [dn [Hdn H]].
  apply PyFacts.bind_ok_inv in Hup. destruct Hup as [g1 [Hg1 Hup]].
  apply PyFacts.bind_ok_inv in Hdn. destruct Hdn as [g2 [Hg2 Hdn]].
  destruct (geoms_of_branches _ _ Hg1) as [Hc1 Hall].
  destruct (geoms_of_branches _ _ Hg2) as [Hc2 _].
  rewrite Hc1 in Hup. rewrite Hc2 in Hdn.
  rewrite map_map in Hup, Hdn. cbn [fst snd] in Hup, Hdn.
  inversion Hup; subst up. inversion Hdn; subst dn. clear Hup Hdn.
  split; [exact Hall|].
  fold (end_rows geom_length branches) in H.
  unfold shape_loop in H.
  rewrite shape_loop_from in H by apply PyFacts.unique_strings_from_NoDup.
  cbn [app] in H.
  destruct (existsb (String.eqb "circle")
              (Py.drop_duplicates String.eqb (map er_shape (end_rows geom_length branches)))).
  - destruct (_set_circle_crs format_2f (circle_rows format_3f (end_rows geom_length branches)));
      [discriminate|]. inversion H. reflexivity.
  - discriminate.
Qed.

Lemma filter_comm {A} (p q : A -> bool) :
  forall l, filter p (filter q l) = filter q (filter p l).
Proof.
  induction l as [|a t IH]; simpl; [reflexivity|].
  destruct (q a) eqn:Eq, (p a) eqn:Ep; simpl;
    rewrite ?Eq, ?Ep, IH; reflexivity.
Qed.

Section OneBranch.
Variable branches : list Branch.
Variable b : Branch.
Hypothesis ids_unique : NoDup (map br_branchId branches).
Hypothesis b_in : In b branches.

Lemma end_rows_of_id (r : EndRow) :
  In r (end_rows geom_length branches) -> er_branch_id r = br_branchId b ->
  r = up_row b (start_point b) \/ r = dn_row geom_length b (start_point b).
Proof.
  unfold end_rows. intros Hin Hid. apply in_app_or in Hin.
  destruct Hin as [Hin|Hin]; apply in_map_iff in Hin;
    destruct Hin as [b' [Hr Hb']]; subst r; cbn in Hid;
    rewrite (unique_id_inj br_branchId branches b' b ids_unique Hb' b_in Hid);
    auto.
Qed.

Lemma end_rows_filter_id :
  filter (fun r => String.eqb (er_branch_id r) (br_branchId b))
         (end_rows geom_length branches)
  = [up_row b (start_point b); dn_row geom_length b (start_point b)].
Proof.
  unfold end_rows. rewrite filter_app, !filter_map_comm. cbn [er_branch_id up_row dn_row].
  rewrite (filter_unique_id br_branchId branches b ids_unique b_in).
  reflexivity.
Qed.

Hypothesis b_circle : br_shape b = "circle".

Lemma circle_rows_filter_id :
  filter (fun c => String.eqb (er_branch_id (fst c)) (br_branchId b))
         (circle_rows format_3f (end_rows geom_length branches))
  = [(up_row b (start_point b),
      circle_definitionid format_3f (up_row b (start_point b)));
     (dn_row geom_length b (start_point b),
      circle_definitionid format_3f (dn_row geom_length b (start_point b)))].
Proof.
  unfold circle_rows. rewrite filter_map_comm. cbn [fst].
  rewrite filter_comm, end_rows_filter_id.
  cbn [filter er_shape up_row dn_row]. rewrite b_circle. reflexivity.
Qed.

Lemma circle_defs_of_loc (e : EndRow) :
  er_branch_id e = br_branchId b ->
  er_diameter e = br_diameter b ->
  filter (fun c =>
            circle_on
              (circle_crsloc format_2f (e, circle_definitionid format_3f e))
              (circle_crsdef c))
         (circle_rows format_3f (end_rows geom_length branches))
  = [(up_row b (start_point b),
      circle_definitionid format_3f (up_row b (start_point b)));
     (dn_row geom_length b (start_point b),
      circle_definitionid format_3f (dn_row geom_length b (start_point b)))].
Proof.
  intros Hid Hd. rewrite <- circle_rows_filter_id.
  apply filter_ext_in. intros c Hc.
  unfold circle_on. cbn [circle_crsloc circle_crsdef crsloc_branchId
                          crsdef_branchId crsloc_definitionId crsdef_id fst snd].
  rewrite Hid. rewrite (String.eqb_sym (br_branchId b)).
  destruct (String.eqb (er_branch_id (fst c)) (br_branchId b)) eqn:E;
    [|reflexivity].
  apply String.eqb_eq in E. cbn [andb].
  unfold circle_rows in Hc. apply in_map_iff in Hc.
  destruct Hc as [r [Hc Hr]]. subst c. cbn [fst snd] in *.
  apply filter_In in Hr. destruct Hr as [Hr _].
  unfold circle_definitionid. rewrite Hd.
  destruct (end_rows_of_id r Hr E) as [-> | ->]; cbn [er_diameter up_row dn_row];
    apply String.eqb_refl.
Qed.

(** The rows of the returned table that belong to branch [b], before
    duplicates are dropped. *)
Lemma merged_rows_of_branch :
  filter (fun r => String.eqb (crsloc_branchId (crs_loc r)) (br_branchId b))
         (map finish_row
            (_set_circle_crs format_2f (circle_rows format_3f (end_rows geom_length branches))))
  = [branch_row format_2f format_3f (up_row b (start_point b));
     branch_row format_2f format_3f (up_row b (start_point b));
     branch_row format_2f format_3f (dn_row geom_length b (start_point b));
     branch_row format_2f format_3f (dn_row geom_length b (start_point b))].
Proof.
  rewrite filter_map_comm. unfold _set_circle_crs, merge_left.
  rewrite (filter_flat_map_comm _
             (fun l => String.eqb (crsloc_branchId l) (br_branchId b))).
  - rewrite !filter_map_comm.
    cbn [circle_crsloc crsloc_branchId].
    rewrite circle_rows_filter_id.
    cbn [map flat_map].
    rewrite !filter_map_comm.
    rewrite !circle_defs_of_loc by reflexivity.
    reflexivity.
  - intros l x Hx. cbn [finish_row crs_loc].
    assert (Hfst : fst x = l).
    { destruct (filter (circle_on l)
                  (map circle_crsdef (circle_rows format_3f (end_rows geom_length branches))))
        as [|d ds].
      - destruct Hx as [<-|[]]. reflexivity.
      - apply in_map_iff in Hx. destruct Hx as [d' [<- _]]. reflexivity. }
    rewrite Hfst. reflexivity.
Qed.

End OneBranch.

End WithExternals.


(** C3 (as amended).  For a branch of shape ["circle"], in a table with
    unique [branchId]s, whose two end rows differ (non-zero length or
    different invert levels), [set_branch_crosssections] with
    [midpoint=False] returns exactly two rows: one at chainage 0 with
    shift [invlev_up], one at chainage the length of the branch with
    shift [invlev_dn]. *)
Theorem circle_branch_two_crosssections :
  forall (geom_length : list (Q * Q) -> Q) (format_2f format_3f : Q -> string)
         (branches : list Branch) (rows : list CrsRow) (b : Branch),
    set_branch_crosssections geom_length format_2f format_3f branches
    = Ok rows ->
    NoDup (map br_branchId branches) ->
    In b branches ->
    br_shape b = "circle" ->
    ~ ((geom_length (br_geometry b) == 0)%Q
       /\ (br_invlev_dn b == br_invlev_up b)%Q) ->
    exists r_up r_dn : CrsRow,
      filter (fun r => String.eqb (crsloc_branchId (crs_loc r))
                                  (br_branchId b)) rows
      = [r_up; r_dn]
      /\ crsloc_chainage (crs_loc r_up) = 0%Q
      /\ crsloc_shift (crs_loc r_up) = br_invlev_up b
      /\ crsloc_chainage (crs_loc r_dn) = geom_length (br_geometry b)
      /\ crsloc_shift (crs_loc r_dn) = br_invlev_dn b.
Proof.
  intros geom_length format_2f format_3f branches rows b Hrun Hnd Hin Hc Hdiff.
  destruct (set_branch_crosssections_inv _ _ _ _ _ Hrun) as [_ ->].
  exists (branch_row format_2f format_3f (up_row b (start_point b))),
         (branch_row format_2f format_3f
            (dn_row geom_length b (start_point b))).
  split; [|repeat split].
  rewrite PyFacts.filter_drop_duplicates.
  - rewrite (merged_rows_of_branch geom_length format_2f format_3f
               branches b Hnd Hin Hc).
    unfold Py.drop_duplicates. cbn [Py.drop_duplicates_from existsb].
    rewrite !crsrow_eqb_refl. cbn [orb].
    destruct (crsrow_eqb
                (branch_row format_2f format_3f
                   (dn_row geom_length b (start_point b)))
                (branch_row format_2f format_3f (up_row b (start_point b))))
      eqn:E; [|reflexivity].
    exfalso. apply Hdiff. apply crsrow_eqb_loc in E.
    destruct E as [_ [E1 [E2 _]]]. cbn in E1, E2. auto.
  - intros x y E. apply crsrow_eqb_loc in E. destruct E as [E _].
    rewrite E. reflexivity.
Qed.

Lemma circle_branch_two_crosssections_witness :
  exists r_up r_dn : CrsRow,
    filter (fun r => String.eqb (crsloc_branchId (crs_loc r))
                                (br_branchId pipe_circle))
      (Py.drop_duplicates crsrow_eqb
         (map finish_row
            (_set_circle_crs (format_fixed 2)
               (circle_rows (format_fixed 3)
                  (end_rows line_length [pipe_circle; pipe_rectangle])))))
    = [r_up; r_dn]
    /\ crsloc_chainage (crs_loc r_up) = 0%Q
    /\ crsloc_shift (crs_loc r_up) = br_invlev_up pipe_circle
    /\ crsloc_chainage (crs_loc r_dn) = line_length (br_geometry pipe_circle)
    /\ crsloc_shift (crs_loc r_dn) = br_invlev_dn pipe_circle.
Proof.
  apply (circle_branch_two_crosssections line_length (format_fixed 2)
           (format_fixed 3) [pipe_circle; pipe_rectangle]).
  - vm_compute. reflexivity.
  - repeat constructor; simpl; intuition discriminate.
  - left. reflexivity.
  - reflexivity.
  - intros [H _]. vm_compute in H. discriminate H.
Defined.

(** C3 (as stated) fails: a rectangular pipe gets no cross-section row;
    alone in the table it makes the function raise. *)
Lemma rectangle_branch_no_crosssections :
  (exists rows : list CrsRow,
      run_example [pipe_circle; pipe_rectangle] = Ok rows
      /\ In pipe_rectangle [pipe_circle; pipe_rectangle]
      /\ filter (fun r => String.eqb (crsloc_branchId (crs_loc r))
                                     (br_branchId pipe_rectangle)) rows
         = [])
  /\ run_example [pipe_rectangle] = Raise (KeyError "crsdef_closed").
Proof.
  split; [|vm_compute; reflexivity].
  eexists. split; [vm_compute; reflexivity|].
  split; [right; left; reflexivity | vm_compute; reflexivity].
Qed.



End BranchFacts.


(** ** Mesh merging and 1D-2D links *)

Module MeshFacts.

Import Mesh.
Local Open Scope Z_scope.
Local Open Scope list_scope.

Lemma wrap32_small (z : Z) :
  int32_min <= z <= int32_max -> wrap32 z = z.
Proof.
  unfold int32_min, int32_max, wrap32. intros H.
  rewrite Z.mod_small by lia. lia.
Qed.

Lemma fold_max_spec :
  forall (t : list Z) (a : Z),
    In (fold_left Z.max t a) (a :: t)
    /\ (forall j, In j (a :: t) -> j <= fold_left Z.max t a).
Proof.
  induction t as [|b t IH]; simpl; intros a.
  - split; [auto|]. intros j [->|[]]. lia.
  - destruct (IH (Z.max a b)) as [Hin Hle]. split.
    + destruct Hin as [Hin|Hin]; [|auto].
      rewrite <- Hin. destruct (Z.max_spec a b) as [[_ ->]|[_ ->]]; auto.
    + intros j [->|[->|Hj]].
      * specialize (Hle (Z.max j b) (or_introl eq_refl)). lia.
      * specialize (Hle (Z.max a j) (or_introl eq_refl)). lia.
      * apply Hle. right. exact Hj.
Qed.

Lemma array_max_spec (arr : list Z) (m : Z) :
  array_max arr = Ok m -> In m arr /\ (forall j, In j arr -> j <= m).
Proof.
  destruct arr as [|a t]; simpl; intros H; [discriminate|].
  inversion H; subst. apply fold_max_spec.
Qed.

(** C5.  When a new rectilinear mesh is merged into a non-empty existing
    mesh, every node index of the new [edge_nodes] and [face_nodes] is
    raised by [m + 1], [m] being the largest index in the existing
    [edge_nodes], before the arrays are concatenated; no raised index
    occurs in the existing [edge_nodes].  (Indices are non-negative and
    the sums stay within [int32].) *)
Theorem mesh2d_merge_offsets_new_indices :
  forall (existing new merged : Mesh2d),
    mesh2d_add_rectilinear_merge existing new = Ok merged ->
    node_x existing <> [] ->
    Forall (fun j => int32_min <= j <= int32_max) (edge_nodes existing) ->
    Forall (fun i => 0 <= i) (edge_nodes new ++ face_nodes new) ->
    (forall i j, In i (edge_nodes new ++ face_nodes new) ->
                 In j (edge_nodes existing) -> i + j + 1 <= int32_max) ->
    exists m : Z,
      array_max (edge_nodes existing) = Ok m
      /\ In m (edge_nodes existing)
      /\ (forall j, In j (edge_nodes existing) -> j <= m)
      /\ edge_nodes merged
         = edge_nodes existing ++ map (fun i => i + (m + 1)) (edge_nodes new)
      /\ face_nodes merged
         = face_nodes existing ++ map (fun i => i + (m + 1)) (face_nodes new)
      /\ (forall i, In i (edge_nodes new ++ face_nodes new) ->
                    ~ In (i + (m + 1)) (edge_nodes existing)).
Proof.
  intros existing new merged Hrun Hne Hrange Hpos Hbound.
  unfold mesh2d_add_rectilinear_merge in Hrun.
  destruct (node_x existing) as [|x0 xs] eqn:Ex; [contradiction|].
  apply PyFacts.bind_ok_inv in Hrun. destruct Hrun as [m [Hm Hrun]].
  rewrite Hm in Hrun. cbn [Py.bind] in Hrun. inversion Hrun; subst merged.
  clear Hrun. destruct (array_max_spec _ _ Hm) as [Hin Hmax].
  rewrite Forall_forall in Hrange, Hpos.
  assert (Hoff : forall i, In i (edge_nodes new ++ face_nodes new) ->
                           add32 i (add32 m 1) = i + (m + 1)).
  { intros i Hi. specialize (Hpos i Hi). specialize (Hbound i m Hi Hin).
    specialize (Hrange m Hin). unfold add32. unfold int32_min, int32_max in *.
    rewrite (wrap32_small (m + 1)) by (unfold int32_min, int32_max; lia).
    apply wrap32_small. unfold int32_min, int32_max. lia. }
  exists m. cbn [edge_nodes face_nodes].
  split; [exact Hm|]. split; [exact Hin|]. split; [exact Hmax|].
  split; [|split].
  - f_equal. apply map_ext_in. intros i Hi. apply Hoff.
    apply in_or_app. left. exact Hi.
  - f_equal. apply map_ext_in. intros i Hi. apply Hoff.
    apply in_or_app. right. exact Hi.
  - intros i Hi Hcontra. specialize (Hpos i Hi).
    specialize (Hmax _ Hcontra). lia.
Qed.

(** *** Index arithmetic behind [_filter_links_on_idx] *)

Lemma np_get_nat {A} (arr : list A) (k : nat) (a : A) :
  nth_error arr k = Some a -> np_get arr (Z.of_nat k) = Ok a.
Proof.
  intros H. unfold np_get.
  assert (Hlt : (k < List.length arr)%nat)
    by (apply nth_error_Some; congruence).
  destruct (Z.ltb_spec (Z.of_nat k) 0); [lia|].
  destruct (Z.leb_spec 0 (Z.of_nat k)); [|lia].
  destruct (Z.ltb_spec (Z.of_nat k) (Z.of_nat (List.length arr))); [|lia].
  cbn [andb]. rewrite Nat2Z.id, H. reflexivity.
Qed.

Lemma np_get_middle {A} (pre suf : list A) (a : A) :
  np_get (pre ++ a :: suf) (Z.of_nat (List.length pre)) = Ok a.
Proof.
  apply np_get_nat. rewrite nth_error_app2, Nat.sub_diag by lia. reflexivity.
Qed.

Lemma np_take_seq {A} :
  forall (g pre suf : list A),
    np_take (pre ++ g ++ suf)
      (map Z.of_nat (seq (List.length pre) (List.length g)))
    = Ok g.
Proof.
  unfold np_take. induction g as [|a g IH]; intros pre suf; [reflexivity|].
  cbn [List.length seq map mapM app].
  rewrite np_get_middle. cbn [Py.bind].
  specialize (IH (pre ++ [a]) suf). rewrite <- app_assoc in IH.
  cbn [app] in IH. rewrite length_app in IH. cbn [List.length] in IH.
  rewrite Nat.add_1_r in IH. rewrite IH. reflexivity.
Qed.

Lemma np_take_arange {A} (arr : list A) (n : nat) :
  (n <= List.length arr)%nat ->
  np_take arr (arange n) = Ok (firstn n arr).
Proof.
  intros Hn. unfold arange.
  pose proof (np_take_seq (firstn n arr) [] (skipn n arr)) as H.
  cbn [app List.length] in H. rewrite firstn_skipn in H.
  rewrite length_firstn, Nat.min_l in H by exact Hn. exact H.
Qed.

Lemma where_from_shift (n : Z) :
  forall mask k,
    map (fun i => i + n) (where_from k mask) = where_from (k + n) mask.
Proof.
  induction mask as [|b mask IH]; intros k; [reflexivity|].
  cbn [where_from]. replace (k + n + 1) with (k + 1 + n) by lia.
  destruct b; cbn [map]; rewrite IH; reflexivity.
Qed.

Lemma np_take_where {A} :
  forall (mask : list bool) (g pre suf : list A),
    List.length mask = List.length g ->
    np_take (pre ++ g ++ suf) (where_from (Z.of_nat (List.length pre)) mask)
    = Ok (map fst (filter snd (combine g mask))).
Proof.
  unfold np_take.
  induction mask as [|b mask IH]; intros g pre suf Hlen.
  - destruct g; [reflexivity | discriminate].
  - destruct g as [|a g]; [discriminate|].
    cbn [where_from combine filter snd].
    specialize (IH g (pre ++ [a]) suf). rewrite <- app_assoc in IH.
    cbn [app] in IH. rewrite length_app in IH. cbn [List.length] in IH.
    rewrite Nat2Z.inj_add in IH. cbn [Z.of_nat Pos.of_succ_nat] in IH.
    change (Z.pos 1) with 1 in IH.
    cbn [List.length] in Hlen.
    destruct b; cbn [map mapM app fst].
    + rewrite np_get_middle. cbn [Py.bind].
      rewrite IH by lia. reflexivity.
    + apply IH. lia.
Qed.

Lemma mapM_length {A B} (f : A -> result B) :
  forall l r, mapM f l = Ok r -> List.length r = List.length l.
Proof.
  induction l as [|a t IH]; simpl; intros r H.
  - inversion H. reflexivity.
  - apply PyFacts.bind_ok_inv in H. destruct H as [b [Hb H]].
    apply PyFacts.bind_ok_inv in H. destruct H as [bs [Hbs H]].
    inversion H; subst. simpl. f_equal. apply IH. exact Hbs.
Qed.

Lemma mapM_combine_In {A B} (f : A -> result B) :
  forall l r, mapM f l = Ok r ->
  forall a b, In (a, b) (combine l r) -> f a = Ok b.
Proof.
  induction l as [|x t IH]; simpl; intros r H a b Hin; [destruct Hin|].
  apply PyFacts.bind_ok_inv in H. destruct H as [y [Hy H]].
  apply PyFacts.bind_ok_inv in H. destruct H as [ys [Hys H]].
  inversion H; subst. simpl in Hin. destruct Hin as [E|Hin].
  - inversion E; subst. exact Hy.
  - eapply IH; eauto.
Qed.

Lemma select_by_mask {A B} (f : B -> bool) :
  forall (g : list A) (l : list B),
    map fst (filter snd (combine g (map f l)))
    = map fst (filter (fun p => f (snd p)) (combine g l)).
Proof.
  induction g as [|a g IH]; intros l; [reflexivity|].
  destruct l as [|b l]; [reflexivity|].
  cbn [map combine filter snd]. destruct (f b); cbn [map fst];
    rewrite IH; reflexivity.
Qed.

Lemma link_length_set_links (hypot : Q -> Q -> Q) (network : Network)
  (l : Link1d2d) (link : Z * Z) :
  link_length hypot (set_links network l) link
  = link_length hypot network link.
Proof. reflexivity. Qed.

(** C4.  After [links1d2d_add_links_1d_to_2d] with a finite [max_length],
    the links present before the call are still there, whatever their
    length, and the links generated by the call that remain are exactly
    those whose node-to-face-centre distance is below [max_length]: every
    generated link whose distance exceeds [max_length] is gone.  (The
    kernel appends the links it generates to the existing ones.) *)
Theorem links_1d_to_2d_keep_present_drop_long :
  forall (hypot : Q -> Q -> Q) (Polygon : Type)
         (box : Q -> Q -> Q -> Q -> Polygon)
         (get_node_mask : Network -> option (list string) -> list bool)
         (_link_from_1d_to_2d : Network -> list bool -> Polygon -> Link1d2d)
         (network : Network) (branchids : option (list string))
         (within : option Polygon) (max_length : Q) (network' : Network),
    links1d2d_add_links_1d_to_2d hypot Polygon box get_node_mask
      _link_from_1d_to_2d network branchids within (Some max_length)
    = Ok network' ->
    (forall mask poly,
        firstn (List.length (link1d2d (_link1d2d network)))
               (link1d2d (_link_from_1d_to_2d network mask poly))
        = link1d2d (_link1d2d network)) ->
    exists (poly : Polygon) (lengths : list Q),
      mapM (link_length hypot network)
           (skipn (List.length (link1d2d (_link1d2d network)))
                  (link1d2d (_link_from_1d_to_2d network
                               (get_node_mask network branchids) poly)))
      = Ok lengths
      /\ firstn (List.length (link1d2d (_link1d2d network)))
                (link1d2d (_link1d2d network'))
         = link1d2d (_link1d2d network)
      /\ skipn (List.length (link1d2d (_link1d2d network)))
               (link1d2d (_link1d2d network'))
         = map fst
             (filter (fun p => lt_max_length (snd p) (Some max_length))
                (combine
                   (skipn (List.length (link1d2d (_link1d2d network)))
                      (link1d2d (_link_from_1d_to_2d network
                                   (get_node_mask network branchids) poly)))
                   lengths))
      /\ (forall link,
             In link (skipn (List.length (link1d2d (_link1d2d network)))
                            (link1d2d (_link1d2d network'))) ->
             exists len, link_length hypot network link = Ok len
                         /\ (len < max_length)%Q
                         /\ ~ (max_length < len)%Q).
Proof.
  intros hypot Polygon box get_node_mask gen network branchids within
         max_length network' Hrun Happend.
  unfold links1d2d_add_links_1d_to_2d in Hrun.
  apply PyFacts.bind_ok_inv in Hrun. destruct Hrun as [poly [_ Hrun]].
  apply PyFacts.bind_ok_inv in Hrun. destruct Hrun as [lengths [Hlen Hrun]].
  unfold _filter_links_on_idx in Hrun.
  apply PyFacts.bind_ok_inv in Hrun. destruct Hrun as [a [Ha Hrun]].
  apply PyFacts.bind_ok_inv in Hrun. destruct Hrun as [b [_ Hrun]].
  apply PyFacts.bind_ok_inv in Hrun. destruct Hrun as [c [_ Hrun]].
  apply PyFacts.bind_ok_inv in Hrun. destruct Hrun as [d [_ Hrun]].
  inversion Hrun; subst network'. clear Hrun.
  cbn [_link1d2d set_links link1d2d] in *.
  set (n := List.length (link1d2d (_link1d2d network))) in *.
  set (glinks := link1d2d (gen network (get_node_mask network branchids) poly))
    in *.
  specialize (Happend (get_node_mask network branchids) poly).
  fold glinks in Happend.
  assert (Hn : (n <= List.length glinks)%nat).
  { assert (H : List.length (firstn n glinks) = n)
      by (rewrite Happend; reflexivity).
    rewrite length_firstn in H. lia. }
  assert (Hlen' : mapM (link_length hypot network) (skipn n glinks)
                  = Ok lengths) by exact Hlen.
  unfold np_take in Ha. apply PyFacts.mapM_app in Ha.
  destruct Ha as [r1 [r2 [H1 [H2 ->]]]].
  fold (np_take glinks (arange n)) in H1.
  rewrite (np_take_arange glinks n Hn) in H1. inversion H1; subst r1.
  clear H1.
  unfold where_ in H2. rewrite where_from_shift in H2.
  rewrite Z.add_0_l in H2.
  assert (Hsplit : glinks
                   = link1d2d (_link1d2d network) ++ skipn n glinks ++ []).
  { rewrite app_nil_r. rewrite <- Happend. symmetry. apply firstn_skipn. }
  rewrite Hsplit in H2 at 1.
  pose proof (np_take_where
                (map (fun x => lt_max_length x (Some max_length)) lengths)
                (skipn n glinks) (link1d2d (_link1d2d network)) []) as Hw.
  unfold np_take in Hw. fold n in Hw.
  rewrite Hw in H2
    by (rewrite length_map; apply (mapM_length _ _ _ Hlen')).
  inversion H2; subst r2. clear H2.
  assert (Hf : List.length (firstn n glinks) = n)
    by (rewrite length_firstn; lia).
  exists poly, lengths.
  split; [exact Hlen'|].
  split.
  { rewrite firstn_app, Hf, Nat.sub_diag, firstn_O, app_nil_r.
    rewrite <- Hf at 1. rewrite firstn_all. exact Happend. }
  assert (Hskip :
            skipn n
              (firstn n glinks
               ++ map fst
                    (filter snd
                       (combine (skipn n glinks)
                          (map (fun x => lt_max_length x (Some max_length))
                               lengths))))
            = map fst
                (filter (fun p => lt_max_length (snd p) (Some max_length))
                   (combine (skipn n glinks) lengths))).
  { rewrite skipn_app, Hf, Nat.sub_diag. cbn [skipn].
    rewrite <- Hf at 1. rewrite skipn_all. cbn [app].
    apply (select_by_mask (fun x => lt_max_length x (Some max_length))). }
  split; [exact Hskip|].
  intros link Hin0.
  assert (Hin : In link
                  (map fst
                     (filter
                        (fun p => lt_max_length (snd p) (Some max_length))
                        (combine (skipn n glinks) lengths))))
    by (rewrite <- Hskip; exact Hin0).
  clear Hin0. apply in_map_iff in Hin. destruct Hin as [[l len] [<- Hin]].
  apply filter_In in Hin. destruct Hin as [Hin Hlt].
  exists len. split; [exact (mapM_combine_In _ _ _ Hlen' _ _ Hin)|].
  cbn [snd lt_max_length] in Hlt.
  destruct (Qlt_le_dec len max_length) as [Hl|Hl]; [|discriminate].
  split; [exact Hl|]. intros Hc. apply (Qlt_irrefl len).
  eapply Qlt_trans; eauto.
Qed.

Lemma links_1d_to_2d_keep_present_drop_long_witness :
  exists (poly : unit) (lengths : list Q),
    mapM (link_length Crosssections.hypot_floor linked_network)
         (skipn (List.length (link1d2d (_link1d2d linked_network)))
                (link1d2d (append_two_links linked_network [] poly)))
    = Ok lengths
    /\ firstn (List.length (link1d2d (_link1d2d linked_network)))
              (link1d2d (_link1d2d linked_network_after))
       = link1d2d (_link1d2d linked_network)
    /\ skipn (List.length (link1d2d (_link1d2d linked_network)))
             (link1d2d (_link1d2d linked_network_after))
       = map fst
           (filter (fun p => lt_max_length (snd p) (Some 5%Q))
              (combine
                 (skipn (List.length (link1d2d (_link1d2d linked_network)))
                    (link1d2d (append_two_links linked_network [] poly)))
                 lengths))
    /\ (forall link,
           In link (skipn (List.length (link1d2d (_link1d2d linked_network)))
                          (link1d2d (_link1d2d linked_network_after))) ->
           exists len,
             link_length Crosssections.hypot_floor linked_network link = Ok len
             /\ (len < 5)%Q /\ ~ (5 < len)%Q).
Proof.
  apply (links_1d_to_2d_keep_present_drop_long Crosssections.hypot_floor unit
           (fun _ _ _ _ => tt) (fun _ _ => []) append_two_links
           linked_network None None 5%Q linked_network_after).
  - vm_compute. reflexivity.
  - intros mask poly. reflexivity.
Defined.

Lemma mesh2d_merge_offsets_new_indices_witness :
  exists m : Z,
    array_max (edge_nodes square_existing) = Ok m
    /\ In m (edge_nodes square_existing)
    /\ (forall j, In j (edge_nodes square_existing) -> j <= m)
    /\ edge_nodes square_merged
       = edge_nodes square_existing
         ++ map (fun i => i + (m + 1)) (edge_nodes square_new)
    /\ face_nodes square_merged
       = face_nodes square_existing
         ++ map (fun i => i + (m + 1)) (face_nodes square_new)
    /\ (forall i, In i (edge_nodes square_new ++ face_nodes square_new) ->
                  ~ In (i + (m + 1)) (edge_nodes square_existing)).
Proof.
  apply (mesh2d_merge_offsets_new_indices square_existing square_new
           square_merged).
  - vm_compute. reflexivity.
  - discriminate.
  - repeat constructor; unfold int32_min, int32_max; lia.
  - repeat constructor; lia.
  - intros i j Hi Hj. unfold int32_max. simpl in Hi, Hj. lia.
Defined.

End MeshFacts.


(** ** The time index of the history reader *)

Module HisFacts.

Import HisReader.
Local Open Scope Z_scope.
Local Open Scope list_scope.



(** The example of the specification: three hourly instants; the
    [+00:00] suffix is ignored. *)
Lemma timeframe_hourly_example :
  (exists index,
      make_timeframe "seconds since 2020-01-01 00:00:00" [0; 3600; 7200]
      = Ok index
      /\ map civil index
         = [(2020, 1, 1, 0, 0, 0); (2020, 1, 1, 1, 0, 0);
            (2020, 1, 1, 2, 0, 0)])
  /\ make_timeframe "seconds since 2020-01-01 00:00:00+00:00" [0; 3600; 7200]
     = make_timeframe "seconds since 2020-01-01 00:00:00" [0; 3600; 7200].
Proof.
  split.
  - eexists. split.
    + vm_compute. reflexivity.
    + vm_compute. reflexivity.
  - vm_compute. reflexivity.
Qed.


End HisFacts.


(** ** The friction overlay *)

Module FrictionFacts.

Import Friction.
Local Open Scope list_scope.

Lemma num_eqb_sym (a b : Num) : num_eqb a b = num_eqb b a.
Proof.
  unfold num_eqb.
  destruct (Qeq_bool (num_value a) (num_value b)) eqn:E.
  - symmetry. apply Qeq_bool_iff. symmetry. apply Qeq_bool_iff. exact E.
  - symmetry. apply not_true_is_false. intros H. apply Qeq_bool_iff in H.
    symmetry in H. apply Qeq_bool_iff in H. congruence.
Qed.

Lemma nums_eqb_sym : forall a b, nums_eqb a b = nums_eqb b a.
Proof.
  induction a as [|x a IH]; destruct b as [|y b]; simpl; try reflexivity.
  rewrite num_eqb_sym, IH. reflexivity.
Qed.

Lemma cell_eqb_sym (a b : Cell) : cell_eqb a b = cell_eqb b a.
Proof.
  destruct a, b; simpl; try reflexivity.
  - apply num_eqb_sym.
  - apply nums_eqb_sym.
Qed.


Lemma same_values_refl (r : FrictBranch) : same_values r r.
Proof.
  assert (Hnum : forall n, num_eqb n n = true)
    by (intros n; apply Qeq_bool_iff; reflexivity).
  assert (Hcell : forall c, cell_eqb c c = true).
  { intros [|n|l]; simpl; auto.
    induction l as [|n l IH]; simpl; [reflexivity|].
    rewrite Hnum, IH. reflexivity. }
  unfold same_values. auto.
Qed.

End FrictionFacts.


(** ** The statistics export *)

Module StatisticsFacts.

Import Statistics.
Local Open Scope list_scope.







(** *** The median *)










(** The descriptive summary of the example: the medians are 2 and 4.5. *)
Lemma statistics_describe_example :
  exists rows,
    statistics_example "" "" "" = Ok rows
    /\ map (fun r => map fst (stats r)) rows
       = [["count"; "mean"; "std"; "min"; "50%"; "max"];
          ["count"; "mean"; "std"; "min"; "50%"; "max"]]
    /\ map (fun r => nth 4 (stats r) ("", None)) rows
       = [("50%", Some 2%Q); ("50%", Some (9 # 2)%Q)].
Proof.
  eexists. split; [vm_compute; reflexivity|].
  split; vm_compute; reflexivity.
Qed.



End StatisticsFacts.


(** ** Invert levels in the pipe setup *)

Module PipesFacts.

Import Pipes.
Local Open Scope list_scope.

Lemma allowed_is_not_invlev_dn (name : string) :
  existsb (String.eqb name) _allowed_columns = true ->
  String.eqb name "invlev_dn" = false.
Proof.
  intros H. destruct (String.eqb name "invlev_dn") eqn:E; [|reflexivity].
  apply String.eqb_eq in E. subst name. vm_compute in H. discriminate H.
Qed.

(** The column filter drops [invlev_dn] from every pipes source: the
    list of allowed columns names it [inlev_dn]. *)
Lemma select_allowed_drops_invlev_dn (gdf_pipe : Table) :
  has_column "invlev_dn" (select_allowed gdf_pipe) = false.
Proof.
  unfold has_column, select_allowed.
  induction gdf_pipe as [|[n v] t IH]; [reflexivity|].
  cbn [filter fst].
  destruct (existsb (String.eqb n) _allowed_columns) eqn:E; [|exact IH].
  cbn [existsb fst]. rewrite (allowed_is_not_invlev_dn n E). exact IH.
Qed.

(** C2 (what the code does).  Although the source of the example fully
    populates [invlev_up] and [invlev_dn], the column filter removes
    [invlev_dn]; the invert levels are therefore taken as missing: with a
    terrain raster the result is whatever [invert_levels_from_dem]
    derives from a table without the explicit [invlev_dn], and without a
    raster [invlev_dn] becomes the constant [pipes_invlev]. *)
Theorem setup_pipes_loses_explicit_invlev_dn :
  forall (Dem : Type) (invert_levels_from_dem : Table -> Dem -> Q -> Table)
         (friction_id : Value -> Value -> Value) (dem : Dem),
    (forall gdf_pipe, has_column "invlev_dn" (select_allowed gdf_pipe) = false)
    /\ get_column "invlev_dn" pipes_source = Ok [VNum (- 23 # 10)%Q]
    /\ setup_pipes_example Dem invert_levels_from_dem friction_id (Some dem)
       = Ok (Some (invert_levels_from_dem (pipes_before_invlev friction_id)
                     dem (- 2)%Q))
    /\ has_column "invlev_dn" (pipes_before_invlev friction_id) = false
    /\ (exists pipes,
           setup_pipes_example Dem invert_levels_from_dem friction_id None
           = Ok (Some pipes)
           /\ get_column "invlev_up" pipes = Ok [VNum (- 2)%Q]
           /\ get_column "invlev_dn" pipes = Ok [VNum (- 25 # 10)%Q]).
Proof.
  intros Dem ilfd fid dem.
  split; [exact select_allowed_drops_invlev_dn|].
  split; [reflexivity|].
  split; [vm_compute; reflexivity|].
  split; [reflexivity|].
  eexists. split; [vm_compute; reflexivity|].
  split; reflexivity.
Qed.

End PipesFacts.


(** ** More on xyz profiles *)

Module XyzMoreFacts.

Import Crosssections.
Local Open Scope list_scope.

(** The comparison of [sort_values] for the default keys. *)
Lemma xy_leb_iff (a b : XyzRow) :
  rows_leb [fun r => CNum (row_x r); fun r => CNum (row_y r)] a b = true
  <-> xy_le (row_x a, row_y a) (row_x b, row_y b).
Proof.
  unfold rows_leb, xy_le. cbn [rows_compare cell_compare fst snd].
  destruct (Qcompare_spec (row_x a) (row_x b)) as [Hx|Hx|Hx].
  - destruct (Qcompare_spec (row_y a) (row_y b)) as [Hy|Hy|Hy].
    + split; [|reflexivity]. intros _. right. split; [exact Hx|].
      rewrite Hy. apply Qle_refl.
    + split; [|reflexivity]. intros _. right. split; [exact Hx|].
      apply Qlt_le_weak. exact Hy.
    + split; [discriminate|]. intros [H|[_ H]].
      * rewrite Hx in H. exfalso. exact (Qlt_irrefl _ H).
      * exfalso. exact (Qlt_irrefl _ (Qlt_le_trans _ _ _ Hy H)).
  - split; [|reflexivity]. intros _. left. exact Hx.
  - split; [discriminate|]. intros [H|[H _]].
    + exfalso. exact (Qlt_irrefl _ (Qlt_trans _ _ _ H Hx)).
    + rewrite H in Hx. exfalso. exact (Qlt_irrefl _ Hx).
Qed.

Lemma xy_le_total (p q : Q * Q) : ~ xy_le p q -> xy_le q p.
Proof.
  unfold xy_le. intros H.
  destruct (Qcompare_spec (fst p) (fst q)) as [Hx|Hx|Hx].
  - right. split; [symmetry; exact Hx|].
    destruct (Qlt_le_dec (snd p) (snd q)) as [Hy|Hy]; [|exact Hy].
    exfalso. apply H. right. split; [exact Hx | apply Qlt_le_weak; exact Hy].
  - exfalso. apply H. left. exact Hx.
  - left. exact Hx.
Qed.

Lemma xy_le_trans (p q r : Q * Q) : xy_le p q -> xy_le q r -> xy_le p r.
Proof.
  unfold xy_le. intros [H1|[H1 H1']] [H2|[H2 H2']].
  - left. eapply Qlt_trans; eauto.
  - left. rewrite <- H2. exact H1.
  - left. rewrite H1. exact H2.
  - right. split; [rewrite H1; exact H2 | eapply Qle_trans; eauto].
Qed.

Lemma sort_xy_sorted (xyz : list XyzRow) :
  StronglySorted (fun a b => xy_le (row_x a, row_y a) (row_x b, row_y b))
    (Py.sort (rows_leb [fun r => CNum (row_x r); fun r => CNum (row_y r)])
       xyz).
Proof.
  set (leb := rows_leb [fun r => CNum (row_x r); fun r => CNum (row_y r)]).
  assert (H : StronglySorted (fun a b => leb a b = true) (Py.sort leb xyz)).
  { apply PyFacts.sort_sorted.
    - intros a b Hab. apply xy_leb_iff. apply xy_le_total.
      intros Hc. apply xy_leb_iff in Hc. unfold leb in Hab. congruence.
    - intros a b c Hab Hbc. apply xy_leb_iff.
      apply xy_leb_iff in Hab. apply xy_leb_iff in Hbc.
      eapply xy_le_trans; eauto. }
  induction H as [|a l Hl IH Ha]; constructor; [exact IH|].
  eapply Forall_impl; [|exact Ha]. intros b Hb. apply xy_leb_iff. exact Hb.
Qed.

Lemma StronglySorted_map {A B} (R : B -> B -> Prop) (f : A -> B) :
  forall l, StronglySorted (fun a b => R (f a) (f b)) l ->
            StronglySorted R (map f l).
Proof.
  induction 1 as [|a l Hl IH Ha]; simpl; constructor; [exact IH|].
  apply Forall_map. exact Ha.
Qed.

(** X1.  Called without [sort_by], [xyzp2xyzl] joins the points in
    lexicographic order of their [(x, y)] coordinates: the polyline is a
    rearrangement of the group's points and is sorted by [x], then
    [y]. *)
Theorem xyzp2xyzl_default_sorts_by_xy :
  forall (hypot : Q -> Q -> Q) (xyz : list XyzRow) (line : XyzLine),
    xyzp2xyzl hypot xyz default_sort_by = Ok line ->
    Permutation (line_geometry line)
                (map (fun r => (row_x r, row_y r)) xyz)
    /\ StronglySorted xy_le (line_geometry line)
    /\ line_x line = map fst (line_geometry line)
    /\ line_y line = map snd (line_geometry line).
Proof.
  intros hypot xyz line H. unfold xyzp2xyzl in H.
  destruct xyz as [|first rest]; [discriminate|].
  change (sort_values (map Py.lower default_sort_by) (first :: rest))
    with (Ok (Py.sort
                (rows_leb [fun r => CNum (row_x r); fun r => CNum (row_y r)])
                (first :: rest))) in H.
  cbn [Py.bind] in H.
  set (sorted := Py.sort _ (first :: rest)) in H.
  assert (Hgeo : line_geometry line
                 = map (fun r => (row_x r, row_y r)) sorted
                 /\ line_x line = map row_x sorted
                 /\ line_y line = map row_y sorted).
  { destruct (map (fun r => (row_x r, row_y r)) sorted)
      as [|p [|q t]] eqn:E; inversion H; subst; cbn; auto. }
  destruct Hgeo as [Hg [Hx Hy]]. rewrite Hg, Hx, Hy, !map_map. cbn [fst snd].
  repeat split.
  - apply Permutation_map. apply PyFacts.sort_perm.
  - apply (StronglySorted_map xy_le (fun r => (row_x r, row_y r))).
    apply sort_xy_sorted.
Qed.

Lemma xyzp2xyzl_default_sorts_by_xy_witness :
  exists line,
    xyzp2xyzl hypot_floor (map apply_data_type survey_right_to_left)
      default_sort_by = Ok line
    /\ Permutation (line_geometry line)
         (map (fun r => (row_x r, row_y r))
              (map apply_data_type survey_right_to_left))
    /\ StronglySorted xy_le (line_geometry line)
    /\ line_x line = map fst (line_geometry line)
    /\ line_y line = map snd (line_geometry line).
Proof.
  eexists. split; [vm_compute; reflexivity|].
  apply (xyzp2xyzl_default_sorts_by_xy hypot_floor
           (map apply_data_type survey_right_to_left)).
  vm_compute. reflexivity.
Defined.

Lemma diff_length : forall l, List.length (diff l) = pred (List.length l).
Proof.
  induction l as [|a [|b t] IH]; try reflexivity.
  change (diff (a :: b :: t)) with ((b - a)%Q :: diff (b :: t)).
  cbn [List.length pred] in *. rewrite IH. reflexivity.
Qed.

Lemma zip_hypot_length (hypot : Q -> Q -> Q) :
  forall dx dy, List.length dx = List.length dy ->
                List.length (zip_hypot hypot dx dy) = List.length dx.
Proof.
  induction dx as [|a dx IH]; destruct dy as [|b dy]; simpl; intros H;
    try reflexivity; try discriminate.
  f_equal. apply IH. congruence.
Qed.

Lemma cumsum_from_length : forall l acc,
    List.length (cumsum_from acc l) = List.length l.
Proof.
  induction l as [|a l IH]; simpl; intros acc; [reflexivity|].
  f_equal. apply IH.
Qed.

Lemma sort_values_perm (by_ : list string) (xyz sorted : list XyzRow) :
  sort_values by_ xyz = Ok sorted -> Permutation sorted xyz.
Proof.
  unfold sort_values. intros H.
  apply PyFacts.bind_ok_inv in H. destruct H as [keys [_ H]].
  inversion H. apply PyFacts.sort_perm.
Qed.

(** What a successful call returns, for any sort keys. *)
Lemma xyzp2xyzl_inv (hypot : Q -> Q -> Q) (xyz : list XyzRow)
  (sort_by : list string) (line : XyzLine) :
  xyzp2xyzl hypot xyz sort_by = Ok line ->
  exists first rest sorted,
    xyz = first :: rest
    /\ Permutation sorted xyz
    /\ line
       = {| line_geometry := map (fun r => (row_x r, row_y r)) sorted;
            line_l :=
              0%Q :: cumsum
                       (zip_hypot hypot
                          (diff (map fst
                                   (map (fun r => (row_x r, row_y r)) sorted)))
                          (diff (map snd
                                   (map (fun r => (row_x r, row_y r)) sorted))));
            line_index := row_index first;
            line_x := map row_x sorted;
            line_y := map row_y sorted;
            line_z := map row_z sorted |}
    /\ (2 <= List.length sorted)%nat.
Proof.
  unfold xyzp2xyzl. destruct xyz as [|first rest]; [discriminate|].
  intros H. apply PyFacts.bind_ok_inv in H. destruct H as [sorted [Hs H]].
  exists first, rest, sorted. split; [reflexivity|].
  pose proof (sort_values_perm _ _ _ Hs) as Hp. split; [exact Hp|].
  pose proof (Permutation_length Hp) as Hl. cbn [List.length] in Hl.
  destruct sorted as [|p [|q t]]; [discriminate | | ].
  - cbn in H. discriminate.
  - cbn [map] in H. inversion H. split; [reflexivity|].
    cbn [List.length]. lia.
Qed.

(** X2.  A profile returned by [xyzp2xyzl] has at least two points, and
    its polyline, its arc-length list [l] and its [x], [y], [z] lists all
    have as many entries as the group has points; [l] starts at 0 and the
    profile is labelled with the index of the group's first row. *)
Theorem xyzp2xyzl_lists_aligned :
  forall (hypot : Q -> Q -> Q) (xyz : list XyzRow) (sort_by : list string)
         (line : XyzLine),
    xyzp2xyzl hypot xyz sort_by = Ok line ->
    (2 <= List.length xyz)%nat
    /\ List.length (line_geometry line) = List.length xyz
    /\ List.length (line_l line) = List.length xyz
    /\ List.length (line_x line) = List.length xyz
    /\ List.length (line_y line) = List.length xyz
    /\ List.length (line_z line) = List.length xyz
    /\ hd 1%Q (line_l line) = 0%Q
    /\ map row_index (firstn 1 xyz) = [line_index line].
Proof.
  intros hypot xyz sort_by line H.
  destruct (xyzp2xyzl_inv _ _ _ _ H)
    as [first [rest [sorted [-> [Hp [-> Hn]]]]]].
  pose proof (Permutation_length Hp) as Hl.
  cbn [line_geometry line_l line_x line_y line_z line_index].
  rewrite !length_map, <- Hl. repeat split; try lia; try reflexivity.
  cbn [List.length]. unfold cumsum.
  rewrite cumsum_from_length, zip_hypot_length, diff_length, !length_map;
    [lia|].
  rewrite !diff_length, !length_map. reflexivity.
Qed.

Lemma xyzp2xyzl_lists_aligned_witness :
  (2 <= List.length (map apply_data_type survey_right_to_left))%nat
  /\ List.length (line_geometry profile_right_to_left)
     = List.length (map apply_data_type survey_right_to_left)
  /\ List.length (line_l profile_right_to_left)
     = List.length (map apply_data_type survey_right_to_left)
  /\ List.length (line_x profile_right_to_left)
     = List.length (map apply_data_type survey_right_to_left)
  /\ List.length (line_y profile_right_to_left)
     = List.length (map apply_data_type survey_right_to_left)
  /\ List.length (line_z profile_right_to_left)
     = List.length (map apply_data_type survey_right_to_left)
  /\ hd 1%Q (line_l profile_right_to_left) = 0%Q
  /\ map row_index (firstn 1 (map apply_data_type survey_right_to_left))
     = [line_index profile_right_to_left].
Proof.
  apply (xyzp2xyzl_lists_aligned hypot_floor
           (map apply_data_type survey_right_to_left) ["order"]).
  vm_compute. reflexivity.
Defined.

Lemma cumsum_from_sorted :
  forall l acc,
    Forall (fun d => (0 <= d)%Q) l ->
    StronglySorted Qle (acc :: cumsum_from acc l).
Proof.
  induction l as [|d l IH]; intros acc Hpos; cbn [cumsum_from].
  - repeat constructor.
  - inversion Hpos as [|? ? Hd Hl]; subst.
    specialize (IH (acc + d)%Q Hl).
    constructor; [exact IH|].
    assert (Hstep : (acc <= acc + d)%Q).
    { rewrite <- (Qplus_0_r acc) at 1. apply Qplus_le_r. exact Hd. }
    inversion IH as [|? ? _ Hall]; subst.
    constructor; [exact Hstep|].
    eapply Forall_impl; [|exact Hall]. intros x Hx.
    eapply Qle_trans; eauto.
Qed.

Lemma zip_hypot_nonneg (hypot : Q -> Q -> Q) :
  (forall a b, (0 <= hypot a b)%Q) ->
  forall dx dy, Forall (fun d => (0 <= d)%Q) (zip_hypot hypot dx dy).
Proof.
  intros Hh. induction dx as [|a dx IH]; destruct dy as [|b dy]; simpl;
    constructor; auto.
Qed.

(** X3.  The arc-length list of a profile never decreases along the
    polyline (the hypotenuse function returns non-negative values). *)
Theorem xyzp2xyzl_arc_length_monotone :
  forall (hypot : Q -> Q -> Q) (xyz : list XyzRow) (sort_by : list string)
         (line : XyzLine),
    (forall a b, (0 <= hypot a b)%Q) ->
    xyzp2xyzl hypot xyz sort_by = Ok line ->
    StronglySorted Qle (line_l line)
    /\ Forall (fun d => (0 <= d)%Q) (line_l line).
Proof.
  intros hypot xyz sort_by line Hh H.
  destruct (xyzp2xyzl_inv _ _ _ _ H)
    as [first [rest [sorted [-> [Hp [-> Hn]]]]]].
  cbn [line_l]. unfold cumsum.
  pose proof (cumsum_from_sorted _ 0%Q (zip_hypot_nonneg hypot Hh
      (diff (map fst (map (fun r => (row_x r, row_y r)) sorted)))
      (diff (map snd (map (fun r => (row_x r, row_y r)) sorted))))) as Hs.
  split; [exact Hs|].
  inversion Hs as [|? ? _ Hall]; subst.
  constructor; [apply Qle_refl | exact Hall].
Qed.

Lemma hypot_floor_nonneg (a b : Q) : (0 <= hypot_floor a b)%Q.
Proof.
  unfold hypot_floor, Qle. simpl. rewrite Z.mul_1_r. apply Z.sqrt_nonneg.
Qed.

Lemma xyzp2xyzl_arc_length_monotone_witness :
  StronglySorted Qle (line_l profile_right_to_left)
  /\ Forall (fun d => (0 <= d)%Q) (line_l profile_right_to_left).
Proof.
  apply (xyzp2xyzl_arc_length_monotone hypot_floor
           (map apply_data_type survey_right_to_left) ["order"]).
  - exact hypot_floor_nonneg.
  - vm_compute. reflexivity.
Defined.

(** X4.  [xyzp2xyzl] fails on a group of a single point, because a
    polyline needs two coordinate tuples, and on a sort key that is not a
    column: the first such key is reported. *)
Theorem xyzp2xyzl_errors :
  forall (hypot : Q -> Q -> Q),
    (forall (r : XyzRow) (sort_by : list string) keys,
        mapM column (map Py.lower sort_by) = Ok keys ->
        xyzp2xyzl hypot [r] sort_by
        = Raise (ValueError
                   "LineStrings must have at least 2 coordinate tuples"))
    /\ (forall (r : XyzRow) (rest : list XyzRow) (k : string)
               (sort_by : list string) (e : PyExc),
           column (Py.lower k) = Raise e ->
           xyzp2xyzl hypot (r :: rest) (k :: sort_by) = Raise e)
    /\ (forall sort_by, exists e, xyzp2xyzl hypot [] sort_by = Raise e)
    /\ column (Py.lower "Order") = column "order"
    /\ column "branchid" = Raise (KeyError "branchid").
Proof.
  intros hypot. split; [|split; [|split; [|split]]].
  - intros r sort_by keys Hk. unfold xyzp2xyzl, sort_values.
    rewrite Hk. reflexivity.
  - intros r rest k sort_by e Hk. unfold xyzp2xyzl, sort_values.
    cbn [map mapM]. rewrite Hk. reflexivity.
  - intros sort_by. eexists. reflexivity.
  - reflexivity.
  - reflexivity.
Qed.

Lemma ascii_compare_cases (a b : ascii) :
  (Ascii.compare a b = Eq /\ a = b)
  \/ (Ascii.compare a b = Lt /\ (N_of_ascii a < N_of_ascii b)%N)
  \/ (Ascii.compare a b = Gt /\ (N_of_ascii b < N_of_ascii a)%N).
Proof.
  destruct (Ascii.compare a b) eqn:E.
  - left. split; [reflexivity | apply Ascii.compare_eq_iff; exact E].
  - right. left. split; [reflexivity|]. unfold Ascii.compare in E.
    apply N.compare_lt_iff. exact E.
  - right. right. split; [reflexivity|]. unfold Ascii.compare in E.
    apply N.compare_gt_iff. exact E.
Qed.

Lemma string_leb_trans :
  forall s1 s2 s3 : string,
    String.leb s1 s2 = true -> String.leb s2 s3 = true ->
    String.leb s1 s3 = true.
Proof.
  unfold String.leb.
  induction s1 as [|c1 s1 IH]; intros [|c2 s2] [|c3 s3]; cbn [String.compare];
    try reflexivity; try discriminate.
  destruct (ascii_compare_cases c1 c2) as [[E12 H12]|[[E12 H12]|[E12 H12]]];
    destruct (ascii_compare_cases c2 c3) as [[E23 H23]|[[E23 H23]|[E23 H23]]];
    destruct (ascii_compare_cases c1 c3) as [[E13 H13]|[[E13 H13]|[E13 H13]]];
    rewrite E12, E23, E13; try subst; try reflexivity; try discriminate;
    try (intros; exfalso; lia); try (intros _ _; reflexivity);
    try apply IH; try congruence.
Qed.

Lemma string_leb_total (a b : string) :
  String.leb a b = false -> String.leb b a = true.
Proof.
  intros H. destruct (String.leb_total a b) as [H'|H']; congruence.
Qed.

(** X5.  [set_xyz_crosssections] builds exactly one profile per distinct
    index value of the survey table: the profiles come in ascending order
    of their index, no index occurs twice, every index of the table has
    its profile, and every profile carries the index of its group. *)
Theorem xyz_profiles_one_per_index :
  forall (hypot : Q -> Q -> Q) (crosssections : list SurveyPoint)
         (profiles : list (string * XyzLine)),
    set_xyz_crosssections_profiles hypot crosssections = Ok profiles ->
    NoDup (map fst profiles)
    /\ StronglySorted (fun a b => String.leb a b = true) (map fst profiles)
    /\ (forall k, In k (map fst profiles)
                  <-> In k (map sp_index crosssections))
    /\ (forall k line, In (k, line) profiles -> line_index line = k).
Proof.
  intros hypot cs profiles H. unfold set_xyz_crosssections_profiles in H.
  set (rows := map apply_data_type cs) in *.
  assert (Hkeys : map fst profiles = group_keys rows).
  { revert profiles H. generalize (group_keys rows) as keys.
    induction keys as [|k keys IH]; intros profiles H.
    - inversion H. reflexivity.
    - cbn [mapM] in H.
      apply PyFacts.bind_ok_inv in H. destruct H as [p [Hp H]].
      apply PyFacts.bind_ok_inv in H. destruct H as [ps [Hps H]].
      inversion H; subst profiles. clear H.
      apply PyFacts.bind_ok_inv in Hp. destruct Hp as [line [_ Hp]].
      inversion Hp; subst p. cbn [map fst]. f_equal. apply IH. exact Hps. }
  assert (Hperm : Permutation (group_keys rows)
                    (Py.drop_duplicates String.eqb (map row_index rows)))
    by apply PyFacts.sort_perm.
  split; [|split; [|split]].
  - rewrite Hkeys. eapply Permutation_NoDup;
      [apply Permutation_sym; exact Hperm|].
    apply PyFacts.unique_strings_from_NoDup.
  - rewrite Hkeys. apply PyFacts.sort_sorted.
    + exact string_leb_total.
    + exact string_leb_trans.
  - intros k. rewrite Hkeys. split; intros Hin.
    + apply (Permutation_in _ Hperm) in Hin.
      apply PyFacts.unique_strings_from_In in Hin. destruct Hin as [Hin _].
      unfold rows in Hin. rewrite map_map in Hin. exact Hin.
    + apply (Permutation_in _ (Permutation_sym Hperm)).
      apply PyFacts.unique_strings_from_In. split; [|intros []].
      unfold rows. rewrite map_map. exact Hin.
  - intros k line Hin.
    destruct (PyFacts.mapM_In _ _ _ H _ Hin) as [k' [_ Hk']].
    apply PyFacts.bind_ok_inv in Hk'. destruct Hk' as [line' [Hline Heq]].
    inversion Heq; subst k' line'.
    destruct (xyzp2xyzl_inv _ _ _ _ Hline)
      as [first [rest [sorted [Hg [_ [-> _]]]]]].
    cbn [line_index].
    assert (Hf : In first (group_rows k rows))
      by (rewrite Hg; left; reflexivity).
    unfold group_rows in Hf. apply filter_In in Hf.
    apply String.eqb_eq. apply Hf.
Qed.

Lemma xyz_profiles_one_per_index_witness :
  NoDup (map fst [("crs1", profile_right_to_left)])
  /\ StronglySorted (fun a b => String.leb a b = true)
       (map fst [("crs1", profile_right_to_left)])
  /\ (forall k, In k (map fst [("crs1", profile_right_to_left)])
                <-> In k (map sp_index survey_right_to_left))
  /\ (forall k line, In (k, line) [("crs1", profile_right_to_left)] ->
                     line_index line = k).
Proof.
  apply (xyz_profiles_one_per_index hypot_floor survey_right_to_left).
  vm_compute. reflexivity.
Defined.

End XyzMoreFacts.


(** ** More on cross-sections at both ends of a branch *)

Module BranchMoreFacts.

Import Crosssections.
Local Open Scope list_scope.

Lemma first_points_fail :
  forall branches,
    (exists b, In b branches /\ br_geometry b = []) ->
    mapM (fun b => first_point (br_geometry b)) branches
    = Raise (IndexError "index out of range").
Proof.
  induction branches as [|a t IH]; intros [b [Hin Hb]]; [destruct Hin|].
  cbn [mapM]. destruct (br_geometry a) as [|p rest] eqn:E; [reflexivity|].
  cbn [first_point Py.bind]. rewrite IH; [reflexivity|].
  destruct Hin as [->|Hin]; [congruence|]. exists b. auto.
Qed.

Lemma first_points_ok :
  forall branches,
    Forall (fun b => br_geometry b <> []) branches ->
    mapM (fun b => first_point (br_geometry b)) branches
    = Ok (map start_point branches).
Proof.
  intros branches H. apply PyFacts.mapM_total. rewrite Forall_forall in H.
  intros b Hb. specialize (H b Hb). unfold start_point.
  destruct (br_geometry b); [contradiction | reflexivity].
Qed.

Lemma combine_map_self {A B} (f : A -> B) :
  forall l, combine l (map f l) = map (fun a => (a, f a)) l.
Proof. induction l as [|a l IH]; simpl; [|rewrite IH]; reflexivity. Qed.

Section WithExternals.
Variable geom_length : list (Q * Q) -> Q.
Variable format_2f : Q -> string.
Variable format_3f : Q -> string.

Lemma circle_rows_nil_loop (cs : list EndRow) :
  existsb (String.eqb "circle")
    (Py.drop_duplicates String.eqb (map er_shape cs)) = false ->
  circle_rows format_3f cs = [].
Proof.
  intros H. unfold circle_rows.
  rewrite BranchFacts.filter_none; [reflexivity|].
  intros r Hr. destruct (String.eqb (er_shape r) "circle") eqn:E;
    [|reflexivity].
  apply String.eqb_eq in E. exfalso.
  assert (Hex : existsb (String.eqb "circle")
                  (Py.drop_duplicates String.eqb (map er_shape cs)) = true).
  { apply existsb_exists. exists "circle". split; [|reflexivity].
    apply PyFacts.unique_strings_from_In. split; [|intros []].
    rewrite <- E. apply in_map. exact Hr. }
  congruence.
Qed.

(** The function, once the geometries are known to be non-empty. *)
Lemma set_branch_crosssections_eq (branches : list Branch) :
  Forall (fun b => br_geometry b <> []) branches ->
  set_branch_crosssections geom_length format_2f format_3f branches
  = match _set_circle_crs format_2f
            (circle_rows format_3f (end_rows geom_length branches)) with
    | [] => Raise (KeyError "crsdef_closed")
    | m => Ok (Py.drop_duplicates crsrow_eqb (map finish_row m))
    end.
Proof.
  intros Hne. unfold set_branch_crosssections, crosssections_up,
    crosssections_dn.
  rewrite (first_points_ok _ Hne). cbn [Py.bind].
  rewrite combine_map_self, !map_map. cbn [fst snd].
  fold (end_rows geom_length branches).
  unfold shape_loop.
  rewrite BranchFacts.shape_loop_from
    by apply PyFacts.unique_strings_from_NoDup.
  cbn [app].
  destruct (existsb (String.eqb "circle")
              (Py.drop_duplicates String.eqb
                 (map er_shape (end_rows geom_length branches)))) eqn:E.
  - destruct (_set_circle_crs format_2f
                (circle_rows format_3f (end_rows geom_length branches)));
      reflexivity.
  - rewrite (circle_rows_nil_loop _ E). reflexivity.
Qed.

Lemma merge_left_nil {L R} (on : L -> R -> bool) (left : list L)
  (right : list R) :
  merge_left on left right = [] -> left = [].
Proof.
  destruct left as [|l t]; [reflexivity|]. unfold merge_left.
  cbn [flat_map]. destruct (filter (on l) right); discriminate.
Qed.

End WithExternals.

(** X6.  The outcome of [set_branch_crosssections] with
    [midpoint=False]: an empty branch geometry raises [IndexError]; with
    all geometries non-empty, a table without any ["circle"] branch (in
    particular the empty table) raises [KeyError] on [crsdef_closed]; and
    a table with a ["circle"] branch returns a non-empty table. *)
Theorem set_branch_crosssections_outcome :
  forall (geom_length : list (Q * Q) -> Q) (format_2f format_3f : Q -> string)
         (branches : list Branch),
    ((exists b, In b branches /\ br_geometry b = []) ->
     set_branch_crosssections geom_length format_2f format_3f branches
     = Raise (IndexError "index out of range"))
    /\ (Forall (fun b => br_geometry b <> []) branches ->
        Forall (fun b => br_shape b <> "circle") branches ->
        set_branch_crosssections geom_length format_2f format_3f branches
        = Raise (KeyError "crsdef_closed"))
    /\ (Forall (fun b => br_geometry b <> []) branches ->
        (exists b, In b branches /\ br_shape b = "circle") ->
        exists r rows,
          set_branch_crosssections geom_length format_2f format_3f branches
          = Ok (r :: rows)).
Proof.
  intros geom_length format_2f format_3f branches. split; [|split].
  - intros H. unfold set_branch_crosssections, crosssections_up.
    rewrite (first_points_fail _ H). reflexivity.
  - intros Hne Hnc. rewrite set_branch_crosssections_eq by exact Hne.
    assert (Hc : circle_rows format_3f (end_rows geom_length branches) = []).
    { unfold circle_rows. rewrite BranchFacts.filter_none; [reflexivity|].
      intros r Hr. apply String.eqb_neq. rewrite Forall_forall in Hnc.
      unfold end_rows in Hr. apply in_app_or in Hr.
      destruct Hr as [Hr|Hr]; apply in_map_iff in Hr;
        destruct Hr as [b [<- Hb]]; cbn; apply Hnc; exact Hb. }
    rewrite Hc. reflexivity.
  - intros Hne [b [Hb Hc]]. rewrite set_branch_crosssections_eq by exact Hne.
    destruct (_set_circle_crs format_2f
                (circle_rows format_3f (end_rows geom_length branches)))
      as [|m ms] eqn:E.
    + exfalso. unfold _set_circle_crs in E. apply merge_left_nil in E.
      apply map_eq_nil in E.
      assert (Hin : In (up_row b (start_point b),
                        circle_definitionid format_3f
                          (up_row b (start_point b)))
                       (circle_rows format_3f
                          (end_rows geom_length branches))).
      { unfold circle_rows.
        apply (in_map (fun r => (r, circle_definitionid format_3f r))).
        apply filter_In. split.
        - unfold end_rows. apply in_or_app. left.
          apply (in_map (fun b => up_row b (start_point b))). exact Hb.
        - cbn. rewrite Hc. reflexivity. }
      rewrite E in Hin. destruct Hin.
    + unfold Py.drop_duplicates. cbn [map Py.drop_duplicates_from existsb].
      eexists. eexists. reflexivity.
Qed.

(** X7.  Every row returned by [set_branch_crosssections] with
    [midpoint=False] is complete and consistent: it carries a joined
    definition of type ["circle"], closed (the ["yes"] of the definition
    replaced by 1), whose id and branch are those of the location; its
    thalweg is 0; and it is the upstream or the downstream end of a
    circular branch of the table, named after the branch and the
    chainage. *)
Theorem branch_crosssection_rows_wellformed :
  forall (geom_length : list (Q * Q) -> Q) (format_2f format_3f : Q -> string)
         (branches : list Branch) (rows : list CrsRow) (r : CrsRow),
    set_branch_crosssections geom_length format_2f format_3f branches
    = Ok rows ->
    In r rows ->
    (exists d,
        crs_def r = Some d
        /\ crsdef_type d = "circle"
        /\ crsdef_closed d = ClosedInt 1
        /\ crsdef_id d = crsloc_definitionId (crs_loc r)
        /\ crsdef_branchId d = crsloc_branchId (crs_loc r))
    /\ crsdef_thalweg r = 0%Q
    /\ (exists b,
           In b branches /\ br_shape b = "circle"
           /\ crsloc_branchId (crs_loc r) = br_branchId b
           /\ crsloc_definitionId (crs_loc r)
              = ("circ_d" ++ format_3f (br_diameter b) ++ "_" ++ "branch")%string
           /\ crsloc_id (crs_loc r)
              = (br_branchId b ++ "_"
                 ++ format_2f (crsloc_chainage (crs_loc r)))%string
           /\ ((crsloc_chainage (crs_loc r) = 0%Q
                /\ crsloc_shift (crs_loc r) = br_invlev_up b)
               \/ (crsloc_chainage (crs_loc r)
                   = geom_length (br_geometry b)
                   /\ crsloc_shift (crs_loc r) = br_invlev_dn b))).
Proof.
  intros geom_length format_2f format_3f branches rows r Hrun Hr.
  destruct (BranchFacts.set_branch_crosssections_inv _ _ _ _ _ Hrun)
    as [_ ->].
  apply PyFacts.drop_duplicates_from_incl in Hr.
  apply in_map_iff in Hr. destruct Hr as [x [<- Hx]].
  unfold _set_circle_crs, merge_left in Hx. apply in_flat_map in Hx.
  destruct Hx as [l [Hl Hx]].
  apply in_map_iff in Hl. destruct Hl as [c [<- Hc]].
  assert (Hself : In (circle_crsdef c)
                    (filter (circle_on (circle_crsloc format_2f c))
                       (map circle_crsdef
                          (circle_rows format_3f
                             (end_rows geom_length branches))))).
  { apply filter_In. split; [apply in_map; exact Hc|].
    unfold circle_on. cbn. rewrite !String.eqb_refl. reflexivity. }
  destruct (filter (circle_on (circle_crsloc format_2f c))
              (map circle_crsdef
                 (circle_rows format_3f (end_rows geom_length branches))))
    as [|d0 ds] eqn:Ef; [destruct Hself|].
  clear Hself. rewrite <- Ef in Hx.
  apply in_map_iff in Hx. destruct Hx as [d [<- Hd]].
  apply filter_In in Hd. destruct Hd as [Hd Hon].
  apply in_map_iff in Hd. destruct Hd as [c' [<- Hc']].
  unfold circle_on in Hon. apply andb_true_iff in Hon.
  destruct Hon as [Hb Hi]. apply String.eqb_eq in Hb, Hi.
  cbn in Hb, Hi.
  split; [|split; [reflexivity|]].
  - eexists. split; [reflexivity|]. cbn. repeat split; auto.
  - unfold circle_rows in Hc. apply in_map_iff in Hc.
    destruct Hc as [e [<- He]]. apply filter_In in He.
    destruct He as [He Hshape]. apply String.eqb_eq in Hshape.
    unfold end_rows in He. apply in_app_or in He.
    destruct He as [He|He]; apply in_map_iff in He;
      destruct He as [b [<- Hbin]]; exists b; cbn in *;
      repeat split; auto.
Qed.

Lemma branch_crosssection_rows_wellformed_witness :
  exists rows r,
    run_example [pipe_circle; pipe_rectangle] = Ok rows
    /\ In r rows
    /\ crsdef_thalweg r = 0%Q.
Proof.
  eexists. eexists. split; [vm_compute; reflexivity|].
  split; [left; reflexivity|].
  refine (proj1 (proj2 (branch_crosssection_rows_wellformed line_length
                          (format_fixed 2) (format_fixed 3)
                          [pipe_circle; pipe_rectangle] _ _ _ _))).
  - vm_compute. reflexivity.
  - left. reflexivity.
Defined.

Lemma drop_duplicates_from_distinct {A} (eqb : A -> A -> bool) :
  forall l seen,
    ForallOrdPairs (fun a b => eqb b a = false)
      (Py.drop_duplicates_from eqb seen l)
    /\ Forall (fun x => Forall (fun s => eqb x s = false) seen)
         (Py.drop_duplicates_from eqb seen l).
Proof.
  induction l as [|a t IH]; cbn [Py.drop_duplicates_from]; intros seen.
  - split; constructor.
  - destruct (existsb (eqb a) seen) eqn:E; [apply IH|].
    destruct (IH (a :: seen)) as [Hp Hs]. split.
    + constructor; [|exact Hp].
      eapply Forall_impl; [|exact Hs]. intros x Hx.
      inversion Hx; assumption.
    + constructor.
      * apply Forall_forall. intros s Hin.
        destruct (eqb a s) eqn:Eas; [|reflexivity].
        assert (existsb (eqb a) seen = true)
          by (apply existsb_exists; exists s; auto).
        congruence.
      * eapply Forall_impl; [|exact Hs]. intros x Hx.
        inversion Hx; assumption.
Qed.

(** X8.  The table returned by [set_branch_crosssections] holds no row
    twice: of two rows, the later one is never equal to the earlier one
    (equality as [drop_duplicates] sees it, on all columns). *)
Theorem branch_crosssection_rows_distinct :
  forall (geom_length : list (Q * Q) -> Q) (format_2f format_3f : Q -> string)
         (branches : list Branch) (rows : list CrsRow),
    set_branch_crosssections geom_length format_2f format_3f branches
    = Ok rows ->
    ForallOrdPairs (fun a b => crsrow_eqb b a = false) rows.
Proof.
  intros geom_length format_2f format_3f branches rows Hrun.
  destruct (BranchFacts.set_branch_crosssections_inv _ _ _ _ _ Hrun)
    as [_ ->].
  apply drop_duplicates_from_distinct.
Qed.

Lemma branch_crosssection_rows_distinct_witness :
  ForallOrdPairs (fun a b => crsrow_eqb b a = false)
    (Py.drop_duplicates crsrow_eqb
       (map finish_row
          (_set_circle_crs (format_fixed 2)
             (circle_rows (format_fixed 3)
                (end_rows line_length [pipe_circle; pipe_rectangle]))))).
Proof.
  apply (branch_crosssection_rows_distinct line_length (format_fixed 2)
           (format_fixed 3) [pipe_circle; pipe_rectangle]).
  vm_compute. reflexivity.
Defined.

End BranchMoreFacts.


(** ** More on mesh merging and 1D-2D links *)

Module MeshMoreFacts.

Import Mesh.
Import MeshLateral.
Local Open Scope Z_scope.
Local Open Scope list_scope.

Lemma mapM_raise_inv {A B} (f : A -> result B) :
  forall l e, mapM f l = Raise e -> exists a, In a l /\ f a = Raise e.
Proof.
  induction l as [|a t IH]; simpl; intros e H; [discriminate|].
  destruct (f a) as [b|e'] eqn:Ea; cbn [Py.bind] in H.
  - destruct (mapM f t) as [bs|e''] eqn:Et; cbn [Py.bind] in H;
      [discriminate|].
    inversion H; subst. destruct (IH e eq_refl) as [x [Hx Hfx]].
    exists x. auto.
  - inversion H; subst. exists a. auto.
Qed.

Lemma np_get_raise {A} (arr : list A) (i : Z) (e : PyExc) :
  np_get arr i = Raise e -> e = IndexError "index out of bounds".
Proof.
  unfold np_get.
  destruct ((0 <=? (if i <? 0 then i + Z.of_nat (List.length arr) else i))
            && ((if i <? 0 then i + Z.of_nat (List.length arr) else i)
                <? Z.of_nat (List.length arr)));
    [destruct (nth_error arr _)|]; intros H; inversion H; reflexivity.
Qed.

Lemma np_take_raise {A} (arr : list A) (idx : list Z) (e : PyExc) :
  np_take arr idx = Raise e -> e = IndexError "index out of bounds".
Proof.
  unfold np_take. intros H. apply mapM_raise_inv in H.
  destruct H as [a [_ H]]. exact (np_get_raise _ _ _ H).
Qed.

Lemma np_take_length {A} (arr : list A) (idx : list Z) (r : list A) :
  np_take arr idx = Ok r -> List.length r = List.length idx.
Proof. apply MeshFacts.mapM_length. Qed.

Lemma filter_links_raise (network : Network) (keep : list Z) (e : PyExc) :
  _filter_links_on_idx network keep = Raise e ->
  e = IndexError "index out of bounds".
Proof.
  unfold _filter_links_on_idx. intros H.
  destruct (np_take (link1d2d (_link1d2d network)) keep) eqn:E1;
    cbn [Py.bind] in H;
    [|inversion H; subst; exact (np_take_raise _ _ _ E1)].
  destruct (np_take (link1d2d_contact_type (_link1d2d network)) keep) eqn:E2;
    cbn [Py.bind] in H;
    [|inversion H; subst; exact (np_take_raise _ _ _ E2)].
  destruct (np_take (link1d2d_id (_link1d2d network)) keep) eqn:E3;
    cbn [Py.bind] in H;
    [|inversion H; subst; exact (np_take_raise _ _ _ E3)].
  destruct (np_take (link1d2d_long_name (_link1d2d network)) keep) eqn:E4;
    cbn [Py.bind] in H;
    [discriminate|inversion H; subst; exact (np_take_raise _ _ _ E4)].
Qed.

(** X9.  [_filter_links_on_idx] keeps the four link arrays parallel: when
    it succeeds each of them has one entry for each index of [keep], the
    entry the old array has at that index (a negative index counting from
    the end), and the mesh coordinates are untouched; when it fails, the
    error is the [IndexError] of an index outside an array. *)
Theorem filter_links_on_idx_parallel :
  forall (network : Network) (keep : list Z),
    (forall network',
        _filter_links_on_idx network keep = Ok network' ->
        let l := _link1d2d network in
        let l' := _link1d2d network' in
        List.length (link1d2d l') = List.length keep
        /\ List.length (link1d2d_contact_type l') = List.length keep
        /\ List.length (link1d2d_id l') = List.length keep
        /\ List.length (link1d2d_long_name l') = List.length keep
        /\ (forall i a b c d,
               In (i, (a, b, c, d))
                  (combine keep
                     (combine (combine (combine (link1d2d l')
                                          (link1d2d_contact_type l'))
                                 (link1d2d_id l'))
                        (link1d2d_long_name l'))) ->
               np_get (link1d2d l) i = Ok a
               /\ np_get (link1d2d_contact_type l) i = Ok b
               /\ np_get (link1d2d_id l) i = Ok c
               /\ np_get (link1d2d_long_name l) i = Ok d)
        /\ set_links network' l = network)
    /\ (forall e,
           _filter_links_on_idx network keep = Raise e ->
           e = IndexError "index out of bounds").
Proof.
  intros network keep. split; [|apply filter_links_raise].
  intros network' H. unfold _filter_links_on_idx in H.
  apply PyFacts.bind_ok_inv in H. destruct H as [a [Ha H]].
  apply PyFacts.bind_ok_inv in H. destruct H as [b [Hb H]].
  apply PyFacts.bind_ok_inv in H. destruct H as [c [Hc H]].
  apply PyFacts.bind_ok_inv in H. destruct H as [d [Hd H]].
  inversion H; subst network'. clear H.
  cbn [_link1d2d set_links link1d2d link1d2d_contact_type link1d2d_id
         link1d2d_long_name].
  pose proof (np_take_length _ _ _ Ha) as La.
  pose proof (np_take_length _ _ _ Hb) as Lb.
  pose proof (np_take_length _ _ _ Hc) as Lc.
  pose proof (np_take_length _ _ _ Hd) as Ld.
  repeat (split; [assumption|]). split.
  - unfold np_take in *. clear La Lb Lc Ld.
    revert a b c d Ha Hb Hc Hd.
    induction keep as [|k keep IH]; intros a b c d Ha Hb Hc Hd i x y z w Hin;
      [destruct Hin|].
    cbn [mapM] in Ha, Hb, Hc, Hd.
    apply PyFacts.bind_ok_inv in Ha. destruct Ha as [a0 [Ha0 Ha]].
    apply PyFacts.bind_ok_inv in Ha. destruct Ha as [a' [Ha' Ha]].
    apply PyFacts.bind_ok_inv in Hb. destruct Hb as [b0 [Hb0 Hb]].
    apply PyFacts.bind_ok_inv in Hb. destruct Hb as [b' [Hb' Hb]].
    apply PyFacts.bind_ok_inv in Hc. destruct Hc as [c0 [Hc0 Hc]].
    apply PyFacts.bind_ok_inv in Hc. destruct Hc as [c' [Hc' Hc]].
    apply PyFacts.bind_ok_inv in Hd. destruct Hd as [d0 [Hd0 Hd]].
    apply PyFacts.bind_ok_inv in Hd. destruct Hd as [d' [Hd' Hd]].
    inversion Ha; inversion Hb; inversion Hc; inversion Hd; subst.
    cbn [combine] in Hin. destruct Hin as [E|Hin].
    + inversion E; subst. auto.
    + eapply IH; eauto.
  - destruct network; reflexivity.
Qed.

Lemma filter_links_on_idx_parallel_witness :
  List.length (link1d2d (_link1d2d linked_network_after)) = 2%nat
  /\ set_links linked_network_after
       (_link1d2d (set_links linked_network
                     (append_two_links linked_network [] tt)))
     = set_links linked_network (append_two_links linked_network [] tt).
Proof.
  destruct (proj1 (filter_links_on_idx_parallel
                     (set_links linked_network
                        (append_two_links linked_network [] tt))
                     [0; 1])
              linked_network_after eq_refl) as [H [_ [_ [_ [_ H']]]]].
  split; [exact H | exact H'].
Defined.

Section LinkErrors.
Variable hypot : Q -> Q -> Q.
Variable Polygon : Type.
Variable box : Q -> Q -> Q -> Q -> Polygon.
Variable get_node_mask : Network -> option (list string) -> list bool.
Variable _link_from_1d_to_2d : Network -> list bool -> Polygon -> Link1d2d.

Lemma link_length_raise (network : Network) (link : Z * Z) (e : PyExc) :
  link_length hypot network link = Raise e ->
  e = IndexError "index out of bounds".
Proof.
  unfold link_length. intros H.
  destruct (np_get (mesh1d_node_x network) (fst link)) eqn:E1;
    cbn [Py.bind] in H;
    [|inversion H; subst; exact (np_get_raise _ _ _ E1)].
  destruct (np_get (mesh1d_node_y network) (fst link)) eqn:E2;
    cbn [Py.bind] in H;
    [|inversion H; subst; exact (np_get_raise _ _ _ E2)].
  destruct (np_get (mesh2d_face_x network) (snd link)) eqn:E3;
    cbn [Py.bind] in H;
    [|inversion H; subst; exact (np_get_raise _ _ _ E3)].
  destruct (np_get (mesh2d_face_y network) (snd link)) eqn:E4;
    cbn [Py.bind] in H;
    [discriminate|inversion H; subst; exact (np_get_raise _ _ _ E4)].
Qed.

Lemma links_within_raise (network : Network)
  (branchids : option (list string)) (poly : Polygon)
  (max_length : option Q) (e : PyExc) :
  links1d2d_add_links_1d_to_2d hypot Polygon box get_node_mask
    _link_from_1d_to_2d network branchids (Some poly) max_length = Raise e ->
  e = IndexError "index out of bounds".
Proof.
  unfold links1d2d_add_links_1d_to_2d. cbn [Py.bind]. intros H.
  match type of H with
  | Py.bind ?m _ = _ => destruct m as [lengths|e'] eqn:E
  end; cbn [Py.bind] in H.
  - exact (filter_links_raise _ _ _ H).
  - inversion H; subst. apply mapM_raise_inv in E.
    destruct E as [a [_ E]]. exact (link_length_raise _ _ _ E).
Qed.

Lemma links_box (network : Network) (branchids : option (list string))
  (max_length : option Q) :
  mesh1d_node_x network <> [] -> mesh2d_node_x network <> [] ->
  mesh1d_node_y network <> [] -> mesh2d_node_y network <> [] ->
  exists poly,
    links1d2d_add_links_1d_to_2d hypot Polygon box get_node_mask
      _link_from_1d_to_2d network branchids None max_length
    = links1d2d_add_links_1d_to_2d hypot Polygon box get_node_mask
        _link_from_1d_to_2d network branchids (Some poly) max_length.
Proof.
  intros H1 H2 H3 H4. unfold links1d2d_add_links_1d_to_2d.
  destruct (mesh1d_node_x network) as [|a1 t1]; [contradiction|].
  destruct (mesh2d_node_x network) as [|a2 t2]; [contradiction|].
  destruct (mesh1d_node_y network) as [|a3 t3]; [contradiction|].
  destruct (mesh2d_node_y network) as [|a4 t4]; [contradiction|].
  cbn [array_minQ array_maxQ Py.bind]. eexists. reflexivity.
Qed.

End LinkErrors.

(** X10.  The errors of [links1d2d_add_links_1d_to_2d]: it raises a
    [ValueError] exactly when no [within] polygon is given and one of the
    four node coordinate arrays of the 1D and the 2D mesh is empty (the
    bounding box cannot be computed); any other failure is the
    [IndexError] of a link that refers to a node or face outside the
    arrays. *)
Theorem links_1d_to_2d_errors :
  forall (hypot : Q -> Q -> Q) (Polygon : Type)
         (box : Q -> Q -> Q -> Q -> Polygon)
         (get_node_mask : Network -> option (list string) -> list bool)
         (_link_from_1d_to_2d : Network -> list bool -> Polygon -> Link1d2d)
         (network : Network) (branchids : option (list string))
         (within : option Polygon) (max_length : option Q),
    ((exists msg,
         links1d2d_add_links_1d_to_2d hypot Polygon box get_node_mask
           _link_from_1d_to_2d network branchids within max_length
         = Raise (ValueError msg))
     <-> (within = None
          /\ (mesh1d_node_x network = [] \/ mesh2d_node_x network = []
              \/ mesh1d_node_y network = [] \/ mesh2d_node_y network = [])))
    /\ (forall e,
           links1d2d_add_links_1d_to_2d hypot Polygon box get_node_mask
             _link_from_1d_to_2d network branchids within max_length
           = Raise e ->
           (exists msg, e = ValueError msg)
           \/ e = IndexError "index out of bounds").
Proof.
  intros hypot Polygon box get_node_mask gen network branchids within
         max_length.
  destruct within as [poly|].
  - split.
    + split.
      * intros [msg H]. apply links_within_raise in H. discriminate H.
      * intros [H _]. discriminate H.
    + intros e H. right. exact (links_within_raise _ _ _ _ _ _ _ _ _ _ H).
  - destruct (mesh1d_node_x network) as [|a1 t1] eqn:E1.
    { split.
      - split; [auto|]. intros _. unfold links1d2d_add_links_1d_to_2d.
        rewrite E1. cbn [array_minQ Py.bind]. eexists. reflexivity.
      - intros e H. unfold links1d2d_add_links_1d_to_2d in H.
        rewrite E1 in H. cbn [array_minQ Py.bind] in H.
        inversion H. left. eexists. reflexivity. }
    destruct (mesh2d_node_x network) as [|a2 t2] eqn:E2.
    { split.
      - split; [auto|]. intros _. unfold links1d2d_add_links_1d_to_2d.
        rewrite E1, E2. cbn [array_minQ Py.bind]. eexists. reflexivity.
      - intros e H. unfold links1d2d_add_links_1d_to_2d in H.
        rewrite E1, E2 in H. cbn [array_minQ Py.bind] in H.
        inversion H. left. eexists. reflexivity. }
    destruct (mesh1d_node_y network) as [|a3 t3] eqn:E3.
    { split.
      - split; [auto|]. intros _. unfold links1d2d_add_links_1d_to_2d.
        rewrite E1, E2, E3. cbn [array_minQ array_maxQ Py.bind].
        eexists. reflexivity.
      - intros e H. unfold links1d2d_add_links_1d_to_2d in H.
        rewrite E1, E2, E3 in H. cbn [array_minQ array_maxQ Py.bind] in H.
        inversion H. left. eexists. reflexivity. }
    destruct (mesh2d_node_y network) as [|a4 t4] eqn:E4.
    { split.
      - split; [auto 6|]. intros _. unfold links1d2d_add_links_1d_to_2d.
        rewrite E1, E2, E3, E4. cbn [array_minQ array_maxQ Py.bind].
        eexists. reflexivity.
      - intros e H. unfold links1d2d_add_links_1d_to_2d in H.
        rewrite E1, E2, E3, E4 in H.
        cbn [array_minQ array_maxQ Py.bind] in H.
        inversion H. left. eexists. reflexivity. }
    destruct (links_box hypot Polygon box get_node_mask gen network branchids
                max_length) as [poly Hp];
      try (rewrite ?E1, ?E2, ?E3, ?E4; discriminate).
    split.
    + split.
      * intros [msg H]. rewrite Hp in H. apply links_within_raise in H.
        discriminate H.
      * intros [_ [H|[H|[H|H]]]]; discriminate H.
    + intros e H. right. rewrite Hp in H.
      exact (links_within_raise _ _ _ _ _ _ _ _ _ _ H).
Qed.

Lemma where_from_all_true {A} :
  forall (l : list A) (k : nat),
    where_from (Z.of_nat k) (map (fun _ => true) l)
    = map Z.of_nat (seq k (List.length l)).
Proof.
  induction l as [|a l IH]; intros k; [reflexivity|].
  cbn [map where_from List.length seq]. f_equal.
  replace (Z.of_nat k + 1) with (Z.of_nat (S k)) by lia. apply IH.
Qed.

Lemma np_take_all {A} (arr : list A) :
  np_take arr (arange (List.length arr)) = Ok arr.
Proof.
  rewrite MeshFacts.np_take_arange by lia. rewrite firstn_all. reflexivity.
Qed.

(** With a polygon given and without [max_length], the network holds
    exactly the arrays of the kernel. *)
Lemma links_within_unbounded_keeps_all :
  forall (hypot : Q -> Q -> Q) (Polygon : Type)
         (box : Q -> Q -> Q -> Q -> Polygon)
         (get_node_mask : Network -> option (list string) -> list bool)
         (_link_from_1d_to_2d : Network -> list bool -> Polygon -> Link1d2d)
         (network : Network) (branchids : option (list string))
         (poly : Polygon),
    let g := _link_from_1d_to_2d network (get_node_mask network branchids)
               poly in
    (List.length (link1d2d (_link1d2d network))
     <= List.length (link1d2d g))%nat ->
    List.length (link1d2d_contact_type g) = List.length (link1d2d g) ->
    List.length (link1d2d_id g) = List.length (link1d2d g) ->
    List.length (link1d2d_long_name g) = List.length (link1d2d g) ->
    (forall link,
        In link (skipn (List.length (link1d2d (_link1d2d network)))
                       (link1d2d g)) ->
        exists len, link_length hypot network link = Ok len) ->
    links1d2d_add_links_1d_to_2d hypot Polygon box get_node_mask
      _link_from_1d_to_2d network branchids (Some poly) None
    = Ok (set_links network g).
Proof.
  intros hypot Polygon box get_node_mask gen network branchids poly g
         Hn Hb Hc Hd Hvalid.
  unfold links1d2d_add_links_1d_to_2d. cbn [Py.bind]. fold g.
  cbn [_link1d2d set_links].
  set (n := List.length (link1d2d (_link1d2d network))) in *.
  assert (Hlen : exists lengths,
             mapM (link_length hypot (set_links network g))
                  (skipn n (link1d2d g)) = Ok lengths).
  { clear Hn. induction (skipn n (link1d2d g)) as [|a t IH].
    - exists []. reflexivity.
    - destruct (Hvalid a (or_introl eq_refl)) as [len Hl].
      destruct IH as [ls Hls]; [intros; apply Hvalid; right; assumption|].
      exists (len :: ls). cbn [mapM].
      rewrite MeshFacts.link_length_set_links, Hl. cbn [Py.bind].
      rewrite Hls. reflexivity. }
  destruct Hlen as [lengths Hlen]. rewrite Hlen. cbn [Py.bind].
  pose proof (MeshFacts.mapM_length _ _ _ Hlen) as Hl.
  rewrite length_skipn in Hl.
  assert (Hkeep : arange n
                  ++ map (fun i => i + Z.of_nat n)
                       (where_ (map (fun x => lt_max_length x None) lengths))
                  = arange (List.length (link1d2d g))).
  { unfold where_. rewrite MeshFacts.where_from_shift. cbn [lt_max_length].
    rewrite Z.add_0_l. rewrite where_from_all_true. unfold arange.
    rewrite <- map_app. f_equal. rewrite Hl.
    replace (List.length (link1d2d g))
      with (n + (List.length (link1d2d g) - n))%nat at 2 by lia.
    rewrite seq_app. reflexivity. }
  rewrite Hkeep. unfold _filter_links_on_idx. cbn [_link1d2d set_links].
  rewrite np_take_all. cbn [Py.bind].
  rewrite <- Hb at 1. rewrite np_take_all. cbn [Py.bind].
  rewrite <- Hc at 1. rewrite np_take_all. cbn [Py.bind].
  rewrite <- Hd at 1. rewrite np_take_all. cbn [Py.bind].
  destruct g; reflexivity.
Qed.

(** X11.  Without [max_length] (the default, infinity) no generated link
    is filtered, whether the area is given or not.  The kernel is called
    with the polygon [within], or, when none is given (the default), with
    the box spanned by the smallest and largest node coordinates of the
    1D and the 2D mesh; when it hands back four equally long arrays, at
    least as long as the links present before, and every generated link
    refers to an existing 1D node and 2D face, the call succeeds and the
    network holds exactly the arrays of the kernel. *)
Theorem links_1d_to_2d_unbounded_keeps_all :
  forall (hypot : Q -> Q -> Q) (Polygon : Type)
         (box : Q -> Q -> Q -> Q -> Polygon)
         (get_node_mask : Network -> option (list string) -> list bool)
         (_link_from_1d_to_2d : Network -> list bool -> Polygon -> Link1d2d)
         (network : Network) (branchids : option (list string))
         (within : option Polygon) (poly : Polygon),
    match within with
    | Some p => poly = p
    | None =>
        exists x1min x2min x1max x2max y1min y2min y1max y2max,
          array_minQ (mesh1d_node_x network) = Ok x1min
          /\ array_minQ (mesh2d_node_x network) = Ok x2min
          /\ array_maxQ (mesh1d_node_x network) = Ok x1max
          /\ array_maxQ (mesh2d_node_x network) = Ok x2max
          /\ array_minQ (mesh1d_node_y network) = Ok y1min
          /\ array_minQ (mesh2d_node_y network) = Ok y2min
          /\ array_maxQ (mesh1d_node_y network) = Ok y1max
          /\ array_maxQ (mesh2d_node_y network) = Ok y2max
          /\ poly = box (Qmin' x1min x2min) (Qmin' y1min y2min)
                        (Qmax' x1max x2max) (Qmax' y1max y2max)
    end ->
    let g := _link_from_1d_to_2d network (get_node_mask network branchids)
               poly in
    (List.length (link1d2d (_link1d2d network))
     <= List.length (link1d2d g))%nat ->
    List.length (link1d2d_contact_type g) = List.length (link1d2d g) ->
    List.length (link1d2d_id g) = List.length (link1d2d g) ->
    List.length (link1d2d_long_name g) = List.length (link1d2d g) ->
    (forall link,
        In link (skipn (List.length (link1d2d (_link1d2d network)))
                       (link1d2d g)) ->
        exists len, link_length hypot network link = Ok len) ->
    links1d2d_add_links_1d_to_2d hypot Polygon box get_node_mask
      _link_from_1d_to_2d network branchids within None
    = Ok (set_links network g).
Proof.
  intros hypot Polygon box get_node_mask gen network branchids within poly
         Hpoly g Hn Hb Hc Hd Hvalid.
  transitivity (links1d2d_add_links_1d_to_2d hypot Polygon box get_node_mask
                  gen network branchids (Some poly) None).
  - destruct within as [p|].
    + subst p. reflexivity.
    + destruct Hpoly as [x1min [x2min [x1max [x2max [y1min [y2min [y1max
                        [y2max [E1 [E2 [E3 [E4 [E5 [E6 [E7 [E8 ->]]]]]]]]]]]]]]]].
      unfold links1d2d_add_links_1d_to_2d.
      rewrite E1, E2, E3, E4, E5, E6, E7, E8. reflexivity.
  - apply links_within_unbounded_keeps_all; assumption.
Qed.

Lemma links_1d_to_2d_unbounded_keeps_all_witness :
  links1d2d_add_links_1d_to_2d Crosssections.hypot_floor (Q * Q * Q * Q)
    (fun xmin ymin xmax ymax => (xmin, ymin, xmax, ymax)) (fun _ _ => [])
    (fun network mask _ => append_two_links network mask tt)
    linked_network None None None
  = Ok (set_links linked_network (append_two_links linked_network [] tt))
  /\ links1d2d_add_links_1d_to_2d Crosssections.hypot_floor unit
       (fun _ _ _ _ => tt) (fun _ _ => []) append_two_links
       linked_network None (Some tt) None
     = Ok (set_links linked_network (append_two_links linked_network [] tt)).
Proof.
  split.
  - apply (links_1d_to_2d_unbounded_keeps_all Crosssections.hypot_floor
             (Q * Q * Q * Q)
             (fun xmin ymin xmax ymax => (xmin, ymin, xmax, ymax))
             (fun _ _ => [])
             (fun network mask _ => append_two_links network mask tt)
             linked_network None None (0, 0, 20, 30)%Q).
    + exists 0%Q, 0%Q, 20%Q, 20%Q, 0%Q, 0%Q, 0%Q, 30%Q.
      repeat split; reflexivity.
    + simpl. lia.
    + reflexivity.
    + reflexivity.
    + reflexivity.
    + intros link Hin. simpl in Hin.
      destruct Hin as [<-|[<-|[]]]; eexists; vm_compute; reflexivity.
  - apply (links_1d_to_2d_unbounded_keeps_all Crosssections.hypot_floor unit
             (fun _ _ _ _ => tt) (fun _ _ => []) append_two_links
             linked_network None (Some tt) tt).
    + reflexivity.
    + simpl. lia.
    + reflexivity.
    + reflexivity.
    + reflexivity.
    + intros link Hin. simpl in Hin.
      destruct Hin as [<-|[<-|[]]]; eexists; vm_compute; reflexivity.
Defined.

Lemma np_get_app_l {A} (a b : list A) (j : Z) :
  0 <= j < Z.of_nat (List.length a) -> np_get (a ++ b) j = np_get a j.
Proof.
  intros Hj. unfold np_get. rewrite length_app, Nat2Z.inj_add.
  destruct (Z.ltb_spec j 0); [lia|].
  destruct (Z.leb_spec 0 j); [|lia].
  destruct (Z.ltb_spec j (Z.of_nat (List.length a) + Z.of_nat (List.length b)));
    [|lia].
  destruct (Z.ltb_spec j (Z.of_nat (List.length a))); [|lia].
  cbn [andb]. rewrite nth_error_app1 by lia. reflexivity.
Qed.

Lemma np_get_app_r {A} (a b : list A) (j : Z) :
  Z.of_nat (List.length a) <= j ->
  np_get (a ++ b) j = np_get b (j - Z.of_nat (List.length a)).
Proof.
  intros Hj. unfold np_get. rewrite length_app, Nat2Z.inj_add.
  destruct (Z.ltb_spec j 0); [lia|].
  destruct (Z.ltb_spec (j - Z.of_nat (List.length a)) 0); [lia|].
  destruct (Z.leb_spec 0 j); [|lia].
  destruct (Z.leb_spec 0 (j - Z.of_nat (List.length a))); [|lia].
  destruct (Z.ltb_spec j (Z.of_nat (List.length a) + Z.of_nat (List.length b)));
    destruct (Z.ltb_spec (j - Z.of_nat (List.length a))
                (Z.of_nat (List.length b))); try lia; cbn [andb];
    [|reflexivity].
  rewrite nth_error_app2 by lia.
  replace (Z.to_nat (j - Z.of_nat (List.length a)))
    with (Z.to_nat j - List.length a)%nat by lia.
  reflexivity.
Qed.

(** X12.  The outcome of the merge step of [mesh2d_add_rectilinear]: an
    existing mesh without nodes leaves the new mesh as it is; an existing
    mesh with nodes but without edges makes the call fail with the
    [ValueError] of the maximum of an empty array; otherwise the merge
    succeeds, every array of the existing mesh is a prefix of the merged
    one and the new mesh's coordinates and face sizes follow unchanged. *)
Theorem mesh2d_merge_outcome :
  forall (existing new : Mesh2d),
    (node_x existing = [] ->
     mesh2d_add_rectilinear_merge existing new = Ok new)
    /\ (node_x existing <> [] -> edge_nodes existing = [] ->
        mesh2d_add_rectilinear_merge existing new
        = Raise (ValueError
            "zero-size array to reduction operation maximum which has no identity"))
    /\ (node_x existing <> [] -> edge_nodes existing <> [] ->
        exists merged,
          mesh2d_add_rectilinear_merge existing new = Ok merged
          /\ node_x merged = node_x existing ++ node_x new
          /\ node_y merged = node_y existing ++ node_y new
          /\ nodes_per_face merged
             = nodes_per_face existing ++ nodes_per_face new
          /\ edge_x merged = edge_x existing ++ edge_x new
          /\ edge_y merged = edge_y existing ++ edge_y new
          /\ face_x merged = face_x existing ++ face_x new
          /\ face_y merged = face_y existing ++ face_y new
          /\ firstn (List.length (edge_nodes existing)) (edge_nodes merged)
             = edge_nodes existing
          /\ firstn (List.length (face_nodes existing)) (face_nodes merged)
             = face_nodes existing
          /\ List.length (edge_nodes merged)
             = (List.length (edge_nodes existing)
                + List.length (edge_nodes new))%nat
          /\ List.length (face_nodes merged)
             = (List.length (face_nodes existing)
                + List.length (face_nodes new))%nat).
Proof.
  intros existing new. unfold mesh2d_add_rectilinear_merge.
  split; [|split].
  - intros ->. reflexivity.
  - intros Hn ->. destruct (node_x existing); [contradiction|]. reflexivity.
  - intros Hn He. destruct (node_x existing) as [|x xs] eqn:Ex;
      [contradiction|].
    destruct (edge_nodes existing) as [|e es] eqn:Ee; [contradiction|].
    cbn [array_max Py.bind]. eexists. split; [reflexivity|].
    cbn [node_x node_y nodes_per_face edge_x edge_y face_x face_y
           edge_nodes face_nodes].
    repeat (split; [reflexivity|]).
    rewrite !length_app, !length_map.
    split; [|split; [|split; reflexivity]].
    + rewrite firstn_app, Nat.sub_diag, firstn_O, app_nil_r.
      apply firstn_all.
    + rewrite firstn_app, Nat.sub_diag, firstn_O, app_nil_r.
      apply firstn_all.
Qed.

(** X13.  Where a shifted node index of the new mesh points after the
    merge.  With [m] the largest edge node index of the existing mesh and
    [k] the number of existing nodes beyond it, index [i] of the new mesh
    becomes [i + m + 1]; it denotes the new node [i - k] when [k <= i],
    and the existing node [i + m + 1] when [i < k].  So the new edges and
    faces keep their own nodes exactly when every existing node up to the
    last one lies on an edge ([k = 0]). *)
Theorem mesh2d_merge_new_indices_resolve :
  forall (existing new merged : Mesh2d) (m : Z),
    mesh2d_add_rectilinear_merge existing new = Ok merged ->
    node_x existing <> [] ->
    array_max (edge_nodes existing) = Ok m ->
    0 <= m + 1 <= Z.of_nat (List.length (node_x existing)) ->
    List.length (node_y existing) = List.length (node_x existing) ->
    Z.of_nat (List.length (node_x existing))
    + Z.of_nat (List.length (node_x new)) <= int32_max ->
    forall i,
      In i (edge_nodes new ++ face_nodes new) ->
      0 <= i < Z.of_nat (List.length (node_x new)) ->
      let k := Z.of_nat (List.length (node_x existing)) - (m + 1) in
      In (i + (m + 1)) (edge_nodes merged ++ face_nodes merged)
      /\ (i < k ->
          np_get (node_x merged) (i + (m + 1))
          = np_get (node_x existing) (i + (m + 1))
          /\ np_get (node_y merged) (i + (m + 1))
             = np_get (node_y existing) (i + (m + 1)))
      /\ (k <= i ->
          np_get (node_x merged) (i + (m + 1)) = np_get (node_x new) (i - k)
          /\ np_get (node_y merged) (i + (m + 1))
             = np_get (node_y new) (i - k)).
Proof.
  intros existing new merged m Hrun Hne Hm Hrange Hy Hbound i Hi Hir k.
  unfold k. clear k.
  unfold mesh2d_add_rectilinear_merge in Hrun.
  destruct (node_x existing) as [|x0 xs] eqn:Ex; [contradiction|].
  rewrite Hm in Hrun. cbn [Py.bind] in Hrun. rewrite <- Ex in *.
  injection Hrun as Hrun. subst merged.
  cbn [node_x node_y edge_nodes face_nodes].
  assert (Hoff : add32 i (add32 m 1) = i + (m + 1)).
  { unfold add32. unfold int32_max in Hbound.
    rewrite (MeshFacts.wrap32_small (m + 1))
      by (unfold int32_min, int32_max; lia).
    apply MeshFacts.wrap32_small. unfold int32_min, int32_max. lia. }
  split; [|split].
  - apply in_app_or in Hi. apply in_or_app.
    destruct Hi as [Hi|Hi]; [left|right]; apply in_or_app; right;
      rewrite <- Hoff;
      apply (in_map (fun i => add32 i (add32 m 1))); exact Hi.
  - intros Hlt. split; apply np_get_app_l; lia.
  - intros Hge. split.
    + rewrite np_get_app_r by lia. f_equal. lia.
    + rewrite np_get_app_r by lia. f_equal. lia.
Qed.

Lemma mesh2d_merge_new_indices_resolve_witness :
  In (2 + (3 + 1)) (edge_nodes square_merged ++ face_nodes square_merged)
  /\ (2 < 4 - (3 + 1) ->
      np_get (node_x square_merged) (2 + (3 + 1))
      = np_get (node_x square_existing) (2 + (3 + 1))
      /\ np_get (node_y square_merged) (2 + (3 + 1))
         = np_get (node_y square_existing) (2 + (3 + 1)))
  /\ (4 - (3 + 1) <= 2 ->
      np_get (node_x square_merged) (2 + (3 + 1))
      = np_get (node_x square_new) (2 - (4 - (3 + 1)))
      /\ np_get (node_y square_merged) (2 + (3 + 1))
         = np_get (node_y square_new) (2 - (4 - (3 + 1)))).
Proof.
  apply (mesh2d_merge_new_indices_resolve square_existing square_new
           square_merged 3).
  - vm_compute. reflexivity.
  - discriminate.
  - reflexivity.
  - simpl. lia.
  - reflexivity.
  - unfold int32_max. simpl. lia.
  - simpl. auto.
  - simpl. lia.
Defined.

Lemma np_take_arange_ok {A} (arr r : list A) (n : nat) :
  np_take arr (arange n) = Ok r -> (n <= List.length arr)%nat.
Proof.
  intros H. destruct n as [|n]; [lia|].
  unfold np_take, arange in H. rewrite seq_S, map_app in H.
  apply PyFacts.mapM_app in H. destruct H as [r1 [r2 [_ [H _]]]].
  cbn [map mapM Nat.add] in H.
  apply PyFacts.bind_ok_inv in H. destruct H as [a [H _]].
  unfold np_get in H.
  destruct (Z.ltb_spec (Z.of_nat n) 0); [lia|].
  destruct (Z.leb_spec 0 (Z.of_nat n)); [|lia].
  destruct (Z.ltb_spec (Z.of_nat n) (Z.of_nat (List.length arr)));
    [lia | discriminate H].
Qed.

Lemma combine_firstn_length {A B} :
  forall (l : list A) (mask : list B),
    combine (firstn (List.length mask) l) mask = combine l mask.
Proof.
  induction l as [|a l IH]; intros [|b mask]; cbn; try reflexivity.
  rewrite IH. reflexivity.
Qed.

Lemma np_take_mask_prefix {A} (all : list A) (mask : list bool) :
  (List.length mask <= List.length all)%nat ->
  np_take all (where_from 0 mask)
  = Ok (map fst (filter snd (combine all mask))).
Proof.
  intros Hlen.
  pose proof (MeshFacts.np_take_where mask
                (firstn (List.length mask) all) []
                (skipn (List.length mask) all)) as H.
  cbn [app List.length Z.of_nat] in H. rewrite firstn_skipn in H.
  rewrite H by (rewrite length_firstn; lia).
  rewrite combine_firstn_length. reflexivity.
Qed.

Lemma zip3_length {A B C} :
  forall (a : list A) (b : list B) (c : list C),
    (List.length (zip3 a b c) <= List.length a)%nat.
Proof.
  induction a as [|x a IH]; intros b c; [cbn; lia|].
  destruct b as [|y b]; [cbn; lia|]. destruct c as [|z c]; [cbn; lia|].
  cbn [zip3 List.length]. specialize (IH b c). lia.
Qed.

Lemma in_filtered_prefix {A} :
  forall (all : list A) (mask : list bool) (n : nat) (l : A),
    (List.length mask <= n)%nat ->
    In l (map fst (filter snd (combine all mask))) ->
    In l (firstn n all).
Proof.
  induction all as [|a all IH]; intros mask n l Hn Hin;
    [destruct Hin|].
  destruct mask as [|b mask]; [destruct Hin|].
  destruct n as [|n]; [cbn in Hn; lia|].
  cbn [combine filter snd] in Hin. cbn [firstn List.length] in *.
  destruct b; cbn [map fst] in Hin.
  - destruct Hin as [->|Hin]; [left; reflexivity|].
    right. apply (IH mask); [lia | exact Hin].
  - right. apply (IH mask); [lia | exact Hin].
Qed.

Section LateralFacts.
Variable hypot : Q -> Q -> Q.
Variable Polygon : Type.
Variable MultiPolygon : Type.
Variable MultiLineString : Type.
Variable Geometry : Type.
Variable GeometryList : Type.
Variable mesh2d_get_mesh_boundaries_as_polygons : Network -> GeometryList.
Variable to_geometry : GeometryList -> MultiPolygon.
Variable intersection_within : MultiPolygon -> Polygon -> GeometryList.
Variable exteriors : MultiPolygon -> MultiLineString.
Variable intersection : MultiLineString -> Q * Q -> Q * Q -> Geometry.
Variable is_point_or_multipoint : Geometry -> bool.
Variable as_point_list : Geometry -> list (Q * Q).
Variable get_node_mask : Network -> option (list string) -> list bool.
Variable _link_from_2d_to_1d_lateral :
  Network -> list bool -> GeometryList -> option Q -> Link1d2d.
Variable face_edge_distance : Network -> list Z -> result (list Q).

Lemma lateral_loop_where (mls : MultiLineString) :
  forall (rows : list ((Q * Q) * (Q * Q) * Q)) (i : Z),
    lateral_loop hypot MultiLineString Geometry intersection
      is_point_or_multipoint as_point_list mls i rows
    = where_from i
        (map (fun r => lateral_keeps hypot MultiLineString Geometry
                         intersection is_point_or_multipoint as_point_list
                         mls (fst (fst r)) (snd (fst r)) (snd r))
             rows).
Proof.
  induction rows as [|[[n f] c] rows IH]; intros i; [reflexivity|].
  cbn [lateral_loop map where_from fst snd]. rewrite IH. reflexivity.
Qed.

(** The links after a successful call with a distance factor: the links
    at the first [npresent] positions, then the link at position [i] of
    the whole array for every generated link number [i] that passes. *)
Lemma lateral_result (network network' : Network) (dist_factor : Q)
  (branchids : option (list string)) (within : option Polygon)
  (max_length : option Q) :
  links1d2d_add_links_2d_to_1d_lateral hypot Polygon MultiPolygon
    MultiLineString Geometry GeometryList
    mesh2d_get_mesh_boundaries_as_polygons to_geometry intersection_within
    exteriors intersection is_point_or_multipoint as_point_list
    get_node_mask _link_from_2d_to_1d_lateral face_edge_distance
    network (Some dist_factor) branchids within max_length = Ok network' ->
  exists (glist : GeometryList) (passes : list bool),
    let all :=
      link1d2d (_link_from_2d_to_1d_lateral network
                  (get_node_mask network branchids) glist max_length) in
    let npresent := List.length (link1d2d (_link1d2d network)) in
    (npresent <= List.length all)%nat
    /\ (List.length passes <= List.length (skipn npresent all))%nat
    /\ link1d2d (_link1d2d network')
       = firstn npresent all ++ map fst (filter snd (combine all passes)).
Proof.
  unfold links1d2d_add_links_2d_to_1d_lateral. intros H.
  match type of H with
  | context [_link_from_2d_to_1d_lateral _ _ ?g _] => exists g
  end.
  cbn [_link1d2d set_links mesh1d_node_x mesh1d_node_y mesh2d_face_x
         mesh2d_face_y] in H.
  apply PyFacts.bind_ok_inv in H. destruct H as [n1x [H1 H]].
  apply PyFacts.bind_ok_inv in H. destruct H as [n1y [_ H]].
  apply PyFacts.bind_ok_inv in H. destruct H as [f2x [_ H]].
  apply PyFacts.bind_ok_inv in H. destruct H as [f2y [_ H]].
  apply PyFacts.bind_ok_inv in H. destruct H as [distance [_ H]].
  unfold _filter_links_on_idx in H.
  apply PyFacts.bind_ok_inv in H. destruct H as [a [Ha H]].
  apply PyFacts.bind_ok_inv in H. destruct H as [b [_ H]].
  apply PyFacts.bind_ok_inv in H. destruct H as [c [_ H]].
  apply PyFacts.bind_ok_inv in H. destruct H as [d [_ H]].
  injection H as H. subst network'.
  cbn [_link1d2d set_links link1d2d] in *.
  rewrite lateral_loop_where in Ha.
  match type of Ha with
  | context [where_from 0 ?m] => exists m
  end.
  cbv zeta.
  unfold np_take in Ha. apply PyFacts.mapM_app in Ha.
  destruct Ha as [r1 [r2 [Hr1 [Hr2 ->]]]].
  pose proof (np_take_arange_ok _ _ _ Hr1) as Hn.
  pose proof (np_take_length _ _ _ H1) as L1. rewrite length_map in L1.
  assert (Hp : (List.length
                  (map (fun r => lateral_keeps hypot MultiLineString Geometry
                                   intersection is_point_or_multipoint
                                   as_point_list
                                   (exteriors
                                      (to_geometry
                                         (mesh2d_get_mesh_boundaries_as_polygons
                                            network)))
                                   (fst (fst r)) (snd (fst r)) (snd r))
                       (zip3 (combine n1x n1y) (combine f2x f2y)
                          (map (fun d => (d * dist_factor)%Q) distance)))
                <= List.length
                     (skipn (List.length (link1d2d (_link1d2d network)))
                        (link1d2d
                           (_link_from_2d_to_1d_lateral network
                              (get_node_mask network branchids)
                              match within with
                              | Some w =>
                                  intersection_within
                                    (to_geometry
                                       (mesh2d_get_mesh_boundaries_as_polygons
                                          network)) w
                              | None =>
                                  mesh2d_get_mesh_boundaries_as_polygons
                                    network
                              end max_length))))%nat).
  { rewrite length_map. etransitivity; [apply zip3_length|].
    rewrite length_combine. rewrite <- L1. lia. }
  split; [exact Hn|]. split; [exact Hp|].
  pose proof (MeshFacts.np_take_arange _ _ Hn) as Hx.
  unfold np_take in Hx. rewrite Hx in Hr1. injection Hr1 as <-.
  match type of Hr2 with
  | mapM (np_get ?all) (where_from 0 ?m) = _ =>
      pose proof (np_take_mask_prefix all m) as Hw
  end.
  unfold np_take in Hw. rewrite Hw in Hr2
    by (rewrite length_skipn in Hp; lia).
  injection Hr2 as <-. reflexivity.
Qed.

End LateralFacts.

(** X14.  Which links [links1d2d_add_links_2d_to_1d_lateral] keeps when a
    distance factor is given.  The links at the positions of those
    present before the call stay; a generated link that passes the
    boundary test is recorded by its number [i] among the generated
    links, and the link kept for it is the one at position [i] of the
    whole array, the present links included.  On a network without links
    the result is the passing generated links; on a network that already
    has at least as many links as the kernel appends, no generated link
    survives: every link of the result is one that was present before. *)
Theorem lateral_links_kept_by_unshifted_position :
  forall (hypot : Q -> Q -> Q)
         (Polygon MultiPolygon MultiLineString Geometry GeometryList : Type)
         (mesh2d_get_mesh_boundaries_as_polygons : Network -> GeometryList)
         (to_geometry : GeometryList -> MultiPolygon)
         (intersection_within : MultiPolygon -> Polygon -> GeometryList)
         (exteriors : MultiPolygon -> MultiLineString)
         (intersection : MultiLineString -> Q * Q -> Q * Q -> Geometry)
         (is_point_or_multipoint : Geometry -> bool)
         (as_point_list : Geometry -> list (Q * Q))
         (get_node_mask : Network -> option (list string) -> list bool)
         (_link_from_2d_to_1d_lateral :
            Network -> list bool -> GeometryList -> option Q -> Link1d2d)
         (face_edge_distance : Network -> list Z -> result (list Q))
         (network network' : Network) (dist_factor : Q)
         (branchids : option (list string)) (within : option Polygon)
         (max_length : option Q),
    links1d2d_add_links_2d_to_1d_lateral hypot Polygon MultiPolygon
      MultiLineString Geometry GeometryList
      mesh2d_get_mesh_boundaries_as_polygons to_geometry intersection_within
      exteriors intersection is_point_or_multipoint as_point_list
      get_node_mask _link_from_2d_to_1d_lateral face_edge_distance
      network (Some dist_factor) branchids within max_length = Ok network' ->
    exists (glist : GeometryList) (passes : list bool),
      let all :=
        link1d2d (_link_from_2d_to_1d_lateral network
                    (get_node_mask network branchids) glist max_length) in
      let present := link1d2d (_link1d2d network) in
      (List.length passes <= List.length all - List.length present)%nat
      /\ link1d2d (_link1d2d network')
         = firstn (List.length present) all
           ++ map fst (filter snd (combine all passes))
      /\ (present = [] ->
          link1d2d (_link1d2d network')
          = map fst (filter snd (combine all passes)))
      /\ (firstn (List.length present) all = present ->
          (List.length all - List.length present <= List.length present)%nat ->
          forall link,
            In link (link1d2d (_link1d2d network')) -> In link present).
Proof.
  intros hypot Polygon MultiPolygon MultiLineString Geometry GeometryList
         boundaries to_geometry intersection_within exteriors intersection
         is_point_or_multipoint as_point_list get_node_mask gen
         face_edge_distance network network' dist_factor branchids within
         max_length Hrun.
  destruct (lateral_result _ _ _ _ _ _ _ _ _ _ _ _ _ _ _ _ _ _ _ _ _ _ Hrun)
    as [glist [passes [Hn [Hp Hres]]]].
  exists glist, passes. cbv zeta in *. rewrite length_skipn in Hp.
  split; [exact Hp|]. split; [exact Hres|]. split.
  - intros E. rewrite Hres, E. reflexivity.
  - intros Happend Hfew link Hin. rewrite Hres in Hin.
    apply in_app_or in Hin. destruct Hin as [Hin|Hin].
    + rewrite Happend in Hin. exact Hin.
    + rewrite <- Happend.
      apply (in_filtered_prefix _ passes); [lia | exact Hin].
Qed.

Lemma lateral_links_kept_by_unshifted_position_witness :
  exists network',
    lateral_example linked_network = Ok network'
    /\ link1d2d (_link1d2d network') = [(2, 2); (2, 2)]
    /\ forall link,
         In link (link1d2d (_link1d2d network')) ->
         In link (link1d2d (_link1d2d linked_network)).
Proof.
  eexists. split; [vm_compute; reflexivity|]. split; [reflexivity|].
  destruct (lateral_links_kept_by_unshifted_position
              Crosssections.hypot_floor unit unit unit (list (Q * Q)) unit
              (fun _ => tt) (fun _ => tt) (fun _ _ => tt) (fun _ => tt)
              (fun _ face2d _ => [face2d]) (fun _ => true) (fun g => g)
              (fun _ _ => []) append_one_link
              (fun _ id2d => Ok (map (fun _ => 1%Q) id2d))
              linked_network _ 2%Q None None None eq_refl)
    as [[] [passes [_ [_ [_ H]]]]].
  apply H; [reflexivity | simpl; lia].
Defined.

End MeshMoreFacts.


(** ** More on the time frame of a history file *)

Module HisMoreFacts.

Import HisReader.
Local Open Scope Z_scope.
Local Open Scope list_scope.

Lemma append_nil_r (s : string) : (s ++ "")%string = s.
Proof. induction s as [|c s IH]; cbn; [|rewrite IH]; reflexivity. Qed.

Lemma append_assoc (a b c : string) :
  ((a ++ b) ++ c)%string = (a ++ (b ++ c))%string.
Proof. induction a as [|x a IH]; cbn; [|rewrite IH]; reflexivity. Qed.

Lemma prefix_char (c : ascii) (sep s : string) :
  Statistics.contains (String c EmptyString) s = false ->
  String.prefix (String c sep) s = false.
Proof.
  destruct s as [|x s]; [reflexivity|]. cbn [Statistics.contains String.prefix].
  destruct (ascii_dec c x) as [->|Hne]; [|reflexivity].
  intros H. apply orb_false_iff in H. destruct H as [H _].
  destruct s; discriminate H.
Qed.

Lemma contains_tail (needle : string) (x : ascii) (s : string) :
  Statistics.contains needle (String x s) = false ->
  Statistics.contains needle s = false.
Proof.
  cbn [Statistics.contains]. intros H. apply orb_false_iff in H.
  destruct H as [_ H]. exact H.
Qed.

Lemma contains_head (needle : string) (s : string) :
  Statistics.contains needle s = false -> String.prefix needle s = false.
Proof.
  destruct s; cbn [Statistics.contains]; intros H;
    apply orb_false_iff in H; destruct H as [H _]; exact H.
Qed.

(** A needle whose first character does not occur in [a] occurs in
    [a ++ b] only inside [b]. *)
Lemma contains_app_char (c : ascii) (sep : string) :
  forall a b,
    Statistics.contains (String c EmptyString) a = false ->
    Statistics.contains (String c sep) (a ++ b)%string
    = Statistics.contains (String c sep) b.
Proof.
  induction a as [|x a IH]; intros b H; [reflexivity|].
  change ((String x a ++ b)%string) with (String x (a ++ b)%string).
  cbn [Statistics.contains].
  assert (Hp : String.prefix (String c sep) (String x (a ++ b)%string)
               = false).
  { cbn [String.prefix]. destruct (ascii_dec c x) as [->|Hne]; [|reflexivity].
    exfalso. apply contains_head in H. cbn [String.prefix] in H.
    destruct (ascii_dec x x); [|congruence]. destruct a; discriminate H. }
  rewrite Hp. cbn [orb]. apply IH. exact (contains_tail _ _ _ H).
Qed.

(** Without an occurrence of the separator [split] returns the string
    whole. *)
Lemma split_go_no_occurrence (c : ascii) (sep : string) :
  forall s cur,
    Statistics.contains (String c sep) s = false ->
    split_go (String c sep) 0 cur s = [(cur ++ s)%string].
Proof.
  induction s as [|x s IH]; intros cur H.
  - cbn [split_go]. rewrite append_nil_r. reflexivity.
  - cbn [split_go]. rewrite (contains_head _ _ H).
    rewrite IH by exact (contains_tail _ _ _ H).
    rewrite append_assoc. reflexivity.
Qed.

Lemma split_seconds_since (body : string) :
  Statistics.contains "since " body = false ->
  split "since " ("seconds since " ++ body) = ["seconds "; body].
Proof.
  intros H. unfold split.
  change ("seconds since " ++ body)%string
    with (String "s" (String "e" (String "c" (String "o" (String "n"
         (String "d" (String "s" (String " " (String "s" (String "i"
         (String "n" (String "c" (String "e" (String " " body)))))))))))))).
  cbn. replace (String.prefix "" body) with true
    by (destruct body; reflexivity).
  f_equal. apply (split_go_no_occurrence "s" "ince " body "").
  exact H.
Qed.

Lemma replace_go_no_first (c : ascii) (old new : string) :
  forall a b,
    Statistics.contains (String c EmptyString) a = false ->
    replace_go (String c old) new 0 (a ++ b)
    = (a ++ replace_go (String c old) new 0 b)%string.
Proof.
  induction a as [|x a IH]; intros b H; [reflexivity|].
  change ((String x a ++ b)%string) with (String x (a ++ b)%string).
  cbn [replace_go].
  assert (Hp : String.prefix (String c old) (String x (a ++ b)%string)
               = false).
  { cbn [String.prefix]. destruct (ascii_dec c x) as [->|Hne]; [|reflexivity].
    exfalso. apply contains_head in H. cbn [String.prefix] in H.
    destruct (ascii_dec x x); [|congruence]. destruct a; discriminate H. }
  rewrite Hp. rewrite IH by exact (contains_tail _ _ _ H). reflexivity.
Qed.

Lemma lstrip_length (s : string) :
  (String.length (lstrip s) <= String.length s)%nat.
Proof.
  induction s as [|c s IH]; cbn [lstrip String.length]; [lia|].
  destruct (is_space c); cbn [String.length]; lia.
Qed.

Lemma lstrip_app_fixed (s t : string) :
  s <> EmptyString -> lstrip s = s -> lstrip (s ++ t) = (s ++ t)%string.
Proof.
  destruct s as [|c s]; [congruence|]. intros _ H.
  cbn [lstrip append] in *. destruct (is_space c); [|reflexivity].
  exfalso. pose proof (lstrip_length s) as L. rewrite H in L.
  cbn [String.length] in L. lia.
Qed.

Lemma rstrip_app_space (s : string) : rstrip (s ++ " ") = rstrip s.
Proof.
  induction s as [|c s IH]; [reflexivity|].
  cbn [append rstrip]. rewrite IH. reflexivity.
Qed.

Lemma strip_app_space (s : string) :
  lstrip s = s -> rstrip s = s -> strip (s ++ " ") = s.
Proof.
  intros Hl Hr. unfold strip. destruct s as [|c s]; [reflexivity|].
  rewrite lstrip_app_fixed by (exact Hl || discriminate).
  rewrite rstrip_app_space. exact Hr.
Qed.

(** X15.  The start instant of the time frame for the [units] of a
    D-HYDRO history file: for a date-time text without surrounding white
    space and without the characters [s] and [+], the units
    ["seconds since <text>"], with or without a trailing ["+00:00"] or
    [" +00:00"], give the instant that [datetime.fromisoformat] reads
    from the text alone (or its error). *)
Theorem timeframe_start_from_units :
  forall iso : string,
    Statistics.contains "s" iso = false ->
    Statistics.contains "+" iso = false ->
    lstrip iso = iso ->
    rstrip iso = iso ->
    parse_units ("seconds since " ++ iso) = fromisoformat iso
    /\ parse_units ("seconds since " ++ iso ++ "+00:00") = fromisoformat iso
    /\ parse_units ("seconds since " ++ iso ++ " +00:00")
       = fromisoformat iso.
Proof.
  intros iso Hs Hplus Hl Hr.
  assert (Hsplit : forall tz,
             Statistics.contains "since " tz = false ->
             split "since " ("seconds since " ++ iso ++ tz)
             = ["seconds "; (iso ++ tz)%string]).
  { intros tz Htz. apply split_seconds_since.
    rewrite (contains_app_char "s" "ince " iso tz Hs). exact Htz. }
  assert (Hrep : forall tz,
             replace "+00:00" "" (iso ++ tz)
             = (iso ++ replace "+00:00" "" tz)%string).
  { intros tz. unfold replace.
    apply (replace_go_no_first "+" "00:00" "" iso tz Hplus). }
  unfold parse_units. split; [|split].
  - pose proof (Hsplit "" eq_refl) as H. rewrite append_nil_r in H.
    rewrite H. cbn [get_item nth_error Py.bind].
    pose proof (Hrep "") as H'. rewrite append_nil_r in H'. rewrite H'.
    cbn [replace replace_go]. rewrite append_nil_r.
    unfold strip. rewrite Hl, Hr. reflexivity.
  - rewrite (Hsplit "+00:00" eq_refl). cbn [get_item nth_error Py.bind].
    rewrite Hrep.
    replace (replace "+00:00" "" "+00:00") with "" by reflexivity.
    rewrite append_nil_r. unfold strip. rewrite Hl, Hr. reflexivity.
  - rewrite (Hsplit " +00:00" eq_refl). cbn [get_item nth_error Py.bind].
    rewrite Hrep.
    replace (replace "+00:00" "" " +00:00") with " " by reflexivity.
    rewrite (strip_app_space iso Hl Hr). reflexivity.
Qed.

Lemma timeframe_start_from_units_witness :
  parse_units ("seconds since " ++ "2020-01-01 00:00:00")
  = fromisoformat "2020-01-01 00:00:00"
  /\ parse_units ("seconds since " ++ "2020-01-01 00:00:00" ++ "+00:00")
     = fromisoformat "2020-01-01 00:00:00"
  /\ parse_units ("seconds since " ++ "2020-01-01 00:00:00" ++ " +00:00")
     = fromisoformat "2020-01-01 00:00:00".
Proof.
  apply (timeframe_start_from_units "2020-01-01 00:00:00");
    vm_compute; reflexivity.
Defined.

(** X16.  The failures of [__make_timeframe]: units without ["since "]
    raise [IndexError]; an error of the units goes before any error of
    the time values; with readable units, an empty time variable raises
    the [ValueError] of the maximum of an empty array, and a time
    variable with a single value raises [IndexError] on its second
    element. *)
Theorem make_timeframe_errors :
  forall (units : string) (time : list Z),
    (Statistics.contains "since " units = false ->
     make_timeframe units time = Raise (IndexError "index out of range"))
    /\ (forall e, parse_units units = Raise e ->
                  make_timeframe units time = Raise e)
    /\ (forall start, parse_units units = Ok start ->
          (time = [] ->
           make_timeframe units time
           = Raise (ValueError
               "zero-size array to reduction operation maximum which has no identity"))
          /\ (forall t0, time = [t0] ->
                make_timeframe units time
                = Raise (IndexError "index out of range"))).
Proof.
  intros units time. split; [|split].
  - intros H. unfold make_timeframe, parse_units, split.
    rewrite (split_go_no_occurrence "s" "ince " units "" H). reflexivity.
  - intros e H. unfold make_timeframe. rewrite H. reflexivity.
  - intros start H. unfold make_timeframe. rewrite H. split.
    + intros ->. reflexivity.
    + intros t0 ->. reflexivity.
Qed.

Lemma make_timeframe_errors_witness :
  make_timeframe "seconds" [0; 3600]
  = Raise (IndexError "index out of range")
  /\ make_timeframe "seconds since 2020-01-01 00:00:00" []
     = Raise (ValueError
         "zero-size array to reduction operation maximum which has no identity")
  /\ make_timeframe "seconds since 2020-01-01 00:00:00" [0]
     = Raise (IndexError "index out of range").
Proof.
  split; [|split].
  - apply (proj1 (make_timeframe_errors "seconds" [0; 3600])).
    reflexivity.
  - apply (proj1 (proj2 (proj2 (make_timeframe_errors
                                  "seconds since 2020-01-01 00:00:00" []))
                    1577836800 eq_refl)).
    reflexivity.
  - apply (proj2 (proj2 (proj2 (make_timeframe_errors
                                  "seconds since 2020-01-01 00:00:00" [0]))
                    1577836800 eq_refl) 0).
    reflexivity.
Defined.

(** X17.  A time variable whose second value is smaller than its first,
    with a positive largest value, gives an empty time frame and no
    error: the negative step can never reach the end instant, which lies
    after the start. *)
Theorem timeframe_decreasing_time_is_empty :
  forall (units : string) (time : list Z) (start t0 t1 tmax : Z)
         (rest : list Z),
    parse_units units = Ok start ->
    time = t0 :: t1 :: rest ->
    amax time = Ok tmax ->
    t1 < t0 ->
    0 < tmax ->
    make_timeframe units time = Ok [].
Proof.
  intros units time start t0 t1 tmax rest Hparse Htime Hmax Hstep Hpos.
  unfold make_timeframe. rewrite Hparse, Hmax. subst time.
  cbn [Py.bind get_item nth_error]. unfold date_range.
  destruct (Z.eqb_spec (t1 - t0) 0); [lia|].
  destruct (Z.ltb_spec 0 (t1 - t0)); [lia|].
  destruct (Z.ltb_spec start (start + tmax)); [reflexivity | lia].
Qed.

Lemma timeframe_decreasing_time_is_empty_witness :
  make_timeframe "seconds since 2020-01-01 00:00:00" [3600; 0; 7200] = Ok [].
Proof.
  apply (timeframe_decreasing_time_is_empty
           "seconds since 2020-01-01 00:00:00" [3600; 0; 7200]
           1577836800 3600 0 7200 [7200]).
  - vm_compute. reflexivity.
  - reflexivity.
  - reflexivity.
  - lia.
  - lia.
Defined.

End HisMoreFacts.


(** ** More on the friction overlay *)

Module FrictionMoreFacts.

Import Friction.
Local Open Scope list_scope.

(** *** The dictionaries of [friction2dict] *)

Lemma dict_set_keys {V} (k : string) (v : V) :
  forall d,
    map fst (dict_set k v d)
    = if existsb (String.eqb k) (map fst d) then map fst d
      else map fst d ++ [k].
Proof.
  induction d as [|[k' v'] d IH]; [reflexivity|].
  cbn [dict_set map fst existsb].
  rewrite (String.eqb_sym k k').
  destruct (String.eqb k' k) eqn:E.
  - apply String.eqb_eq in E. subst k'. reflexivity.
  - cbn [map fst orb]. rewrite IH.
    destruct (existsb (String.eqb k) (map fst d)); reflexivity.
Qed.

Lemma dict_set_NoDup {V} (k : string) (v : V) (d : list (string * V)) :
  NoDup (map fst d) -> NoDup (map fst (dict_set k v d)).
Proof.
  intros H. rewrite dict_set_keys.
  destruct (existsb (String.eqb k) (map fst d)) eqn:E; [exact H|].
  apply NoDup_app; [exact H | repeat constructor; intros [] |].
  intros x Hx [E'|[]]. subst x.
  assert (existsb (String.eqb k) (map fst d) = true).
  { apply existsb_exists. exists k. split; [exact Hx|apply String.eqb_refl]. }
  congruence.
Qed.

Lemma dict_set_In_key {V} (k k0 : string) (v : V) (d : list (string * V)) :
  In k0 (map fst d) \/ k0 = k -> In k0 (map fst (dict_set k v d)).
Proof.
  rewrite dict_set_keys.
  destruct (existsb (String.eqb k) (map fst d)) eqn:E.
  - intros [H| ->]; [exact H|]. apply existsb_exists in E.
    destruct E as [x [Hx E]]. apply String.eqb_eq in E. subst x. exact Hx.
  - intros [H| ->]; apply in_or_app; [left; exact H | right; left; reflexivity].
Qed.

Lemma dict_set_Forall2 {V W} (R : string * V -> string * W -> Prop)
  (k : string) (v : V) (w : W) :
  (forall a b, R a b -> fst a = fst b) ->
  R (k, v) (k, w) ->
  forall d1 d2, Forall2 R d1 d2 ->
  Forall2 R (dict_set k v d1) (dict_set k w d2).
Proof.
  intros Hkey Hnew d1 d2 H. induction H as [|[k1 v1] [k2 w2] d1 d2 Hab H IH].
  - repeat constructor. exact Hnew.
  - pose proof (Hkey _ _ Hab) as E. cbn [fst] in E. subst k2.
    cbn [dict_set]. destruct (String.eqb k1 k); constructor; auto.
Qed.

Lemma dict_get_In {V} (k : string) (v : V) :
  forall d, NoDup (map fst d) -> In (k, v) d -> dict_get k d = Ok v.
Proof.
  induction d as [|[k' v'] d IH]; intros Hnd Hin; [destruct Hin|].
  cbn [dict_get]. cbn [map fst] in Hnd. inversion Hnd as [|? ? Hnot Hnd'].
  subst. destruct Hin as [E|Hin].
  - inversion E; subst. rewrite String.eqb_refl. reflexivity.
  - destruct (String.eqb k' k) eqn:E.
    + apply String.eqb_eq in E. subst k'. exfalso. apply Hnot.
      apply (in_map fst _ (k, v)). exact Hin.
    + apply IH; assumption.
Qed.

Lemma dict_set_In_same {V} (k : string) (v : V) :
  forall d, In (k, v) (dict_set k v d).
Proof.
  induction d as [|[k' v'] d IH]; [left; reflexivity|].
  cbn [dict_set]. destruct (String.eqb k' k); [left; reflexivity|].
  right. exact IH.
Qed.

Lemma dict_set_In_other {V} (k k0 : string) (v v0 : V) :
  k0 <> k ->
  forall d, In (k0, v0) d -> In (k0, v0) (dict_set k v d).
Proof.
  intros Hne. induction d as [|[k' v'] d IH]; intros Hin; [destruct Hin|].
  cbn [dict_set]. destruct (String.eqb k' k) eqn:E.
  - apply String.eqb_eq in E. subst k'. destruct Hin as [Hin|Hin].
    + inversion Hin. congruence.
    + right. exact Hin.
  - destruct Hin as [Hin|Hin]; [left; exact Hin | right; apply IH; exact Hin].
Qed.

(** An entry of the branch dictionary stays when no later friction file
    has its key; with distinct friction ids every friction file has its
    own entry. *)
Lemma friction2dict_loop_keeps :
  forall frictfile dfsglob dfschan dicts k v,
    friction2dict_loop frictfile dfsglob dfschan = Ok dicts ->
    In (k, v) dfschan ->
    (forall f g0 gs, In f frictfile -> global_ f = g0 :: gs ->
                     g_frictionid g0 <> k) ->
    In (k, v) (snd dicts).
Proof.
  induction frictfile as [|f rest IH]; intros dfsglob dfschan dicts k v
    Hrun Hin Hne.
  - cbn in Hrun. inversion Hrun; subst. exact Hin.
  - cbn [friction2dict_loop] in Hrun.
    destruct (global_ f) as [|g0 gs] eqn:Eg; [discriminate|].
    eapply IH; [exact Hrun | |].
    + apply dict_set_In_other; [|exact Hin].
      intros E. apply (Hne f g0 gs (or_introl eq_refl) Eg). auto.
    + intros f' g0' gs' Hf'. apply Hne. right. exact Hf'.
Qed.

Lemma friction2dict_loop_entry :
  forall frictfile dfsglob dfschan dicts,
    friction2dict_loop frictfile dfsglob dfschan = Ok dicts ->
    NoDup (map (fun f => map g_frictionid (firstn 1 (global_ f)))
               frictfile) ->
    forall f g0 gs,
      In f frictfile -> global_ f = g0 :: gs ->
      In (g_frictionid g0, branch f) (snd dicts).
Proof.
  induction frictfile as [|f0 rest IH]; intros dfsglob dfschan dicts Hrun
    Hnd f g0 gs Hf Hg; [destruct Hf|].
  cbn [map] in Hnd. inversion Hnd as [|? ? Hnot Hnd']; subst.
  cbn [friction2dict_loop] in Hrun.
  destruct (global_ f0) as [|g00 gs0] eqn:Eg0; [discriminate|].
  destruct Hf as [->|Hf].
  - rewrite Eg0 in Hg. inversion Hg; subst g00 gs0.
    eapply friction2dict_loop_keeps; [exact Hrun | apply dict_set_In_same |].
    intros f' g0' gs' Hf' Hg' E. apply Hnot.
    apply in_map_iff. exists f'. split; [|exact Hf'].
    rewrite Hg'. cbn. rewrite E. reflexivity.
  - eapply IH; eauto.
Qed.

Lemma Forall2_In_left {A B} (R : A -> B -> Prop) :
  forall l1 l2, Forall2 R l1 l2 ->
  forall a, In a l1 -> exists b, In b l2 /\ R a b.
Proof.
  induction 1 as [|x y l1 l2 Hxy H IH]; intros a Ha; [destruct Ha|].
  destruct Ha as [<-|Ha].
  - exists y. split; [left; reflexivity | exact Hxy].
  - destruct (IH a Ha) as [b [Hb Hab]]. exists b. split; [right|]; auto.
Qed.

Lemma Forall2_In_right {A B} (R : A -> B -> Prop) :
  forall l1 l2, Forall2 R l1 l2 ->
  forall b, In b l2 -> exists a, In a l1 /\ R a b.
Proof.
  induction 1 as [|x y l1 l2 Hxy H IH]; intros b Hb; [destruct Hb|].
  destruct Hb as [<-|Hb].
  - exists x. split; [left; reflexivity | exact Hxy].
  - destruct (IH b Hb) as [a [Ha Hab]]. exists a. split; [right|]; auto.
Qed.

(** The entries of the two dictionaries come in pairs: same key, the
    global and the branch records of one friction file whose first
    global record has that key. *)
Lemma friction2dict_loop_inv (all : list FrictionModel) :
  forall frictfile dfsglob dfschan dicts,
    incl frictfile all ->
    Forall2 (fun (a : string * list FrictGlobal) (b : string * list FrictBranch) =>
       fst a = fst b
       /\ exists f g0 gs,
            In f all /\ global_ f = g0 :: gs
            /\ fst a = g_frictionid g0
            /\ snd a = global_ f /\ snd b = branch f) dfsglob dfschan ->
    NoDup (map fst dfsglob) ->
    friction2dict_loop frictfile dfsglob dfschan = Ok dicts ->
    Forall2 (fun (a : string * list FrictGlobal) (b : string * list FrictBranch) =>
       fst a = fst b
       /\ exists f g0 gs,
            In f all /\ global_ f = g0 :: gs
            /\ fst a = g_frictionid g0
            /\ snd a = global_ f /\ snd b = branch f) (fst dicts) (snd dicts)
    /\ NoDup (map fst (fst dicts))
    /\ (forall k, In k (map fst dfsglob) -> In k (map fst (fst dicts)))
    /\ (forall f g0 gs, In f frictfile -> global_ f = g0 :: gs ->
                        In (g_frictionid g0) (map fst (fst dicts))).
Proof.
  induction frictfile as [|f rest IH]; intros dfsglob dfschan dicts Hincl
    Hpair Hnd Hrun.
  - cbn in Hrun. inversion Hrun; subst. cbn [fst snd].
    repeat split; auto. intros f g0 gs [].
  - cbn [friction2dict_loop] in Hrun.
    destruct (global_ f) as [|g0 gs] eqn:Eg; [discriminate|].
    apply IH in Hrun.
    + destruct Hrun as [H1 [H2 [H3 H4]]]. repeat split; auto.
      * intros k Hk. apply H3. apply dict_set_In_key. left. exact Hk.
      * intros f' g0' gs' [<-|Hin] Hg.
        -- rewrite Eg in Hg. inversion Hg; subst. apply H3.
           apply dict_set_In_key. right. reflexivity.
        -- eapply H4; eauto.
    + intros x Hx. apply Hincl. right. exact Hx.
    + apply dict_set_Forall2; [intros a b [E _]; exact E | | exact Hpair].
      split; [reflexivity|]. exists f, g0, gs. cbn [fst snd].
      rewrite Eg. repeat split; auto. apply Hincl. left. reflexivity.
    + apply dict_set_NoDup. exact Hnd.
Qed.

Lemma friction2dict_loop_total :
  forall frictfile dfsglob dfschan,
    Forall (fun f => global_ f <> []) frictfile ->
    exists dicts, friction2dict_loop frictfile dfsglob dfschan = Ok dicts.
Proof.
  induction frictfile as [|f rest IH]; intros dfsglob dfschan H.
  - eexists. reflexivity.
  - inversion H as [|? ? Hf Hrest]; subst. cbn [friction2dict_loop].
    destruct (global_ f) as [|g0 gs]; [contradiction|]. apply IH. exact Hrest.
Qed.

Lemma friction2dict_loop_fail :
  forall frictfile dfsglob dfschan,
    (exists f, In f frictfile /\ global_ f = []) ->
    friction2dict_loop frictfile dfsglob dfschan
    = Raise (IndexError "list index out of range").
Proof.
  induction frictfile as [|f rest IH]; intros dfsglob dfschan [x [Hx Hg]];
    [destruct Hx|].
  cbn [friction2dict_loop]. destruct (global_ f) as [|g0 gs] eqn:Eg;
    [reflexivity|].
  apply IH. destruct Hx as [->|Hx]; [congruence|]. exists x. auto.
Qed.

Lemma mapM_Forall2 {A B} (f : A -> result B) :
  forall l r, mapM f l = Ok r <-> Forall2 (fun x y => f x = Ok y) l r.
Proof.
  induction l as [|a l IH]; intros r; cbn [mapM].
  - split; intros H; inversion H; constructor.
  - split; intros H.
    + apply PyFacts.bind_ok_inv in H. destruct H as [b [Hb H]].
      apply PyFacts.bind_ok_inv in H. destruct H as [bs [Hbs H]].
      inversion H; subst. constructor; [exact Hb|]. apply IH. exact Hbs.
    + inversion H as [|? y ? ys Hy Hys]; subst. rewrite Hy. cbn [Py.bind].
      apply IH in Hys. rewrite Hys. reflexivity.
Qed.

Lemma append_cancel_r (c : string) :
  forall a b : string, (a ++ c)%string = (b ++ c)%string -> a = b.
Proof.
  assert (Hlen : forall a b : string,
             String.length (a ++ b) = (String.length a + String.length b)%nat).
  { induction a as [|x a IH]; intros b; cbn; [|rewrite IH]; reflexivity. }
  induction a as [|x a IH]; intros b H.
  - destruct b as [|y b]; [reflexivity|].
    apply (f_equal String.length) in H. rewrite !Hlen in H.
    cbn [String.length] in H. lia.
  - destruct b as [|y b].
    + apply (f_equal String.length) in H. rewrite !Hlen in H.
      cbn [String.length] in H. lia.
    + cbn [append] in H. inversion H; subst. f_equal. apply IH. assumption.
Qed.

Lemma path_inj (k1 k2 : string) :
  ("roughness-" ++ k1 ++ ".ini")%string = ("roughness-" ++ k2 ++ ".ini")%string ->
  k1 = k2.
Proof.
  intros H. cbn [append] in H. inversion H as [H'].
  exact (append_cancel_r _ _ _ H').
Qed.

Section FilesFacts.
Variable Geometry : Type.
Variable sjoin_nearest :
  list (BranchLine Geometry) -> list (FrictShape Geometry) -> Q ->
  list (BranchLine Geometry * FrictShape Geometry).

Lemma overlay_file_path intersect ff wipe key globals frictions :
  fst (overlay_file Geometry intersect ff wipe key globals frictions)
  = ("roughness-" ++ key ++ ".ini")%string.
Proof.
  unfold overlay_file. destruct frictions; [reflexivity|].
  destruct wipe; reflexivity.
Qed.

Lemma overlay_file_globals intersect ff wipe key globals frictions :
  global_ (snd (overlay_file Geometry intersect ff wipe key globals
                  frictions))
  = globals.
Proof.
  unfold overlay_file. destruct frictions; [reflexivity|].
  destruct wipe; reflexivity.
Qed.

Lemma paired_get (frictfile : list FrictionModel)
  (d1 : list (string * list FrictGlobal))
  (d2 : list (string * list FrictBranch)) :
  Forall2 (fun (a : string * list FrictGlobal) (b : string * list FrictBranch) =>
       fst a = fst b
       /\ exists f g0 gs,
            In f frictfile /\ global_ f = g0 :: gs
            /\ fst a = g_frictionid g0
            /\ snd a = global_ f /\ snd b = branch f) d1 d2 ->
  NoDup (map fst d1) ->
  forall kv, In kv d2 ->
    exists f g0 gs,
      In f frictfile /\ global_ f = g0 :: gs
      /\ fst kv = g_frictionid g0 /\ snd kv = branch f
      /\ dict_get (fst kv) d1 = Ok (global_ f).
Proof.
  intros Hpair Hnd kv Hkv.
  assert (Hex : exists a, In a d1
                  /\ fst a = fst kv
                  /\ exists f g0 gs,
                       In f frictfile /\ global_ f = g0 :: gs
                       /\ fst a = g_frictionid g0
                       /\ snd a = global_ f /\ snd kv = branch f).
  { clear Hnd. induction Hpair as [|a b l1 l2 Hab Hp IH];
      [destruct Hkv|].
    destruct Hkv as [->|Hkv].
    - exists a. split; [left; reflexivity | exact Hab].
    - destruct (IH Hkv) as [a' [Ha' Hp']]. exists a'. split; [right|]; auto. }
  destruct Hex as [[k g] [Ha [Ek [f [g0 [gs [Hf [Hg [E1 [E2 E3]]]]]]]]]].
  cbn [fst snd] in Ek, E1, E2, E3.
  exists f, g0, gs.
  split; [exact Hf|]. split; [exact Hg|]. split; [congruence|].
  split; [exact E3|].
  rewrite <- Ek, <- E2. apply dict_get_In; assumption.
Qed.

(** The files written, read off the dictionaries. *)
Lemma change_friction_shape_inv (frictfile : list FrictionModel)
  (branches : list (BranchLine Geometry))
  (gdf_frict : list (FrictShape Geometry)) (wipe : bool)
  (files : list (string * FrictionModel)) :
  change_friction_shape Geometry sjoin_nearest frictfile branches gdf_frict
    wipe = Ok files ->
  exists dicts,
    friction2dict frictfile = Ok dicts
    /\ NoDup (map fst (snd dicts))
    /\ (forall f g0 gs, In f frictfile -> global_ f = g0 :: gs ->
                        In (g_frictionid g0) (map fst (snd dicts)))
    /\ Forall2
         (fun (kv : string * list FrictBranch) file =>
            exists f g0 gs,
              In f frictfile /\ global_ f = g0 :: gs
              /\ fst kv = g_frictionid g0 /\ snd kv = branch f
              /\ file = overlay_file Geometry
                          (sjoin_nearest branches gdf_frict buffer)
                          (existsb (fun s => is_float (fricval s)) gdf_frict)
                          wipe (g_frictionid g0) (global_ f) (branch f))
         (snd dicts) files.
Proof.
  unfold change_friction_shape. intros H.
  apply PyFacts.bind_ok_inv in H. destruct H as [dicts [Hd H]].
  exists dicts. split; [exact Hd|].
  unfold friction2dict in Hd.
  apply (friction2dict_loop_inv frictfile) in Hd;
    [|apply incl_refl|constructor|constructor].
  destruct Hd as [Hpair [Hnd [_ Hkeys]]].
  assert (Hk : map fst (fst dicts) = map fst (snd dicts)).
  { clear Hnd Hkeys H. induction Hpair as [|a b l1 l2 [E _] Hp IH];
      [reflexivity|]. cbn [map]. rewrite E, IH. reflexivity. }
  rewrite <- Hk. repeat (split; [assumption|]).
  apply mapM_Forall2 in H.
  pose proof (paired_get frictfile _ _ Hpair Hnd) as Hget.
  clear Hpair Hnd Hkeys Hk. revert Hget.
  induction H as [|kv file l r Hkv H IH]; intros Hget; constructor.
  - destruct (Hget kv (or_introl eq_refl))
      as [f [g0 [gs [Hf [Hg [E1 [E2 E3]]]]]]].
    exists f, g0, gs. repeat split; auto.
    rewrite E3 in Hkv. cbn [Py.bind] in Hkv. inversion Hkv.
    rewrite E1, E2. reflexivity.
  - apply IH. intros kv' Hin. apply Hget. right. exact Hin.
Qed.

Lemma change_friction_shape_total (frictfile : list FrictionModel)
  (branches : list (BranchLine Geometry))
  (gdf_frict : list (FrictShape Geometry)) (wipe : bool) :
  Forall (fun f => global_ f <> []) frictfile ->
  exists files,
    change_friction_shape Geometry sjoin_nearest frictfile branches
      gdf_frict wipe = Ok files.
Proof.
  intros Hne. unfold change_friction_shape, friction2dict.
  destruct (friction2dict_loop_total frictfile [] [] Hne) as [dicts Hd].
  rewrite Hd. cbn [Py.bind].
  apply (friction2dict_loop_inv frictfile) in Hd;
    [|apply incl_refl|constructor|constructor].
  destruct Hd as [Hpair [Hnd _]].
  pose proof (paired_get frictfile _ _ Hpair Hnd) as Hget.
  clear Hpair Hnd. induction (snd dicts) as [|kv l IH].
  - eexists. reflexivity.
  - destruct (Hget kv (or_introl eq_refl)) as [f [g0 [gs [_ [_ [_ [_ E]]]]]]].
    destruct IH as [r Hr]; [intros; apply Hget; right; assumption|].
    cbn [mapM]. rewrite E. cbn [Py.bind]. rewrite Hr. cbn [Py.bind].
    eexists. reflexivity.
Qed.

(** The origin of one written file. *)
Lemma written_file_origin (frictfile : list FrictionModel)
  (branches : list (BranchLine Geometry))
  (gdf_frict : list (FrictShape Geometry)) (wipe : bool)
  (files : list (string * FrictionModel)) (file : string * FrictionModel) :
  change_friction_shape Geometry sjoin_nearest frictfile branches gdf_frict
    wipe = Ok files ->
  In file files ->
  exists f g0 gs,
    In f frictfile /\ global_ f = g0 :: gs
    /\ file = overlay_file Geometry
                (sjoin_nearest branches gdf_frict buffer)
                (existsb (fun s => is_float (fricval s)) gdf_frict) wipe
                (g_frictionid g0) (global_ f) (branch f).
Proof.
  intros Hrun Hin.
  destruct (change_friction_shape_inv _ _ _ _ _ Hrun)
    as [dicts [_ [_ [_ H]]]].
  clear Hrun. induction H as [|kv x l r Hx H IH]; [destruct Hin|].
  destruct Hin as [->|Hin]; [|exact (IH Hin)].
  destruct Hx as [f [g0 [gs [Hf [Hg [_ [_ E]]]]]]].
  exists f, g0, gs. auto.
Qed.

End FilesFacts.

(** *** The records of one written file *)

Section OverlayMore.
Variable Geometry : Type.
Variable intersect : list (BranchLine Geometry * FrictShape Geometry).
Variable fricval_float : bool.

(** A row without a match is the row of a record whose branch is not
    joined. *)
Lemma unmatched_rows (frictions : list FrictBranch) :
  existsb (unmatched Geometry)
    (merge_on_branchid Geometry frictions
       (assign_result Geometry intersect frictions))
  = existsb
      (fun f => negb (existsb (fun bs => String.eqb (branchid f)
                                                    (id (fst bs)))
                              intersect))
      frictions.
Proof.
  unfold merge_on_branchid.
  set (im := assign_result Geometry intersect frictions).
  assert (Him : map (fun r : InModelRow Geometry => fst r) im = intersect).
  { unfold im, assign_result. rewrite map_map. cbn [fst]. apply map_id. }
  clearbody im. induction frictions as [|f l IH]; [reflexivity|].
  cbn [flat_map existsb]. rewrite existsb_app, IH. f_equal.
  match goal with
  | |- context [filter ?p im] =>
      assert (Hf : existsb (fun bs => String.eqb (branchid f) (id (fst bs)))
                           intersect
                   = negb (match filter p im with [] => true | _ => false end));
      [|rewrite Hf; destruct (filter p im) as [|r rs]; [reflexivity|]]
  end.
  { rewrite <- Him. clear. induction im as [|r im IH]; [reflexivity|].
    cbn [map existsb filter].
    destruct (String.eqb (branchid f) (id (fst (fst r)))); [reflexivity|].
    exact IH. }
  cbn [negb]. generalize (r :: rs). intros rows.
  clear. induction rows as [|x rows IH]; [reflexivity|].
  cbn [map existsb]. exact IH.
Qed.

(** What is written for a record that is joined to the feature [s], and
    for a record that is not joined. *)
Lemma overlay_keep_normal_form (key : string) (globals : list FrictGlobal)
  (frictions : list FrictBranch) :
  branch (snd (overlay_file Geometry intersect fricval_float false key globals
                 frictions))
  = let fc :=
      fricval_float
      || existsb
           (fun f => negb (existsb (fun bs => String.eqb (branchid f)
                                                         (id (fst bs)))
                                   intersect))
           frictions in
    flat_map
      (fun f =>
         match filter (fun bs => String.eqb (branchid f) (id (fst bs)))
                      intersect with
         | [] =>
             [ {| branchid := branchid f; frictiontype := frictiontype f;
                  functiontype := functiontype f;
                  numlocations := numlocations f;
                  chainage := list_if_int (chainage f);
                  frictionvalues := list_if_float (frictionvalues f) |} ]
         | ms =>
             map (fun bs =>
                    {| branchid := branchid f; frictiontype := frictiontype f;
                       functiontype := functiontype f;
                       numlocations := CNum (NInt 1);
                       chainage := CList [NInt 0];
                       frictionvalues :=
                         list_if_float
                           (CNum (if fc then astype_float (fricval (snd bs))
                                  else fricval (snd bs))) |})
                 ms
         end)
      frictions.
Proof.
  cbv zeta.
  set (fc := fricval_float
             || existsb
                  (fun f => negb (existsb (fun bs => String.eqb (branchid f)
                                                                (id (fst bs)))
                                          intersect))
                  frictions).
  assert (H : branch (snd (overlay_file Geometry intersect fricval_float false
                             key globals frictions))
              = map (fun m => to_record Geometry
                                (to_lists Geometry (overwrite Geometry fc m)))
                    (merge_on_branchid Geometry frictions
                       (assign_result Geometry intersect frictions))).
  { unfold overlay_file. subst fc. destruct frictions as [|f0 fs];
      [reflexivity|].
    cbn [snd branch]. rewrite !map_map.
    rewrite unmatched_rows. reflexivity. }
  rewrite H. clear H. unfold merge_on_branchid. clearbody fc.
  assert (Hgen : forall l, incl l frictions ->
    map (fun m => to_record Geometry
                    (to_lists Geometry (overwrite Geometry fc m)))
      (flat_map
         (fun f =>
            match filter (fun r => String.eqb (branchid f) (id (fst (fst r))))
                         (assign_result Geometry intersect frictions) with
            | [] => [ {| m_branchid := branchid f;
                         m_frictiontype := frictiontype f;
                         m_functiontype := functiontype f;
                         m_numlocations := numlocations f;
                         m_chainage := chainage f;
                         m_frictionvalues := frictionvalues f;
                         m_joined := None |} ]
            | rs => map (fun r => {| m_branchid := branchid f;
                                     m_frictiontype := frictiontype f;
                                     m_functiontype := functiontype f;
                                     m_numlocations := numlocations f;
                                     m_chainage := chainage f;
                                     m_frictionvalues := frictionvalues f;
                                     m_joined := Some r |}) rs
            end) l)
    = flat_map
        (fun f =>
           match filter (fun bs => String.eqb (branchid f) (id (fst bs)))
                        intersect with
           | [] =>
               [ {| branchid := branchid f; frictiontype := frictiontype f;
                    functiontype := functiontype f;
                    numlocations := numlocations f;
                    chainage := list_if_int (chainage f);
                    frictionvalues := list_if_float (frictionvalues f) |} ]
           | ms =>
               map (fun bs =>
                      {| branchid := branchid f;
                         frictiontype := frictiontype f;
                         functiontype := functiontype f;
                         numlocations := CNum (NInt 1);
                         chainage := CList [NInt 0];
                         frictionvalues :=
                           list_if_float
                             (CNum (if fc
                                    then astype_float (fricval (snd bs))
                                    else fricval (snd bs))) |})
                   ms
           end) l).
  { induction l as [|f l IH]; intros Hincl; [reflexivity|].
    cbn [flat_map]. rewrite map_app. rewrite IH
      by (intros x Hx; apply Hincl; right; exact Hx).
    f_equal. unfold assign_result.
    rewrite (BranchFacts.filter_map_comm
               (fun r : InModelRow Geometry =>
                  String.eqb (branchid f) (id (fst (fst r))))).
    cbn [fst].
    set (ms := filter (fun bs => String.eqb (branchid f) (id (fst bs)))
                      intersect).
    assert (Hms : forall bs, In bs ms ->
                    existsb (fun f' => String.eqb (id (fst bs)) (branchid f'))
                            frictions = true).
    { intros bs Hbs. apply filter_In in Hbs. destruct Hbs as [_ E].
      apply String.eqb_eq in E. apply existsb_exists. exists f.
      split; [apply Hincl; left; reflexivity|].
      rewrite E. apply String.eqb_refl. }
    clearbody ms. destruct ms as [|m ms]; [reflexivity|].
    cbn [map]. f_equal.
    - unfold overwrite. cbn [m_joined].
      rewrite (Hms m (or_introl eq_refl)). destruct m as [b sh]. reflexivity.
    - rewrite !map_map. apply map_ext_in. intros [b sh] Hin.
      unfold overwrite. cbn [m_joined].
      rewrite (Hms (b, sh) (or_intror Hin)). reflexivity. }
  apply Hgen. apply incl_refl.
Qed.

Lemma overlay_wipe_normal_form (key : string) (globals : list FrictGlobal)
  (frictions : list FrictBranch) :
  branch (snd (overlay_file Geometry intersect fricval_float true key globals
                 frictions))
  = filter
      (fun r => existsb (fun bs => String.eqb (branchid r) (id (fst bs)))
                        intersect)
      (branch (snd (overlay_file Geometry intersect fricval_float false key
                      globals frictions))).
Proof.
  unfold overlay_file. destruct frictions as [|f0 fs]; [reflexivity|].
  cbn [snd branch].
  rewrite (BranchFacts.filter_map_comm _ (to_record Geometry)).
  f_equal. apply filter_ext_in. intros x Hx.
  apply in_map_iff in Hx. destruct Hx as [y [<- Hy]].
  apply in_map_iff in Hy. destruct Hy as [m [<- Hm]].
  unfold merge_on_branchid in Hm. apply in_flat_map in Hm.
  destruct Hm as [f [Hf Hm]].
  match type of Hm with
  | context [filter ?p ?l] => remember (filter p l) as flt eqn:Eflt
  end.
  destruct flt as [|x xs].
  - destruct Hm as [<-|[]]. cbn.
    symmetry. apply not_true_is_false. intros H.
    apply existsb_exists in H. destruct H as [bs [Hbs E]].
    match type of Eflt with
    | _ = ?F =>
        assert (Hin : In (bs, existsb (fun f' => String.eqb (id (fst bs))
                                                            (branchid f'))
                                      (f0 :: fs)) F)
    end.
    { apply filter_In. split; [|exact E].
      unfold assign_result.
      apply (in_map (fun bs => (bs, existsb
                                      (fun f' => String.eqb (id (fst bs))
                                                            (branchid f'))
                                      (f0 :: fs)))). exact Hbs. }
    rewrite <- Eflt in Hin. destruct Hin.
  - rewrite Eflt in Hm. apply in_map_iff in Hm.
    destruct Hm as [r [<- Hr]]. apply filter_In in Hr.
    destruct Hr as [Hr E]. unfold assign_result in Hr.
    apply in_map_iff in Hr. destruct Hr as [bs [<- Hbs]].
    cbn [fst] in E.
    assert (Hflag : existsb (fun f' => String.eqb (id (fst bs)) (branchid f'))
                            (f0 :: fs) = true).
    { apply existsb_exists. exists f. split; [exact Hf|].
      apply String.eqb_eq in E. rewrite E. apply String.eqb_refl. }
    unfold result_true, to_lists, overwrite. cbn [m_joined].
    rewrite Hflag. destruct bs as [b sh]. cbn.
    symmetry. apply existsb_exists. exists (b, sh). auto.
Qed.

(** The value written for a joined feature: a one-element list when the
    [fricval] column is [float64] or the value is a [float], the bare
    [int] otherwise. *)
Lemma written_value_form (fc : bool) (v : Num) :
  list_if_float (CNum (if fc then astype_float v else v))
  = if fc || is_float v then CList [NFloat (num_value v)] else CNum v.
Proof. destruct fc, v; reflexivity. Qed.

(** A record of the friction file whose branch has a row in [intersect]
    is written once for that row, in both modes. *)
Lemma overlay_matched_written (wipe : bool) (key : string)
  (globals : list FrictGlobal) (frictions : list FrictBranch)
  (r : FrictBranch) (b : BranchLine Geometry) (s : FrictShape Geometry) :
  In r frictions -> In (b, s) intersect -> id b = branchid r ->
  In {| branchid := branchid r; frictiontype := frictiontype r;
        functiontype := functiontype r;
        numlocations := CNum (NInt 1);
        chainage := CList [NInt 0];
        frictionvalues :=
          list_if_float
            (CNum (if fricval_float
                      || existsb
                           (fun f =>
                              negb (existsb
                                      (fun bs => String.eqb (branchid f)
                                                            (id (fst bs)))
                                      intersect))
                           frictions
                   then astype_float (fricval s) else fricval s)) |}
     (branch (snd (overlay_file Geometry intersect fricval_float wipe key
                     globals frictions))).
Proof.
  intros Hr Hbs Hid.
  assert (Hkeep :
    In {| branchid := branchid r; frictiontype := frictiontype r;
          functiontype := functiontype r;
          numlocations := CNum (NInt 1);
          chainage := CList [NInt 0];
          frictionvalues :=
            list_if_float
              (CNum (if fricval_float
                        || existsb
                             (fun f =>
                                negb (existsb
                                        (fun bs => String.eqb (branchid f)
                                                              (id (fst bs)))
                                        intersect))
                             frictions
                     then astype_float (fricval s) else fricval s)) |}
       (branch (snd (overlay_file Geometry intersect fricval_float false key
                       globals frictions)))).
  { rewrite overlay_keep_normal_form. cbv zeta.
    apply in_flat_map. exists r. split; [exact Hr|].
    assert (Hin : In (b, s)
                     (filter (fun bs => String.eqb (branchid r) (id (fst bs)))
                             intersect)).
    { apply filter_In. split; [exact Hbs|]. cbn [fst]. rewrite Hid.
      apply String.eqb_refl. }
    destruct (filter (fun bs => String.eqb (branchid r) (id (fst bs)))
                     intersect) as [|m ms]; [destruct Hin|].
    apply (in_map
             (fun bs : BranchLine Geometry * FrictShape Geometry =>
                {| branchid := branchid r; frictiontype := frictiontype r;
                   functiontype := functiontype r;
                   numlocations := CNum (NInt 1);
                   chainage := CList [NInt 0];
                   frictionvalues :=
                     list_if_float
                       (CNum (if fricval_float
                                 || existsb
                                      (fun f =>
                                         negb (existsb
                                                 (fun bs' =>
                                                    String.eqb (branchid f)
                                                      (id (fst bs')))
                                                 intersect))
                                      frictions
                              then astype_float (fricval (snd bs))
                              else fricval (snd bs))) |})
             (m :: ms) (b, s) Hin). }
  destruct wipe; [|exact Hkeep].
  rewrite overlay_wipe_normal_form. apply filter_In. split; [exact Hkeep|].
  cbn [branchid]. apply existsb_exists. exists (b, s).
  split; [exact Hbs|]. cbn [fst]. rewrite Hid. apply String.eqb_refl.
Qed.

(** Conversely, every record written for a branch that has a row in
    [intersect] stems from a record of the friction file and a row of
    that branch. *)
Lemma overlay_written_matched (wipe : bool) (key : string)
  (globals : list FrictGlobal) (frictions : list FrictBranch)
  (w : FrictBranch) :
  In w (branch (snd (overlay_file Geometry intersect fricval_float wipe key
                       globals frictions))) ->
  (exists b s, In (b, s) intersect /\ id b = branchid w) ->
  exists r b s,
    In r frictions /\ In (b, s) intersect /\ id b = branchid r
    /\ w = {| branchid := branchid r; frictiontype := frictiontype r;
              functiontype := functiontype r;
              numlocations := CNum (NInt 1);
              chainage := CList [NInt 0];
              frictionvalues :=
                list_if_float
                  (CNum (if fricval_float
                            || existsb
                                 (fun f =>
                                    negb (existsb
                                            (fun bs =>
                                               String.eqb (branchid f)
                                                          (id (fst bs)))
                                            intersect))
                                 frictions
                         then astype_float (fricval s) else fricval s)) |}.
Proof.
  intros Hw [b0 [s0 [Hbs0 Hid0]]].
  assert (Hkeep : In w (branch (snd (overlay_file Geometry intersect
                                       fricval_float false key globals
                                       frictions)))).
  { destruct wipe; [|exact Hw].
    rewrite overlay_wipe_normal_form in Hw. apply filter_In in Hw.
    apply Hw. }
  clear Hw. rewrite overlay_keep_normal_form in Hkeep. cbv zeta in Hkeep.
  apply in_flat_map in Hkeep. destruct Hkeep as [r [Hr Hw]].
  destruct (filter (fun bs => String.eqb (branchid r) (id (fst bs)))
                   intersect) as [|m ms] eqn:Em.
  - exfalso. destruct Hw as [<-|[]]. cbn [branchid] in Hid0.
    assert (Hin : In (b0, s0)
                     (filter (fun bs => String.eqb (branchid r) (id (fst bs)))
                             intersect)).
    { apply filter_In. split; [exact Hbs0|]. cbn [fst]. rewrite Hid0.
      apply String.eqb_refl. }
    rewrite Em in Hin. destruct Hin.
  - apply in_map_iff in Hw. destruct Hw as [[b s] [<- Hin]].
    rewrite <- Em in Hin. apply filter_In in Hin. destruct Hin as [Hin E].
    cbn [fst] in E. apply String.eqb_eq in E.
    exists r, b, s. cbn [snd]. repeat split; auto.
Qed.


End OverlayMore.

Lemma filter_flat_map_key {A B} (key : A -> string) (keyB : B -> string)
  (G : A -> list B) :
  (forall a b, In b (G a) -> keyB b = key a) ->
  forall l, NoDup (map key l) ->
  forall a, In a l ->
    filter (fun b => String.eqb (keyB b) (key a)) (flat_map G l) = G a.
Proof.
  intros HG. induction l as [|x l IH]; intros Hnd a Ha; [destruct Ha|].
  cbn [map] in Hnd. inversion Hnd as [|? ? Hnot Hnd']; subst.
  cbn [flat_map]. rewrite filter_app.
  assert (Hother : forall l', (forall y, In y l' -> key y <> key a) ->
                     filter (fun b => String.eqb (keyB b) (key a))
                            (flat_map G l') = []).
  { intros l' Hl'. apply BranchFacts.filter_none. intros b Hb.
    apply in_flat_map in Hb. destruct Hb as [y [Hy Hb]].
    apply String.eqb_neq. rewrite (HG _ _ Hb). apply Hl'. exact Hy. }
  destruct Ha as [->|Ha].
  - rewrite BranchFacts.filter_all
      by (intros b Hb; apply String.eqb_eq; apply (HG _ _ Hb)).
    rewrite Hother; [apply app_nil_r|].
    intros y Hy E. apply Hnot. rewrite <- E. apply in_map. exact Hy.
  - rewrite BranchFacts.filter_none.
    + cbn [app]. apply IH; assumption.
    + intros b Hb. apply String.eqb_neq. rewrite (HG _ _ Hb).
      intros E. apply Hnot. rewrite E. apply in_map. exact Ha.
Qed.

Lemma mapM_wipe_independent {K V} (get : K -> result V)
  (F : bool -> K -> V -> string * FrictionModel) :
  forall (l : list K) (files : list (string * FrictionModel)),
    mapM (fun kv => g <- get kv ;; Ok (F true kv g)) l = Ok files ->
    exists files_k,
      mapM (fun kv => g <- get kv ;; Ok (F false kv g)) l = Ok files_k
      /\ Forall2 (fun fw fk => exists kv g, fw = F true kv g
                                            /\ fk = F false kv g)
                 files files_k.
Proof.
  induction l as [|kv l IH]; intros files H.
  - inversion H. exists []. split; [reflexivity | constructor].
  - cbn [mapM] in H.
    apply PyFacts.bind_ok_inv in H. destruct H as [x [Hx H]].
    apply PyFacts.bind_ok_inv in H. destruct H as [xs [Hxs H]].
    inversion H; subst files. clear H.
    apply PyFacts.bind_ok_inv in Hx. destruct Hx as [g [Hg Hx]].
    inversion Hx; subst x. clear Hx.
    destruct (IH _ Hxs) as [fk [Hfk HF]].
    exists (F false kv g :: fk). split.
    + cbn [mapM]. rewrite Hg. cbn [Py.bind]. rewrite Hfk. reflexivity.
    + constructor; [exists kv, g; auto | exact HF].
Qed.

(** X18.  [change_friction_shape] writes one file for each friction id:
    a friction file without global records makes the call fail with
    [IndexError]; otherwise it succeeds, the file names
    [roughness-<frictionid>.ini] are all different, every written file
    carries the global records of a friction file of the model whose first
    global record has that id, and every such id has its file. *)
Theorem friction_files_one_per_friction_id :
  forall (Geometry : Type)
         (sjoin_nearest :
            list (BranchLine Geometry) -> list (FrictShape Geometry) -> Q ->
            list (BranchLine Geometry * FrictShape Geometry))
         (frictfile : list FrictionModel)
         (branches : list (BranchLine Geometry))
         (gdf_frict : list (FrictShape Geometry)) (wipe : bool),
    ((exists f, In f frictfile /\ global_ f = []) ->
     change_friction_shape Geometry sjoin_nearest frictfile branches
       gdf_frict wipe
     = Raise (IndexError "list index out of range"))
    /\ (Forall (fun f => global_ f <> []) frictfile ->
        exists files,
          change_friction_shape Geometry sjoin_nearest frictfile branches
            gdf_frict wipe = Ok files
          /\ NoDup (map fst files)
          /\ (forall path model,
                 In (path, model) files ->
                 exists f g0 gs,
                   In f frictfile /\ global_ f = g0 :: gs
                   /\ path = ("roughness-" ++ g_frictionid g0 ++ ".ini")%string
                   /\ global_ model = global_ f)
          /\ (forall f g0 gs,
                 In f frictfile -> global_ f = g0 :: gs ->
                 In ("roughness-" ++ g_frictionid g0 ++ ".ini")%string
                    (map fst files))).
Proof.
  intros Geometry sjoin_nearest frictfile branches gdf_frict wipe. split.
  - intros H. unfold change_friction_shape, friction2dict.
    rewrite (friction2dict_loop_fail _ _ _ H). reflexivity.
  - intros Hne.
    destruct (change_friction_shape_total Geometry sjoin_nearest frictfile
                branches gdf_frict wipe Hne) as [files Hrun].
    exists files. split; [exact Hrun|].
    destruct (change_friction_shape_inv _ _ _ _ _ _ _ Hrun)
      as [dicts [_ [Hnd [Hkeys HF]]]].
    assert (Hpaths : map fst files
                     = map (fun k => ("roughness-" ++ k ++ ".ini")%string)
                           (map fst (snd dicts))).
    { clear Hnd Hkeys Hrun.
      induction HF as [|kv x l r Hx H IH]; [reflexivity|].
      cbn [map]. rewrite IH. f_equal.
      destruct Hx as [f [g0 [gs [_ [_ [E [_ ->]]]]]]].
      rewrite overlay_file_path, E. reflexivity. }
    split; [|split].
    + rewrite Hpaths. clear Hpaths Hkeys HF.
      induction (map fst (snd dicts)) as [|k ks IH]; [constructor|].
      inversion Hnd as [|? ? Hnot Hnd']; subst. cbn [map]. constructor.
      * intros Hin. apply in_map_iff in Hin. destruct Hin as [k' [E Hk']].
        apply path_inj in E. subst k'. contradiction.
      * apply IH. exact Hnd'.
    + intros path model Hin.
      destruct (written_file_origin _ _ _ _ _ _ _ _ Hrun Hin)
        as [f [g0 [gs [Hf [Hg E]]]]].
      exists f, g0, gs. split; [exact Hf|]. split; [exact Hg|].
      pose proof (f_equal fst E) as E1. pose proof (f_equal snd E) as E2.
      cbn [fst snd] in E1, E2. rewrite overlay_file_path in E1.
      split; [exact E1|]. rewrite E2. apply overlay_file_globals.
    + intros f g0 gs Hf Hg. rewrite Hpaths.
      apply (in_map (fun k => ("roughness-" ++ k ++ ".ini")%string)).
      eapply Hkeys; eauto.
Qed.

Lemma friction_files_one_per_friction_id_witness :
  exists files,
    change_friction_shape Z join_within [channels_file] example_branches
      example_shapes false = Ok files
    /\ NoDup (map fst files)
    /\ In "roughness-Channels.ini" (map fst files).
Proof.
  destruct (proj2 (friction_files_one_per_friction_id Z join_within
                     [channels_file] example_branches example_shapes false))
    as [files [Hrun [Hnd [_ Hall]]]].
  - repeat constructor. discriminate.
  - exists files. split; [exact Hrun|]. split; [exact Hnd|].
    apply (Hall channels_file _ _ (or_introl eq_refl) eq_refl).
Defined.

(** X19.  Without [wipe] no branch is lost.  Every written file comes
    from a friction file of the model; a record of that file whose branch
    is joined to no feature of the shapefile is written with its own
    values (a scalar [float] friction value or [int] chainage wrapped in a
    list); the branches with a record in the written file are exactly the
    branches with a record in the friction file, and every written record
    keeps the friction and function type of a record of its branch. *)
Theorem overlay_keep_mode_loses_no_branch :
  forall (Geometry : Type)
         (sjoin_nearest :
            list (BranchLine Geometry) -> list (FrictShape Geometry) -> Q ->
            list (BranchLine Geometry * FrictShape Geometry))
         (frictfile : list FrictionModel)
         (branches : list (BranchLine Geometry))
         (gdf_frict : list (FrictShape Geometry))
         (files : list (string * FrictionModel))
         (path : string) (model : FrictionModel),
    change_friction_shape Geometry sjoin_nearest frictfile branches gdf_frict
      false = Ok files ->
    In (path, model) files ->
    exists f g0 gs,
      In f frictfile /\ global_ f = g0 :: gs
      /\ path = ("roughness-" ++ g_frictionid g0 ++ ".ini")%string
      /\ (forall r,
             In r (branch f) ->
             (forall bs, In bs (sjoin_nearest branches gdf_frict buffer) ->
                         id (fst bs) <> branchid r) ->
             In {| branchid := branchid r; frictiontype := frictiontype r;
                   functiontype := functiontype r;
                   numlocations := numlocations r;
                   chainage := list_if_int (chainage r);
                   frictionvalues := list_if_float (frictionvalues r) |}
                (branch model))
      /\ (forall r, In r (branch f) ->
                    In (branchid r) (map branchid (branch model)))
      /\ (forall r', In r' (branch model) ->
            exists r, In r (branch f) /\ branchid r' = branchid r
                      /\ frictiontype r' = frictiontype r
                      /\ functiontype r' = functiontype r).
Proof.
  intros Geometry sjoin_nearest frictfile branches gdf_frict files path model
         Hrun Hin.
  destruct (written_file_origin _ _ _ _ _ _ _ _ Hrun Hin)
    as [f [g0 [gs [Hf [Hg E]]]]].
  exists f, g0, gs. split; [exact Hf|]. split; [exact Hg|].
  pose proof (f_equal fst E) as E1. pose proof (f_equal snd E) as E2.
  cbn [fst snd] in E1, E2. rewrite overlay_file_path in E1.
  split; [exact E1|]. rewrite E2, overlay_keep_normal_form.
  set (intersect := sjoin_nearest branches gdf_frict buffer).
  split; [|split].
  - intros r Hr Hno. apply in_flat_map. exists r. split; [exact Hr|].
    rewrite BranchFacts.filter_none; [left; reflexivity|].
    intros bs Hbs. apply String.eqb_neq. intros Eid.
    apply (Hno bs Hbs). symmetry. exact Eid.
  - intros r Hr. apply in_map_iff.
    destruct (filter (fun bs => String.eqb (branchid r) (id (fst bs)))
                     intersect) as [|m ms] eqn:Em.
    + eexists. split; [|apply in_flat_map; exists r; split; [exact Hr|];
                         rewrite Em; left; reflexivity].
      reflexivity.
    + eexists. split; [|apply in_flat_map; exists r; split; [exact Hr|];
                         rewrite Em; left; reflexivity].
      reflexivity.
  - intros r' Hr'. apply in_flat_map in Hr'. destruct Hr' as [r [Hr Hr']].
    exists r. split; [exact Hr|].
    destruct (filter (fun bs => String.eqb (branchid r) (id (fst bs)))
                     intersect) as [|m ms].
    + destruct Hr' as [<-|[]]. auto.
    + apply in_map_iff in Hr'. destruct Hr' as [bs [<- _]]. auto.
Qed.

Lemma overlay_keep_mode_loses_no_branch_witness :
  exists files model,
    change_friction_shape Z join_within [channels_file] example_branches
      example_shapes false = Ok files
    /\ In ("roughness-Channels.ini", model) files
    /\ In "channel_1" (map branchid (branch model))
    /\ In "channel_2" (map branchid (branch model)).
Proof.
  exists [("roughness-Channels.ini", channels_file_overlaid)],
         channels_file_overlaid.
  split; [vm_compute; reflexivity|]. split; [left; reflexivity|].
  destruct (overlay_keep_mode_loses_no_branch Z join_within [channels_file]
              example_branches example_shapes
              [("roughness-Channels.ini", channels_file_overlaid)]
              "roughness-Channels.ini" channels_file_overlaid
              eq_refl (or_introl eq_refl))
    as [f [g0 [gs [Hf [_ [_ [_ [Hall _]]]]]]]].
  destruct Hf as [<-|[]].
  split.
  - apply (Hall (nth 0 (branch channels_file) channel_1_overlaid)).
    left. reflexivity.
  - apply (Hall (nth 1 (branch channels_file) channel_1_overlaid)).
    right. left. reflexivity.
Defined.

(** X20.  With [wipe] the call writes the same files as without, each
    reduced to the records whose branch is joined to a feature of the
    shapefile: the records of all other branches are gone, and without
    any joined branch every written file is left without branch
    records. *)
Theorem overlay_wipe_mode_keeps_joined_only :
  forall (Geometry : Type)
         (sjoin_nearest :
            list (BranchLine Geometry) -> list (FrictShape Geometry) -> Q ->
            list (BranchLine Geometry * FrictShape Geometry))
         (frictfile : list FrictionModel)
         (branches : list (BranchLine Geometry))
         (gdf_frict : list (FrictShape Geometry))
         (files : list (string * FrictionModel)),
    change_friction_shape Geometry sjoin_nearest frictfile branches gdf_frict
      true = Ok files ->
    exists files_k,
      change_friction_shape Geometry sjoin_nearest frictfile branches
        gdf_frict false = Ok files_k
      /\ Forall2
           (fun fw fk =>
              fst fw = fst fk
              /\ global_ (snd fw) = global_ (snd fk)
              /\ branch (snd fw)
                 = filter
                     (fun r =>
                        existsb
                          (fun bs => String.eqb (branchid r) (id (fst bs)))
                          (sjoin_nearest branches gdf_frict buffer))
                     (branch (snd fk)))
           files files_k
      /\ (forall path model r,
             In (path, model) files -> In r (branch model) ->
             exists bs, In bs (sjoin_nearest branches gdf_frict buffer)
                        /\ id (fst bs) = branchid r)
      /\ (sjoin_nearest branches gdf_frict buffer = [] ->
          forall path model, In (path, model) files -> branch model = []).
Proof.
  intros Geometry sjoin_nearest frictfile branches gdf_frict files Hrun.
  unfold change_friction_shape in *.
  destruct (friction2dict frictfile) as [dicts|e]; [|discriminate].
  cbn [Py.bind] in *.
  destruct (mapM_wipe_independent
              (fun kv : string * list FrictBranch =>
                 dict_get (fst kv) (fst dicts))
              (fun wipe kv globals =>
                 overlay_file Geometry (sjoin_nearest branches gdf_frict buffer)
                   (existsb (fun s => is_float (fricval s)) gdf_frict)
                   wipe (fst kv) globals (snd kv))
              (snd dicts) files Hrun) as [files_k [Hk HF]].
  exists files_k. split; [exact Hk|].
  assert (HF' : Forall2
           (fun fw fk =>
              fst fw = fst fk
              /\ global_ (snd fw) = global_ (snd fk)
              /\ branch (snd fw)
                 = filter
                     (fun r =>
                        existsb
                          (fun bs => String.eqb (branchid r) (id (fst bs)))
                          (sjoin_nearest branches gdf_frict buffer))
                     (branch (snd fk)))
           files files_k).
  { eapply Forall2_impl; [|exact HF].
    intros fw fk [kv [g [-> ->]]].
    rewrite !overlay_file_path, !overlay_file_globals.
    split; [reflexivity|]. split; [reflexivity|].
    apply overlay_wipe_normal_form. }
  split; [exact HF'|].
  assert (Hjoined : forall path model r,
             In (path, model) files -> In r (branch model) ->
             exists bs, In bs (sjoin_nearest branches gdf_frict buffer)
                        /\ id (fst bs) = branchid r).
  { clear Hrun Hk HF. intros path model r Hin Hr.
    induction HF' as [|fw fk l1 l2 [_ [_ Hb]] _ IH]; [destruct Hin|].
    destruct Hin as [->|Hin]; [|exact (IH Hin)].
    cbn [snd] in Hb. rewrite Hb in Hr. apply filter_In in Hr.
    destruct Hr as [_ Hr]. apply existsb_exists in Hr.
    destruct Hr as [bs [Hbs E]]. exists bs. split; [exact Hbs|].
    apply String.eqb_eq in E. auto. }
  split; [exact Hjoined|].
  intros Hempty path model Hin.
  destruct (branch model) as [|r rs] eqn:Eb; [reflexivity|].
  destruct (Hjoined path model r Hin) as [bs [Hbs _]].
  - rewrite Eb. left. reflexivity.
  - rewrite Hempty in Hbs. destruct Hbs.
Qed.

Lemma overlay_wipe_mode_keeps_joined_only_witness :
  exists files,
    change_friction_shape Z join_within [channels_file] example_branches
      example_shapes true = Ok files
    /\ forall path model r,
         In (path, model) files -> In r (branch model) ->
         exists bs, In bs (join_within example_branches example_shapes buffer)
                    /\ id (fst bs) = branchid r.
Proof.
  eexists. split; [vm_compute; reflexivity|].
  destruct (overlay_wipe_mode_keeps_joined_only Z join_within [channels_file]
              example_branches example_shapes _ eq_refl)
    as [files_k [_ [_ [H _]]]].
  exact H.
Defined.

(** X21.  One record is written for every joined feature.  Without
    [wipe], and with one record for each branch in a friction file, the
    written file holds for a branch joined to [k >= 1] rows of the
    nearest-join exactly [k] records, and exactly one record for a branch
    that is not joined: a branch with several rows in the nearest-join
    gets as many records with the same [branchid]. *)
Theorem overlay_one_record_per_joined_feature :
  forall (Geometry : Type)
         (sjoin_nearest :
            list (BranchLine Geometry) -> list (FrictShape Geometry) -> Q ->
            list (BranchLine Geometry * FrictShape Geometry))
         (frictfile : list FrictionModel)
         (branches : list (BranchLine Geometry))
         (gdf_frict : list (FrictShape Geometry))
         (files : list (string * FrictionModel))
         (path : string) (model : FrictionModel),
    change_friction_shape Geometry sjoin_nearest frictfile branches gdf_frict
      false = Ok files ->
    In (path, model) files ->
    exists f,
      In f frictfile
      /\ global_ model = global_ f
      /\ (NoDup (map branchid (branch f)) ->
          forall r, In r (branch f) ->
            List.length
              (filter (fun r' => String.eqb (branchid r') (branchid r))
                      (branch model))
            = Nat.max 1
                (List.length
                   (filter (fun bs => String.eqb (branchid r) (id (fst bs)))
                           (sjoin_nearest branches gdf_frict buffer)))).
Proof.
  intros Geometry sjoin_nearest frictfile branches gdf_frict files path model
         Hrun Hin.
  destruct (written_file_origin _ _ _ _ _ _ _ _ Hrun Hin)
    as [f [g0 [gs [Hf [Hg E]]]]].
  exists f. split; [exact Hf|].
  pose proof (f_equal snd E) as E2. cbn [snd] in E2. rewrite E2.
  split; [apply overlay_file_globals|].
  intros Hnd r Hr. rewrite overlay_keep_normal_form.
  rewrite (filter_flat_map_key branchid branchid _); try assumption.
  2:{ intros a b Hb.
      destruct (filter (fun bs => String.eqb (branchid a) (id (fst bs)))
                       (sjoin_nearest branches gdf_frict buffer)).
      - destruct Hb as [<-|[]]. reflexivity.
      - apply in_map_iff in Hb. destruct Hb as [bs [<- _]]. reflexivity. }
  destruct (filter (fun bs => String.eqb (branchid r) (id (fst bs)))
                   (sjoin_nearest branches gdf_frict buffer)) as [|m ms].
  - reflexivity.
  - rewrite length_map. cbn [List.length]. lia.
Qed.

Lemma overlay_one_record_per_joined_feature_witness :
  List.length
    (filter (fun r' => String.eqb (branchid r') "channel_1")
            (branch channels_file_overlaid))
  = Nat.max 1
      (List.length
         (filter (fun bs : BranchLine Z * FrictShape Z =>
                    String.eqb "channel_1" (id (fst bs)))
                 (join_within example_branches example_shapes buffer))).
Proof.
  destruct (overlay_one_record_per_joined_feature Z join_within
              [channels_file] example_branches example_shapes
              [("roughness-Channels.ini", channels_file_overlaid)]
              "roughness-Channels.ini" channels_file_overlaid
              eq_refl (or_introl eq_refl))
    as [f [Hf [_ H]]].
  destruct Hf as [<-|[]].
  apply (H ltac:(repeat constructor; simpl; intuition discriminate)
           (hd channel_1_overlaid (branch channels_file))).
  left. reflexivity.
Defined.

Lemma readback_cells (w w' : FrictBranch) :
  same_values w w' ->
  cell_eqb (numlocations w') (numlocations w) = true
  /\ cell_eqb (chainage w') (chainage w) = true
  /\ cell_eqb (frictionvalues w') (frictionvalues w) = true.
Proof.
  intros [_ [H1 [H2 H3]]].
  rewrite (FrictionFacts.cell_eqb_sym (numlocations w')),
          (FrictionFacts.cell_eqb_sym (chainage w')),
          (FrictionFacts.cell_eqb_sym (frictionvalues w')).
  auto.
Qed.

(** C7.  [change_friction_shape] on a model whose friction files all have
    a global record succeeds, and for either value of [wipe]:
    with distinct friction ids, every record [r] of a friction file
    whose branch has a row [(b, s)] in the nearest-join with buffer 10
    has a record in the written file [roughness-<frictionId>.ini] with
    the same [branchid], [numlocations] 1 and [chainage] [[0]], and a
    reader that returns the written records with equal values returns
    such a record; every record written (and read back) for a branch
    with a row in the join has these values for a row of its branch.
    Its [frictionvalues] is the one-element list of the feature's
    [fricval] when the [fricval] column is a float column (a feature of
    the shapefile has a float value, or a record of the friction file
    is joined to no feature, which puts not-a-number into the merged
    column); when [fricval] is an integer column and every record of
    the friction file is joined, it is the bare integer, not a list. *)
Theorem overlay_writes_branch_constant_friction :
  forall (Geometry : Type)
         (sjoin_nearest :
            list (BranchLine Geometry) -> list (FrictShape Geometry) -> Q ->
            list (BranchLine Geometry * FrictShape Geometry))
         (File : Type) (save : FrictionModel -> File)
         (load : File -> FrictionModel)
         (frictfile : list FrictionModel)
         (branches : list (BranchLine Geometry))
         (gdf_frict : list (FrictShape Geometry)) (wipe : bool),
    (forall m, Forall2 same_values (branch m) (branch (load (save m)))) ->
    Forall (fun f => global_ f <> []) frictfile ->
    exists files,
      change_friction_shape Geometry sjoin_nearest frictfile branches
        gdf_frict wipe = Ok files
      /\ (NoDup (map (fun f => map g_frictionid (firstn 1 (global_ f)))
                     frictfile) ->
          forall f g0 gs r b s,
            In f frictfile -> global_ f = g0 :: gs ->
            In r (branch f) ->
            In (b, s) (sjoin_nearest branches gdf_frict buffer) ->
            id b = branchid r ->
            exists model w w',
              In (("roughness-" ++ g_frictionid g0 ++ ".ini")%string, model)
                 files
              /\ In w (branch model)
              /\ branchid w = branchid r
              /\ numlocations w = CNum (NInt 1)
              /\ chainage w = CList [NInt 0]
              /\ frictionvalues w
                 = (if (existsb (fun s' => is_float (fricval s')) gdf_frict
                     || existsb
                          (fun r' =>
                             negb (existsb
                                     (fun bs => String.eqb (branchid r')
                                                           (id (fst bs)))
                                     (sjoin_nearest branches gdf_frict
                                        buffer)))
                          (branch f))
                     || is_float (fricval s)
                  then CList [NFloat (num_value (fricval s))]
                  else CNum (fricval s))
              /\ In w' (branch (load (save model)))
              /\ same_values w w'
              /\ cell_eqb (numlocations w') (CNum (NInt 1)) = true
              /\ cell_eqb (chainage w') (CList [NInt 0]) = true
              /\ cell_eqb (frictionvalues w')
                   (if (existsb (fun s' => is_float (fricval s')) gdf_frict
                     || existsb
                          (fun r' =>
                             negb (existsb
                                     (fun bs => String.eqb (branchid r')
                                                           (id (fst bs)))
                                     (sjoin_nearest branches gdf_frict
                                        buffer)))
                          (branch f))
                     || is_float (fricval s)
                  then CList [NFloat (num_value (fricval s))]
                  else CNum (fricval s))
                 = true)
      /\ (forall path model,
            In (path, model) files ->
            exists f g0 gs,
              In f frictfile /\ global_ f = g0 :: gs
              /\ path = ("roughness-" ++ g_frictionid g0 ++ ".ini")%string
              /\ (forall w,
                    In w (branch model) ->
                    (exists b s,
                        In (b, s) (sjoin_nearest branches gdf_frict buffer)
                        /\ id b = branchid w) ->
                    exists b s,
                      In (b, s) (sjoin_nearest branches gdf_frict buffer)
                      /\ id b = branchid w
                      /\ numlocations w = CNum (NInt 1)
                      /\ chainage w = CList [NInt 0]
                      /\ frictionvalues w
                         = (if (existsb (fun s' => is_float (fricval s')) gdf_frict
                     || existsb
                          (fun r' =>
                             negb (existsb
                                     (fun bs => String.eqb (branchid r')
                                                           (id (fst bs)))
                                     (sjoin_nearest branches gdf_frict
                                        buffer)))
                          (branch f))
                     || is_float (fricval s)
                  then CList [NFloat (num_value (fricval s))]
                  else CNum (fricval s)))
              /\ (forall w',
                    In w' (branch (load (save model))) ->
                    (exists b s,
                        In (b, s) (sjoin_nearest branches gdf_frict buffer)
                        /\ id b = branchid w') ->
                    exists b s,
                      In (b, s) (sjoin_nearest branches gdf_frict buffer)
                      /\ id b = branchid w'
                      /\ cell_eqb (numlocations w') (CNum (NInt 1)) = true
                      /\ cell_eqb (chainage w') (CList [NInt 0]) = true
                      /\ cell_eqb (frictionvalues w')
                           (if (existsb (fun s' => is_float (fricval s')) gdf_frict
                     || existsb
                          (fun r' =>
                             negb (existsb
                                     (fun bs => String.eqb (branchid r')
                                                           (id (fst bs)))
                                     (sjoin_nearest branches gdf_frict
                                        buffer)))
                          (branch f))
                     || is_float (fricval s)
                  then CList [NFloat (num_value (fricval s))]
                  else CNum (fricval s))
                         = true)).
Proof.
  intros Geometry sjoin_nearest File save load frictfile branches gdf_frict
         wipe Hround Hne.
  destruct (change_friction_shape_total Geometry sjoin_nearest frictfile
              branches gdf_frict wipe Hne) as [files Hrun].
  exists files. split; [exact Hrun|]. split.
  - intros Hids f g0 gs r b s Hf Hg Hr Hbs Hid.
    destruct (change_friction_shape_inv _ _ _ _ _ _ _ Hrun)
      as [dicts [Hd [_ [_ HF]]]].
    unfold friction2dict in Hd.
    pose proof (friction2dict_loop_entry _ _ _ _ Hd Hids f g0 gs Hf Hg)
      as Hentry.
    destruct (Forall2_In_left _ _ _ HF _ Hentry)
      as [file [Hfile [f' [g0' [gs' [_ [_ [E1 [E2 Efile]]]]]]]]].
    cbn [fst snd] in E1, E2. rewrite <- E1, <- E2 in Efile.
    pose proof (overlay_matched_written Geometry
                  (sjoin_nearest branches gdf_frict buffer)
                  (existsb (fun s' => is_float (fricval s')) gdf_frict)
                  wipe (g_frictionid g0) (global_ f') (branch f) r b s
                  Hr Hbs Hid) as Hw.
    rewrite written_value_form in Hw. rewrite <- Efile in Hw.
    destruct (Forall2_In_left _ _ _ (Hround (snd file)) _ Hw)
      as [w' [Hw' Hsame]].
    destruct (readback_cells _ _ Hsame) as [C1 [C2 C3]].
    cbn [numlocations chainage frictionvalues] in C1, C2, C3.
    eexists (snd file), _, w'.
    split.
    { replace ("roughness-" ++ g_frictionid g0 ++ ".ini")%string
        with (fst file)
        by (rewrite Efile; apply overlay_file_path).
      rewrite <- surjective_pairing. exact Hfile. }
    split; [exact Hw|].
    repeat (split; [reflexivity|]).
    split; [exact Hw'|]. split; [exact Hsame|].
    split; [exact C1|]. split; [exact C2 | exact C3].
  - intros path model Hin.
    destruct (written_file_origin _ _ _ _ _ _ _ _ Hrun Hin)
      as [f [g0 [gs [Hf [Hg E]]]]].
    exists f, g0, gs. split; [exact Hf|]. split; [exact Hg|].
    pose proof (f_equal fst E) as E1. pose proof (f_equal snd E) as E2.
    cbn [fst snd] in E1, E2. rewrite overlay_file_path in E1.
    split; [exact E1|].
    assert (Hwritten : forall w,
              In w (branch model) ->
              (exists b s,
                  In (b, s) (sjoin_nearest branches gdf_frict buffer)
                  /\ id b = branchid w) ->
              exists b s,
                In (b, s) (sjoin_nearest branches gdf_frict buffer)
                /\ id b = branchid w
                /\ numlocations w = CNum (NInt 1)
                /\ chainage w = CList [NInt 0]
                /\ frictionvalues w
                   = (if (existsb (fun s' => is_float (fricval s')) gdf_frict
                     || existsb
                          (fun r' =>
                             negb (existsb
                                     (fun bs => String.eqb (branchid r')
                                                           (id (fst bs)))
                                     (sjoin_nearest branches gdf_frict
                                        buffer)))
                          (branch f))
                     || is_float (fricval s)
                  then CList [NFloat (num_value (fricval s))]
                  else CNum (fricval s))).
    { intros w Hw Hmatch. rewrite E2 in Hw.
      destruct (overlay_written_matched _ _ _ _ _ _ _ _ Hw Hmatch)
        as [r [b [s [_ [Hbs [Hid ->]]]]]].
      exists b, s. cbn [branchid numlocations chainage frictionvalues].
      rewrite written_value_form. auto. }
    split; [exact Hwritten|].
    intros w' Hw' [b0 [s0 [Hbs0 Hid0]]].
    destruct (Forall2_In_right _ _ _ (Hround model) _ Hw')
      as [w [Hw Hsame]].
    destruct (Hwritten w Hw) as [b [s [Hbs [Hid [V1 [V2 V3]]]]]].
    { exists b0, s0. split; [exact Hbs0|].
      rewrite Hid0. symmetry. apply Hsame. }
    destruct (readback_cells _ _ Hsame) as [C1 [C2 C3]].
    rewrite V1 in C1. rewrite V2 in C2. rewrite V3 in C3.
    exists b, s. split; [exact Hbs|].
    split; [rewrite Hid; apply Hsame|]. auto.
Qed.

Lemma overlay_writes_branch_constant_friction_witness :
  (exists files model w,
      change_friction_shape Z join_within [channels_file] example_branches
        example_shapes true = Ok files
      /\ In ("roughness-Channels.ini", model) files
      /\ In w (branch model)
      /\ branchid w = "channel_1"
      /\ numlocations w = CNum (NInt 1)
      /\ chainage w = CList [NInt 0]
      /\ frictionvalues w = CList [NFloat (5 # 100)])
  /\ (exists files model w,
         change_friction_shape Z join_within [channel_1_file]
           example_branches example_shapes_int false = Ok files
         /\ In ("roughness-Channels.ini", model) files
         /\ In w (branch model)
         /\ branchid w = "channel_1"
         /\ numlocations w = CNum (NInt 1)
         /\ chainage w = CList [NInt 0]
         /\ frictionvalues w = CNum (NInt 30)).
Proof.
  assert (Hround : forall m : FrictionModel,
             Forall2 same_values (branch m) (branch m)).
  { intros m. induction (branch m) as [|r l IH]; constructor;
      [apply FrictionFacts.same_values_refl | exact IH]. }
  split.
  - destruct (overlay_writes_branch_constant_friction Z join_within
                FrictionModel (fun m => m) (fun m => m) [channels_file]
                example_branches example_shapes true Hround)
      as [files [Hrun [HA _]]].
    { repeat constructor. discriminate. }
    destruct (HA ltac:(repeat constructor; intros [])
                 channels_file _ _
                 (nth 0 (branch channels_file) channel_1_overlaid)
                 {| id := "channel_1"; branch_geometry := 0%Z |}
                 {| fricval := NFloat (5 # 100); shape_geometry := 3%Z |}
                 (or_introl eq_refl) eq_refl (or_introl eq_refl)
                 (or_introl eq_refl) eq_refl)
      as [model [w [w' [Hm [Hw [Hid [Hn [Hc [Hv _]]]]]]]]].
    exists files, model, w. repeat split; assumption.
  - destruct (overlay_writes_branch_constant_friction Z join_within
                FrictionModel (fun m => m) (fun m => m) [channel_1_file]
                example_branches example_shapes_int false Hround)
      as [files [Hrun [HA _]]].
    { repeat constructor. discriminate. }
    destruct (HA ltac:(repeat constructor; intros [])
                 channel_1_file _ _
                 (nth 0 (branch channels_file) channel_1_overlaid)
                 {| id := "channel_1"; branch_geometry := 0%Z |}
                 {| fricval := NInt 30; shape_geometry := 3%Z |}
                 (or_introl eq_refl) eq_refl (or_introl eq_refl)
                 (or_introl eq_refl) eq_refl)
      as [model [w [w' [Hm [Hw [Hid [Hn [Hc [Hv _]]]]]]]]].
    exists files, model, w. repeat split; assumption.
Defined.

End FrictionMoreFacts.



(** ** More on the statistics export *)

Module StatisticsMoreFacts.

Import Statistics.
Local Open Scope Z_scope.
Local Open Scope list_scope.

(** X22.  The time filter of [statistics_dhydro] is never applied.  The
    guards [sdate > edata] and [edate < sdata] compare a [str] with a
    [Timestamp] of the index, which raises [TypeError]: on a data frame
    with time steps a non-empty [sdate] makes the call fail with the
    [TypeError] of [>], and an empty [sdate] with a non-empty [edate]
    with the [TypeError] of [<]; a call that returns a table was made
    with both dates empty and computed it from the unfiltered data
    frame. *)
Theorem date_arguments_raise_type_error :
  forall (Geometry : Type) (series_std : Series -> option Q)
         (ds : Dataset Geometry) (par sdate edate extension stat : string),
    In par (variables ds) ->
    index (read_nc_data ds) <> [] ->
    (sdate <> "" ->
     statistics_dhydro Geometry series_std str_gt_timestamp str_lt_timestamp
       ds par sdate edate extension stat
     = Raise (TypeError
                "'>' not supported between instances of 'str' and 'Timestamp'"))
    /\ (sdate = "" -> edate <> "" ->
        statistics_dhydro Geometry series_std str_gt_timestamp
          str_lt_timestamp ds par sdate edate extension stat
        = Raise (TypeError
                   "'<' not supported between instances of 'str' and 'Timestamp'"))
    /\ (forall df,
           filter_time str_gt_timestamp str_lt_timestamp (read_nc_data ds)
             sdate edate = Ok df <->
           sdate = "" /\ edate = "" /\ df = read_nc_data ds)
    /\ (forall rows,
           statistics_dhydro Geometry series_std str_gt_timestamp
             str_lt_timestamp ds par sdate edate extension stat = Ok rows ->
           sdate = "" /\ edate = "").
Proof.
  intros Geometry series_std ds par sdate edate extension stat Hpar Hidx.
  assert (Hp : negb (existsb (String.eqb par) (variables ds)) = false).
  { apply negb_false_iff. apply existsb_exists. exists par.
    split; [exact Hpar | apply String.eqb_refl]. }
  assert (Hft :
    filter_time str_gt_timestamp str_lt_timestamp (read_nc_data ds) sdate
      edate
    = if String.eqb sdate "" then
        if String.eqb edate "" then Ok (read_nc_data ds)
        else Raise (TypeError
               "'<' not supported between instances of 'str' and 'Timestamp'")
      else Raise (TypeError
             "'>' not supported between instances of 'str' and 'Timestamp'")).
  { unfold filter_time, min_index, max_index.
    destruct (index (read_nc_data ds)) as [|i0 idx]; [contradiction|].
    cbn [Py.bind]. destruct (String.eqb sdate ""); [|reflexivity].
    cbn [Py.bind]. destruct (String.eqb edate ""); reflexivity. }
  split; [|split; [|split]].
  - intros Hs. apply String.eqb_neq in Hs.
    unfold statistics_dhydro. rewrite Hp, Hft, Hs. reflexivity.
  - intros -> He. apply String.eqb_neq in He.
    unfold statistics_dhydro. rewrite Hp, Hft, He. reflexivity.
  - intros df. rewrite Hft.
    destruct (String.eqb_spec sdate "") as [Es|Es];
      [destruct (String.eqb_spec edate "") as [Ee|Ee]|].
    + split; [intros H; inversion H; auto | intros [_ [_ ->]]; reflexivity].
    + split; [discriminate | intros [_ [E _]]; contradiction].
    + split; [discriminate | intros [E _]; contradiction].
  - intros rows H. unfold statistics_dhydro in H. rewrite Hp, Hft in H.
    destruct (String.eqb_spec sdate "") as [Es|Es];
      [destruct (String.eqb_spec edate "") as [Ee|Ee]|];
      [auto | discriminate H | discriminate H].
Qed.

Lemma date_arguments_raise_type_error_witness :
  statistics_python_example "2020/01/01" "2020/01/01" "max"
  = Raise (TypeError
             "'>' not supported between instances of 'str' and 'Timestamp'")
  /\ statistics_python_example "" "2020/01/01" "max"
     = Raise (TypeError
                "'<' not supported between instances of 'str' and 'Timestamp'").
Proof.
  destruct (date_arguments_raise_type_error Z std_floor levels_dataset
              "mesh1d_s1" "2020/01/01" "2020/01/01" ".csv" "max")
    as [H1 _]; [left; reflexivity | discriminate |].
  destruct (date_arguments_raise_type_error Z std_floor levels_dataset
              "mesh1d_s1" "" "2020/01/01" ".csv" "max")
    as [_ [H2 _]]; [left; reflexivity | discriminate |].
  split; [apply H1; discriminate | apply H2; [reflexivity | discriminate]].
Defined.

(** X23.  The failures of [statistics_dhydro] that do not depend on the
    data: a parameter that is not a variable of the file raises the
    [ValueError] naming it, whatever the other arguments; a data frame
    without time steps raises the [ValueError] of [min] of an empty
    sequence; a mesh name that contains neither ["mesh2d"] nor ["mesh1d"]
    raises the [Exception] on the cell type once the time filter has
    passed; and with the extension [.tif] the call never returns a
    table. *)
Theorem statistics_failures :
  forall (Geometry : Type) (series_std : Series -> option Q)
         (str_gt str_lt : string -> Timestamp -> result bool)
         (ds : Dataset Geometry) (par sdate edate extension stat : string),
    (~ In par (variables ds) ->
     statistics_dhydro Geometry series_std str_gt str_lt ds par sdate edate
       extension stat
     = Raise (ValueError ("Parameter '" ++ par ++ "'niet in nc-file")))
    /\ (In par (variables ds) -> index (read_nc_data ds) = [] ->
        statistics_dhydro Geometry series_std str_gt str_lt ds par sdate
          edate extension stat
        = Raise (ValueError "min() arg is an empty sequence"))
    /\ (In par (variables ds) ->
        (exists df, filter_time str_gt str_lt (read_nc_data ds) sdate edate
                    = Ok df) ->
        contains "mesh2d" (Py.lower (par_mesh ds)) = false ->
        contains "mesh1d" (Py.lower (par_mesh ds)) = false ->
        statistics_dhydro Geometry series_std str_gt str_lt ds par sdate
          edate extension stat
        = Raise (Exception_ "Onbekende celsoort, check de code en waardes."))
    /\ (forall rows,
           statistics_dhydro Geometry series_std str_gt str_lt ds par sdate
             edate ".tif" stat <> Ok rows).
Proof.
  intros Geometry series_std str_gt str_lt ds par sdate edate extension stat.
  assert (Hin : forall b, existsb (String.eqb par) (variables ds) = b ->
                  if b then In par (variables ds)
                  else ~ In par (variables ds)).
  { intros [|] E.
    - apply existsb_exists in E. destruct E as [x [Hx E]].
      apply String.eqb_eq in E. subst x. exact Hx.
    - intros Hp. assert (existsb (String.eqb par) (variables ds) = true)
        by (apply existsb_exists; exists par; split;
            [exact Hp | apply String.eqb_refl]).
      congruence. }
  unfold statistics_dhydro.
  destruct (existsb (String.eqb par) (variables ds)) eqn:E;
    pose proof (Hin _ eq_refl) as Hp; cbn [negb];
    (split; [|split; [|split]]).
  - intros Hn. contradiction.
  - intros _ Hidx. unfold filter_time. rewrite Hidx. reflexivity.
  - intros _ [df Hdf] H2 H1. rewrite Hdf, H2, H1. reflexivity.
  - intros rows H.
    apply PyFacts.bind_ok_inv in H. destruct H as [df [_ H]].
    apply PyFacts.bind_ok_inv in H. destruct H as [nt [_ H]].
    apply PyFacts.bind_ok_inv in H. destruct H as [gdf [_ H]].
    destruct gdf; discriminate H.
  - intros _. reflexivity.
  - intros Hp'. contradiction.
  - intros Hp'. contradiction.
  - intros rows H. discriminate H.
Qed.

Lemma statistics_failures_witness :
  statistics_dhydro Z std_floor date_str_gt date_str_lt levels_dataset
    "mesh1d_q1" "" "" ".csv" "max"
  = Raise (ValueError ("Parameter '" ++ "mesh1d_q1" ++ "'niet in nc-file")).
Proof.
  apply (proj1 (statistics_failures Z std_floor date_str_gt date_str_lt
                  levels_dataset "mesh1d_q1" "" "" ".csv" "max")).
  simpl. intuition discriminate.
Defined.

Lemma merge_stats_features {Geometry : Type}
  (gdf : list (Feature Geometry))
  (df_stat : list (string * list (string * option Q))) :
  (forall r, In r (merge_stats gdf df_stat) ->
             In (feature r) gdf /\ In (feature_id (feature r), stats r) df_stat)
  /\ (forall f, In f gdf -> In (feature_id f) (map fst df_stat) ->
                In f (map feature (merge_stats gdf df_stat))).
Proof.
  unfold merge_stats. split.
  - intros r Hr. apply in_flat_map in Hr. destruct Hr as [f [Hf Hr]].
    apply in_map_iff in Hr. destruct Hr as [[k v] [<- Hkv]].
    apply filter_In in Hkv. destruct Hkv as [Hkv E]. cbn [fst] in E.
    apply String.eqb_eq in E. cbn [feature stats snd]. rewrite E. auto.
  - intros f Hf Hk. apply in_map_iff in Hk. destruct Hk as [[k v] [E Hkv]].
    cbn [fst] in E. subst k. apply in_map_iff.
    exists {| feature := f; stats := v |}. split; [reflexivity|].
    apply in_flat_map. exists f. split; [exact Hf|].
    apply (in_map (fun r => {| feature := f; stats := snd r |}) _
             (feature_id f, v)).
    apply filter_In. split; [exact Hkv | apply String.eqb_refl].
Qed.

(** X24.  The table of [statistics_dhydro] is an inner join of the
    geometry layer with the data columns.  With [stat] empty or ["max"],
    a returned table is not empty, every row belongs to a feature of the
    layer chosen from the mesh and location of the parameter
    (["2d_faces"], ["1d_meshnodes"] or ["1d_edges"]) whose id names a
    column of the filtered data, and every feature of that layer with
    such a column has a row: features without data are dropped without
    notice. *)
Theorem statistics_inner_join :
  forall (Geometry : Type) (series_std : Series -> option Q)
         (str_gt str_lt : string -> Timestamp -> result bool)
         (ds : Dataset Geometry) (par sdate edate extension stat : string)
         (rows : list (StatRow Geometry)),
    statistics_dhydro Geometry series_std str_gt str_lt ds par sdate edate
      extension stat = Ok rows ->
    stat = "" \/ stat = "max" ->
    exists df,
      filter_time str_gt str_lt (read_nc_data ds) sdate edate = Ok df
      /\ rows <> []
      /\ let network_type :=
           if contains "mesh2d" (Py.lower (par_mesh ds)) then "2d_faces"
           else if contains "node" (par_location ds) then "1d_meshnodes"
                else "1d_edges" in
         (forall r, In r rows ->
            In (feature r) (net_nc2gdf ds network_type)
            /\ In (feature_id (feature r)) (map fst (columns df)))
         /\ (forall f, In f (net_nc2gdf ds network_type) ->
               In (feature_id f) (map fst (columns df)) ->
               In f (map feature rows)).
Proof.
  intros Geometry series_std str_gt str_lt ds par sdate edate extension stat
         rows H Hstat.
  unfold statistics_dhydro in H.
  destruct (negb (existsb (String.eqb par) (variables ds))); [discriminate|].
  apply PyFacts.bind_ok_inv in H. destruct H as [df [Hdf H]].
  exists df. split; [exact Hdf|].
  apply PyFacts.bind_ok_inv in H. destruct H as [nt [Hnt H]].
  apply PyFacts.bind_ok_inv in H. destruct H as [gdf [Hgdf H]].
  assert (Hrows : rows = gdf /\ gdf <> []).
  { destruct gdf as [|g gs]; [discriminate|]. split; [|discriminate].
    destruct (known_extension extension); [|inversion H; reflexivity].
    destruct (String.eqb extension ".tif"); [discriminate|].
    inversion H; reflexivity. }
  destruct Hrows as [-> Hne]. split; [exact Hne|]. clear H.
  assert (Ent : nt = if contains "mesh2d" (Py.lower (par_mesh ds))
                     then "2d_faces"
                     else if contains "node" (par_location ds)
                          then "1d_meshnodes" else "1d_edges").
  { destruct (contains "mesh2d" (Py.lower (par_mesh ds))).
    - inversion Hnt. reflexivity.
    - destruct (contains "mesh1d" (Py.lower (par_mesh ds)));
        [|discriminate]. inversion Hnt. reflexivity. }
  cbv zeta. rewrite <- Ent. clear Ent Hnt.
  assert (Hjoin : exists df_stat,
             gdf = merge_stats (net_nc2gdf ds nt) df_stat
             /\ map fst df_stat = map fst (columns df)).
  { destruct Hstat as [-> | ->].
    - cbn [String.eqb] in Hgdf.
      apply PyFacts.bind_ok_inv in Hgdf. destruct Hgdf as [df_stat [Hd Hg]].
      inversion Hg; subst gdf. exists df_stat. split; [reflexivity|].
      unfold describe in Hd. destruct (columns df) as [|c cs]; [discriminate|].
      injection Hd as <-. cbn [map fst]. f_equal.
      rewrite map_map. reflexivity.
    - change (String.eqb "max" "") with false in Hgdf.
      change (String.eqb "max" "max") with true in Hgdf.
      cbn iota in Hgdf. inversion Hgdf; subst gdf.
      exists (max_frame df). split; [reflexivity|].
      unfold max_frame. rewrite map_map. reflexivity. }
  destruct Hjoin as [df_stat [-> Hnames]].
  destruct (merge_stats_features (net_nc2gdf ds nt) df_stat) as [H1 H2].
  split.
  - intros r Hr. destruct (H1 r Hr) as [Hf Hs]. split; [exact Hf|].
    rewrite <- Hnames. apply (in_map fst _ _ Hs).
  - intros f Hf Hc. apply H2; [exact Hf|]. rewrite Hnames. exact Hc.
Qed.

Lemma statistics_inner_join_witness :
  exists df,
    filter_time date_str_gt date_str_lt (read_nc_data levels_dataset) "" ""
    = Ok df
    /\ levels_max_rows <> []
    /\ (forall r, In r levels_max_rows ->
          In (feature r) (net_nc2gdf levels_dataset "1d_meshnodes")
          /\ In (feature_id (feature r)) (map fst (columns df)))
    /\ (forall f, In f (net_nc2gdf levels_dataset "1d_meshnodes") ->
          In (feature_id f) (map fst (columns df)) ->
          In f (map feature levels_max_rows)).
Proof.
  apply (statistics_inner_join Z std_floor date_str_gt date_str_lt
           levels_dataset "mesh1d_s1" "" "" ".csv" "max" levels_max_rows).
  - vm_compute. reflexivity.
  - right. reflexivity.
Defined.

End StatisticsMoreFacts.


(** ** More on the pipe and river setup *)

Module PipesMoreFacts.

Import Pipes.
Import CrosssectionsSetup.
Local Open Scope list_scope.

(** X25.  Which cross-section builder [setup_rivers] reaches.  It gets
    to [set_branch_crosssections], at the branch mid points, only without
    a cross-section file and with the type left out or ["branch"]; it
    never reads xyz cross-sections: the type ["xyzpoints"] that the
    assertion admits is not one that [_setup_crosssections] knows, and
    the type ["xyz"] that [_setup_crosssections] knows fails the
    assertion; ["branch"] together with a file is not implemented
    either.  [_setup_crosssections] itself never gets to
    [set_xyz_crosssections], whoever calls it: with the type ["xyz"],
    once the data catalog has returned the xyz data, it returns without
    cross-sections when no xyz data lies in the domain, and otherwise
    fails with [AttributeError] on the misspelt
    [helper.heck_gpd_attributes].  [setup_pipes] uses the branch
    ends. *)
Theorem setup_rivers_never_reads_xyz :
  forall (get_geodataframe : option string -> nat + SetupExc)
         (crosssections_fn : option string)
         (crosssections_type : option string),
    (forall src,
        setup_rivers_crosssections get_geodataframe crosssections_fn
          crosssections_type = inl src ->
        crosssections_fn = None
        /\ (crosssections_type = None \/ crosssections_type = Some "branch")
        /\ src = FromBranches true)
    /\ setup_rivers_crosssections get_geodataframe None None
       = inl (FromBranches true)
    /\ setup_rivers_crosssections get_geodataframe crosssections_fn
         (Some "xyzpoints")
       = inr (NotImplementedError "Method xyzpoints is not implemented.")
    /\ setup_rivers_crosssections get_geodataframe crosssections_fn
         (Some "xyz")
       = inr AssertionError
    /\ (forall f,
           setup_rivers_crosssections get_geodataframe (Some f)
             (Some "branch")
           = inr (NotImplementedError "Method branch is not implemented."))
    /\ (forall ty midpoint fn,
           _setup_crosssections get_geodataframe crosssections_fn ty midpoint
           <> inl (FromXyz fn))
    /\ (forall midpoint,
           _setup_crosssections get_geodataframe crosssections_fn "xyz"
             midpoint
           = match get_geodataframe crosssections_fn with
             | inr e => inr e
             | inl len_gdf_cs =>
                 if Nat.eqb len_gdf_cs 0 then inl NoCrosssections
                 else inr (AttributeError
                             "module 'hydrolib.hydromt_delft3dfm.workflows.helper' has no attribute 'heck_gpd_attributes'")
             end)
    /\ setup_pipes_crosssections get_geodataframe = inl (FromBranches false).
Proof.
  intros get_geodataframe fn ty. split; [|repeat split; try reflexivity].
  - intros src H. unfold setup_rivers_crosssections in H.
    destruct ty as [t|].
    + cbn [existsb] in H.
      destruct (String.eqb_spec t "xyzpoints") as [->|Hx].
      * cbn in H. destruct fn; discriminate H.
      * destruct (String.eqb_spec t "branch") as [->|Hb];
          [|discriminate H].
        cbn in H. destruct fn; [discriminate H|]. inversion H. auto.
    + cbn in H. destruct fn; [discriminate H|]. inversion H. auto.
  - destruct fn; reflexivity.
  - intros ty' midpoint fn'. unfold _setup_crosssections.
    destruct (match fn with None => true | Some _ => false end
              && String.eqb ty' "branch"); [discriminate|].
    destruct (String.eqb ty' "xyz").
    + destruct (get_geodataframe fn) as [n|e]; [|discriminate].
      destruct (Nat.eqb n 0); discriminate.
    + destruct (String.eqb ty' "point"); discriminate.
  - intros midpoint. unfold _setup_crosssections.
    destruct fn; reflexivity.
Qed.

(** The part of [setup_pipes] from line 569 on is skipped exactly when
    the shape and value of the cross-sections do not fit. *)
Lemma setup_pipes_body_skipped_iff :
  forall (Dem : Type) (process_branches : Table -> result Table)
         (invert_levels_from_dem : Table -> Dem -> Q -> Table)
         (friction_id : Value -> Value -> Value)
         (gdf_pipe defaults : Table) (spacing : Q) (friction_type : string)
         (friction_value : Q) (crosssections_shape : string)
         (crosssections_value : CrsValue) (dem_fn : option Dem)
         (pipes_depth pipes_invlev : Q),
    setup_pipes Dem process_branches invert_levels_from_dem friction_id
      gdf_pipe defaults spacing friction_type friction_value
      crosssections_shape crosssections_value dem_fn pipes_depth pipes_invlev
    = Ok None
    <-> ~ ((crosssections_shape = "circle"
            /\ exists d, crosssections_value = CrsFloat d)
           \/ (crosssections_shape = "rectangle"
               /\ exists w h, crosssections_value = CrsList [w; h])).
Proof.
  intros Dem process_branches invert_levels_from_dem friction_id gdf_pipe
         defaults spacing friction_type friction_value shape value dem_fn
         pipes_depth pipes_invlev.
  unfold setup_pipes, add_crosssection_defaults.
  assert (Hgo : forall defaults',
             (pipes <- _setup_branches process_branches
                         (select_allowed gdf_pipe) defaults' "pipe" ;;
              ftype <- get_column "frictionType" pipes ;;
              fvalue <- get_column "frictionValue" pipes ;;
              fill_invlev <-
                (if has_column "invlev_dn"
                      (set_column "frictionId"
                         (zip_with friction_id ftype fvalue) pipes)
                 then
                   up <- get_column "invlev_up"
                           (set_column "frictionId"
                              (zip_with friction_id ftype fvalue) pipes) ;;
                   dn <- get_column "invlev_dn"
                           (set_column "frictionId"
                              (zip_with friction_id ftype fvalue) pipes) ;;
                   Ok (Nat.ltb 0 (count_null up + count_null dn))
                 else Ok true) ;;
              match fill_invlev, dem_fn with
              | true, Some dem =>
                  Ok (Some (invert_levels_from_dem
                              (set_column "frictionId"
                                 (zip_with friction_id ftype fvalue) pipes)
                              dem pipes_depth))
              | _, _ =>
                  Ok (Some (update_data_columns_attributes
                              (set_column "frictionId"
                                 (zip_with friction_id ftype fvalue) pipes)
                              [("branchType", [VStr "pipe"]);
                               ("invlev_up", [VNum pipes_invlev]);
                               ("invlev_dn", [VNum pipes_invlev])] "pipe"))
              end) <> Ok None).
  { intros defaults' H.
    apply PyFacts.bind_ok_inv in H. destruct H as [pipes [_ H]].
    apply PyFacts.bind_ok_inv in H. destruct H as [ftype [_ H]].
    apply PyFacts.bind_ok_inv in H. destruct H as [fvalue [_ H]].
    apply PyFacts.bind_ok_inv in H. destruct H as [fill [_ H]].
    destruct fill; destruct dem_fn; discriminate H. }
  destruct (String.eqb_spec shape "circle") as [->|Hc].
  - destruct value as [d|z|l].
    + split; [intros H; exfalso; exact (Hgo _ H)|].
      intros Hn. exfalso. apply Hn. left. split; [reflexivity|].
      exists d. reflexivity.
    + split; [|reflexivity]. intros _ [[_ [d Hd]]|[Hr _]]; discriminate.
    + split; [|reflexivity]. intros _ [[_ [d Hd]]|[Hr _]]; discriminate.
  - destruct (String.eqb_spec shape "rectangle") as [->|Hr].
    + destruct value as [d|z|l].
      * split; [|reflexivity]. intros _ [[Hc' _]|[_ [w [h E]]]]; discriminate.
      * split; [|reflexivity]. intros _ [[Hc' _]|[_ [w [h E]]]]; discriminate.
      * destruct l as [|w [|h [|x l]]];
          try (split; [|reflexivity];
               intros _ [[Hc' _]|[_ [w' [h' E]]]]; discriminate).
        split; [intros H; exfalso; exact (Hgo _ H)|].
        intros Hn. exfalso. apply Hn. right. split; [reflexivity|].
        exists w, h. reflexivity.
    + split; [|reflexivity]. intros _ [[E _]|[E _]]; contradiction.
Qed.


(** Filtering a table without rows leaves it without rows. *)
Lemma keep_rows_nil (mask : list bool) : keep_rows mask [] = [].
Proof. destruct mask; reflexivity. Qed.

Lemma apply_pipe_filter_empty (pipe_filter : option string)
  (gdf_pipe : Table) :
  nrows gdf_pipe = 0%nat ->
  nrows (apply_pipe_filter pipe_filter gdf_pipe) = 0%nat.
Proof.
  intros H. unfold apply_pipe_filter.
  destruct pipe_filter as [flt|]; [|exact H].
  destruct (get_column "branchType" gdf_pipe) as [key|e]; [|exact H].
  destruct gdf_pipe as [|[n cells] rest]; [reflexivity|].
  cbn [nrows] in H. destruct cells; [|discriminate H].
  cbn [map nrows fst snd]. rewrite keep_rows_nil. reflexivity.
Qed.

(** X26.  [setup_pipes] is skipped, returning [None] without an error
    and before the branches are built, exactly when no pipe is left in
    the table read from [pipes_fn] after the [pipe_filter] (in
    particular when the table has no rows) or the shape and value of the
    cross-sections do not fit: with a pipe it goes on only for
    ["circle"] with a single [float] (an [int] diameter is refused) and
    for ["rectangle"] with a list of two values.  Without a filter, or
    without a [branchType] column, the table is taken as read. *)
Theorem setup_pipes_skipped_iff :
  forall (Dem : Type) (process_branches : Table -> result Table)
         (invert_levels_from_dem : Table -> Dem -> Q -> Table)
         (friction_id : Value -> Value -> Value)
         (gdf_pipe : Table) (pipe_filter : option string)
         (defaults : Table) (spacing : Q) (friction_type : string)
         (friction_value : Q) (crosssections_shape : string)
         (crosssections_value : CrsValue) (dem_fn : option Dem)
         (pipes_depth pipes_invlev : Q),
    (setup_pipes_from_source Dem process_branches invert_levels_from_dem
       friction_id gdf_pipe pipe_filter defaults spacing friction_type
       friction_value crosssections_shape crosssections_value dem_fn
       pipes_depth pipes_invlev
     = Ok None
     <-> (nrows (apply_pipe_filter pipe_filter gdf_pipe) = 0%nat
          \/ ~ ((crosssections_shape = "circle"
                 /\ exists d, crosssections_value = CrsFloat d)
                \/ (crosssections_shape = "rectangle"
                    /\ exists w h, crosssections_value = CrsList [w; h]))))
    /\ (nrows gdf_pipe = 0%nat ->
        nrows (apply_pipe_filter pipe_filter gdf_pipe) = 0%nat)
    /\ (pipe_filter = None \/ has_column "branchType" gdf_pipe = false ->
        apply_pipe_filter pipe_filter gdf_pipe = gdf_pipe).
Proof.
  intros Dem process_branches invert_levels_from_dem friction_id gdf_pipe
         pipe_filter defaults spacing friction_type friction_value shape
         value dem_fn pipes_depth pipes_invlev.
  split; [|split].
  - unfold setup_pipes_from_source.
    destruct (Nat.eqb_spec (nrows (apply_pipe_filter pipe_filter gdf_pipe))
                           0) as [E|E].
    + split; [intros _; left; exact E | reflexivity].
    + rewrite setup_pipes_body_skipped_iff. split.
      * intros H. right. exact H.
      * intros [H|H]; [contradiction | exact H].
  - apply apply_pipe_filter_empty.
  - intros [->|H]; [reflexivity|]. unfold apply_pipe_filter.
    destruct pipe_filter as [flt|]; [|reflexivity].
    assert (Hget : forall t, has_column "branchType" t = false ->
                     get_column "branchType" t = Raise (KeyError "branchType")).
    { induction t as [|[n v] t IH]; [reflexivity|].
      unfold has_column. cbn [existsb fst get_column].
      destruct (String.eqb n "branchType"); [discriminate|].
      exact IH. }
    rewrite (Hget _ H). reflexivity.
Qed.

Lemma get_column_set_other (name other : string) (v : list Value) :
  name <> other ->
  forall t, get_column name (set_column other v t) = get_column name t.
Proof.
  intros Hne. induction t as [|[n w] t IH].
  - cbn. destruct (String.eqb_spec other name); [congruence|reflexivity].
  - cbn [set_column]. destruct (String.eqb_spec n other) as [->|Hn].
    + cbn [get_column]. destruct (String.eqb_spec other name);
        [congruence|reflexivity].
    + cbn [get_column]. rewrite IH. reflexivity.
Qed.

Lemma has_column_set_other (name other : string) (v : list Value) :
  name <> other ->
  forall t, has_column name (set_column other v t) = has_column name t.
Proof.
  intros Hne. unfold has_column. induction t as [|[n w] t IH].
  - cbn. destruct (String.eqb_spec other name); [congruence|reflexivity].
  - cbn [set_column]. destruct (String.eqb_spec n other) as [->|Hn].
    + cbn [existsb fst]. reflexivity.
    + cbn [existsb fst]. rewrite IH. reflexivity.
Qed.

(** X27.  The test for given invert levels looks at [invlev_dn] only
    (["invlev_up" and "invlev_dn" in pipes.columns]).  For processed
    pipes with friction columns: without a column [invlev_dn] and with a
    terrain raster, the invert levels are derived from the raster,
    whatever [invlev_up] holds; with a column [invlev_dn] but without
    [invlev_up], the call fails with [KeyError] on [invlev_up]. *)
Theorem invlev_check_tests_invlev_dn_only :
  forall (Dem : Type) (process_branches : Table -> result Table)
         (invert_levels_from_dem : Table -> Dem -> Q -> Table)
         (friction_id : Value -> Value -> Value)
         (gdf_pipe defaults : Table) (spacing : Q) (friction_type : string)
         (friction_value : Q) (d : Q) (dem_fn : option Dem)
         (pipes_depth pipes_invlev : Q)
         (defaults' pipes : Table) (ftype fvalue : list Value),
    add_crosssection_defaults "circle" (CrsFloat d)
      (set_scalar "frictionValue" (VNum friction_value)
         (set_scalar "frictionType" (VStr friction_type)
            (set_scalar "spacing" (VNum spacing) defaults)))
    = Some defaults' ->
    _setup_branches process_branches (select_allowed gdf_pipe) defaults'
      "pipe" = Ok pipes ->
    get_column "frictionType" pipes = Ok ftype ->
    get_column "frictionValue" pipes = Ok fvalue ->
    (has_column "invlev_dn" pipes = false ->
     forall dem, dem_fn = Some dem ->
       setup_pipes Dem process_branches invert_levels_from_dem friction_id
         gdf_pipe defaults spacing friction_type friction_value
         "circle" (CrsFloat d) dem_fn pipes_depth pipes_invlev
       = Ok (Some (invert_levels_from_dem
                     (set_column "frictionId"
                        (zip_with friction_id ftype fvalue) pipes)
                     dem pipes_depth)))
    /\ (has_column "invlev_dn" pipes = true ->
        get_column "invlev_up" pipes = Raise (KeyError "invlev_up") ->
        setup_pipes Dem process_branches invert_levels_from_dem friction_id
          gdf_pipe defaults spacing friction_type friction_value
          "circle" (CrsFloat d) dem_fn pipes_depth pipes_invlev
        = Raise (KeyError "invlev_up")).
Proof.
  intros Dem process_branches invert_levels_from_dem friction_id gdf_pipe
         defaults spacing friction_type friction_value d dem_fn pipes_depth
         pipes_invlev defaults' pipes ftype fvalue Hd Hp Hft Hfv.
  unfold setup_pipes. rewrite Hd, Hp. cbn [Py.bind].
  rewrite Hft, Hfv. cbn [Py.bind].
  rewrite (has_column_set_other "invlev_dn" "frictionId") by discriminate.
  split.
  - intros Hno dem ->. rewrite Hno. reflexivity.
  - intros Hyes Hup. rewrite Hyes.
    rewrite (get_column_set_other "invlev_up" "frictionId") by discriminate.
    rewrite Hup. reflexivity.
Qed.

Lemma invlev_check_tests_invlev_dn_only_witness :
  setup_pipes_example unit (fun t _ _ => t) (fun ftype _ => ftype) (Some tt)
  = Ok (Some (pipes_before_invlev (fun ftype _ => ftype))).
Proof.
  refine (proj1 (invlev_check_tests_invlev_dn_only unit (fun t => Ok t)
                   (fun t _ _ => t) (fun ftype _ => ftype) pipes_source
                   pipes_defaults 50%Q "WhiteColebrook" (3 # 1000)%Q
                   (1 # 2)%Q (Some tt) (- 2)%Q (- 25 # 10)%Q
                   _ _ [VStr "WhiteColebrook"] [VNum (3 # 1000)%Q]
                   eq_refl eq_refl eq_refl eq_refl) eq_refl tt eq_refl).
Defined.

End PipesMoreFacts.


(** ** The branches.gui file *)

Module BranchesGuiFacts.

Import BranchesGui.
Local Open Scope Z_scope.
Local Open Scope list_scope.

Lemma replace_codes_names (s : string) :
  replace_codes (replace_names (TStr s)) = TStr s.
Proof.
  unfold replace_names.
  destruct (String.eqb_spec s "river") as [->|H1]; [reflexivity|].
  destruct (String.eqb_spec s "pipe") as [->|H2]; [reflexivity|].
  destruct (String.eqb_spec s "sewerconnection") as [->|H3]; reflexivity.
Qed.

Lemma replace_names_codes (z : Z) :
  replace_names (replace_codes (TInt z)) = TInt z.
Proof.
  destruct z as [|p|p]; try reflexivity.
  destruct p as [[p|p|]|[p|p|]|]; reflexivity.
Qed.

Lemma drop_duplicates_from_NoDup {A} (key : A -> string) :
  forall (l seen : list A),
    NoDup (map key l) ->
    (forall x s, In x l -> In s seen -> key x <> key s) ->
    Py.drop_duplicates_from (fun a b => String.eqb (key a) (key b)) seen l
    = l.
Proof.
  induction l as [|a l IH]; intros seen Hnd Hseen; [reflexivity|].
  cbn [Py.drop_duplicates_from]. cbn [map] in Hnd.
  inversion Hnd as [|? ? Hnot Hnd']; subst.
  assert (E : existsb (fun b => String.eqb (key a) (key b)) seen = false).
  { apply not_true_is_false. intros H. apply existsb_exists in H.
    destruct H as [s [Hs E]]. apply String.eqb_eq in E.
    exact (Hseen a s (or_introl eq_refl) Hs E). }
  rewrite E. f_equal. apply IH; [exact Hnd'|].
  intros x s Hx [<-|Hs].
  - intros E'. apply Hnot. rewrite <- E'. apply in_map. exact Hx.
  - apply Hseen; [right; exact Hx | exact Hs].
Qed.

Lemma drop_duplicates_from_unique {A} (key : A -> string) :
  forall (l seen : list A),
    NoDup (map key
             (Py.drop_duplicates_from
                (fun a b => String.eqb (key a) (key b)) seen l))
    /\ (forall x,
          In x (Py.drop_duplicates_from
                  (fun a b => String.eqb (key a) (key b)) seen l) ->
          forall s, In s seen -> key x <> key s).
Proof.
  induction l as [|a l IH]; intros seen; [split; [constructor|intros x []]|].
  cbn [Py.drop_duplicates_from].
  destruct (existsb (fun b => String.eqb (key a) (key b)) seen) eqn:E;
    [apply IH|].
  destruct (IH (a :: seen)) as [Hnd Hs]. split.
  - cbn [map]. constructor; [|exact Hnd].
    intros Hin. apply in_map_iff in Hin. destruct Hin as [x [Ex Hx]].
    exact (Hs x Hx a (or_introl eq_refl) Ex).
  - intros x [<-|Hx] s Hin.
    + intros Ex.
      assert (existsb (fun b => String.eqb (key a) (key b)) seen = true).
      { apply existsb_exists. exists s. split; [exact Hin|].
        apply String.eqb_eq. exact Ex. }
      congruence.
    + apply (Hs x Hx). right. exact Hin.
Qed.

Lemma drop_duplicates_from_key_complete {A} (key : A -> string) :
  forall (l seen : list A) (x : A),
    In x l ->
    (exists s, In s seen /\ key s = key x)
    \/ exists r,
         In r (Py.drop_duplicates_from
                 (fun a b => String.eqb (key a) (key b)) seen l)
         /\ key r = key x.
Proof.
  induction l as [|a l IH]; intros seen x Hl; [destruct Hl|].
  cbn [Py.drop_duplicates_from].
  destruct (existsb (fun b => String.eqb (key a) (key b)) seen) eqn:E.
  - destruct Hl as [->|Hl]; [|exact (IH seen x Hl)].
    left. apply existsb_exists in E. destruct E as [s [Hs E]].
    apply String.eqb_eq in E. exists s. split; [exact Hs|].
    rewrite <- E. reflexivity.
  - destruct Hl as [->|Hl].
    + right. exists x. split; [left; reflexivity|reflexivity].
    + destruct (IH (a :: seen) x Hl) as [[s [[<-|Hs] Es]]|[r [Hr Er]]].
      * right. exists a. split; [left; reflexivity | exact Es].
      * left. exists s. auto.
      * right. exists r. split; [right; exact Hr | exact Er].
Qed.

(** X28.  [read_branches_gui] returns one row for every row of the
    branches table, in the same order: the gui records are made unique
    on [branchid] before the left merge.  Without a [branches.gui] file
    every branch is a ["river"] without manholes. *)
Theorem read_branches_gui_one_row_per_branch :
  forall (A : Type) (branchid_of : A -> string) (gdf : list A)
         (file : option (list GuiBranch)),
    map fst (read_branches_gui branchid_of gdf file) = gdf
    /\ (forall b r,
           In (b, Some r) (read_branches_gui branchid_of gdf file) ->
           gui_branchid r = branchid_of b)
    /\ read_branches_gui branchid_of gdf None
       = map (fun b => (b, Some {| gui_branchid := branchid_of b;
                                   gui_branchtype := TStr "river";
                                   gui_manhole_up := "";
                                   gui_manhole_dn := "" |})) gdf.
Proof.
  intros A branchid_of gdf file.
  assert (Hone : forall (df_gui : list GuiRow) (l : list A),
             NoDup (map gui_branchid df_gui) ->
             map fst
               (flat_map
                  (fun b =>
                     match filter (fun r => String.eqb (branchid_of b)
                                                       (gui_branchid r))
                                  df_gui with
                     | [] => [(b, None)]
                     | rs => map (fun r => (b, Some r)) rs
                     end) l) = l).
  { intros df_gui l Hnd. induction l as [|b l IH]; [reflexivity|].
    cbn [flat_map]. rewrite map_app, IH.
    assert (Hle : (List.length
                     (filter (fun r => String.eqb (branchid_of b)
                                                  (gui_branchid r)) df_gui)
                   <= 1)%nat).
    { clear IH. induction df_gui as [|r df IH']; [cbn; lia|].
      cbn [map] in Hnd. inversion Hnd as [|? ? Hnot Hnd']; subst.
      cbn [filter]. destruct (String.eqb_spec (branchid_of b) (gui_branchid r))
        as [E|E]; [|apply IH'; exact Hnd'].
      rewrite BranchFacts.filter_none; [cbn; lia|].
      intros x Hx. apply String.eqb_neq. intros E'. apply Hnot.
      rewrite <- E, E'. apply in_map. exact Hx. }
    destruct (filter (fun r => String.eqb (branchid_of b) (gui_branchid r))
                     df_gui) as [|r [|r' rs]]; cbn in Hle; try lia;
      reflexivity. }
  split; [|split].
  - unfold read_branches_gui. apply Hone.
    apply (drop_duplicates_from_unique gui_branchid).
  - intros b r Hin. unfold read_branches_gui in Hin.
    apply in_flat_map in Hin. destruct Hin as [b' [_ Hin]].
    match type of Hin with
    | context [filter ?p ?l] => destruct (filter p l) as [|x xs] eqn:Ef
    end.
    + destruct Hin as [E|[]]. discriminate E.
    + rewrite <- Ef in Hin. apply in_map_iff in Hin.
      destruct Hin as [r' [E Hr']]. inversion E; subst.
      apply filter_In in Hr'. destruct Hr' as [_ Hr'].
      apply String.eqb_eq in Hr'. auto.
  - unfold read_branches_gui. rewrite map_map. cbn [gui_branchid
      gui_branchtype gui_manhole_up gui_manhole_dn replace_codes].
    set (mk := fun b => {| gui_branchid := branchid_of b;
                           gui_branchtype := TStr "river";
                           gui_manhole_up := "";
                           gui_manhole_dn := "" |}).
    set (dd := Py.drop_duplicates
                 (fun a b => String.eqb (gui_branchid a) (gui_branchid b))
                 (map mk gdf)).
    assert (Hnd : NoDup (map gui_branchid dd))
      by apply (drop_duplicates_from_unique gui_branchid).
    assert (Hsub : forall r, In r dd -> exists b, In b gdf /\ r = mk b).
    { intros r Hr. apply PyFacts.drop_duplicates_from_incl in Hr.
      apply in_map_iff in Hr. destruct Hr as [b [<- Hb]]. eauto. }
    assert (Hall : forall b, In b gdf ->
               filter (fun r => String.eqb (branchid_of b) (gui_branchid r)) dd
               = [mk b]).
    { intros b Hb.
      assert (Hin : In (mk b) dd).
      { assert (Hc : exists r, In r dd /\ gui_branchid r = branchid_of b).
        { destruct (drop_duplicates_from_key_complete gui_branchid
                      (map mk gdf) [] (mk b) (in_map mk _ _ Hb))
            as [[s [[] _]]|Hr]. exact Hr. }
        destruct Hc as [r [Hr Er]]. destruct (Hsub r Hr) as [b' [_ ->]].
        cbn in Er. unfold mk. rewrite <- Er. exact Hr. }
      rewrite <- (BranchFacts.filter_unique_id gui_branchid dd (mk b) Hnd Hin).
      apply filter_ext. intros r. cbn. apply String.eqb_sym. }
    clearbody dd. clear Hnd Hsub. induction gdf as [|b l IH]; [reflexivity|].
    cbn [flat_map map]. rewrite (Hall b (or_introl eq_refl)). cbn [map app].
    f_equal. apply IH. intros b' Hb'. apply Hall. right. exact Hb'.
Qed.

(** X29.  Writing and reading back [branches.gui].  For branches with
    distinct ids and named types, when the file holds the records that
    [write_branches_gui] hands to [BranchModel], [read_branches_gui]
    gives every branch its own type back, the types ["river"], ["pipe"]
    and ["sewerconnection"] through their codes 0, 2 and 1; the manholes
    come back as well when some branch is a pipe or a tunnel, and are
    blank for all branches otherwise. *)
Theorem branches_gui_round_trip :
  forall (gdf : list BranchRow),
    NoDup (map branchid gdf) ->
    Forall (fun r => exists s, row_branchtype r = TStr s) gdf ->
    read_branches_gui branchid gdf (Some (write_branches_gui gdf))
    = map (fun r =>
             (r, Some {| gui_branchid := branchid r;
                         gui_branchtype := row_branchtype r;
                         gui_manhole_up :=
                           if existsb (fun r => is_pipe_or_tunnel
                                                  (row_branchtype r)) gdf
                           then manhole_up r else "";
                         gui_manhole_dn :=
                           if existsb (fun r => is_pipe_or_tunnel
                                                  (row_branchtype r)) gdf
                           then manhole_dn r else "" |})) gdf.
Proof.
  intros gdf Hnd Hstr.
  set (any := existsb (fun r => is_pipe_or_tunnel (row_branchtype r)) gdf).
  set (mk := fun r => {| gui_branchid := branchid r;
                         gui_branchtype := row_branchtype r;
                         gui_manhole_up := if any then manhole_up r else "";
                         gui_manhole_dn := if any then manhole_dn r else "" |}).
  assert (Hgui :
            map (fun r => {| gui_branchid := gui_branchid r;
                             gui_branchtype := replace_codes (gui_branchtype r);
                             gui_manhole_up := gui_manhole_up r;
                             gui_manhole_dn := gui_manhole_dn r |})
                (map (fun b => {| gui_branchid := name b;
                                  gui_branchtype := branchtype b;
                                  gui_manhole_up := sourcecompartmentname b;
                                  gui_manhole_dn := targetcompartmentname b |})
                     (write_branches_gui gdf))
            = map mk gdf).
  { unfold write_branches_gui. fold any. rewrite !map_map.
    destruct any; cbn [negb]; [|rewrite map_map]; apply map_ext_in;
      intros r Hr; cbn;
      rewrite Forall_forall in Hstr; destruct (Hstr r Hr) as [s Es];
      unfold mk; rewrite Es, replace_codes_names; reflexivity. }
  unfold read_branches_gui. rewrite Hgui. unfold Py.drop_duplicates.
  assert (Hk : map gui_branchid (map mk gdf) = map branchid gdf)
    by (rewrite map_map; reflexivity).
  rewrite (drop_duplicates_from_NoDup gui_branchid)
    by (rewrite ?Hk; try exact Hnd; intros x s _ []).
  assert (Hall : forall b, In b gdf ->
             filter (fun r => String.eqb (branchid b) (gui_branchid r))
                    (map mk gdf) = [mk b]).
  { intros b Hb.
    rewrite <- (BranchFacts.filter_unique_id gui_branchid (map mk gdf) (mk b)).
    - apply filter_ext. intros r. cbn. apply String.eqb_sym.
    - rewrite Hk. exact Hnd.
    - apply in_map. exact Hb. }
  clear Hgui Hk Hnd Hstr. revert Hall. generalize (map mk gdf) as df_gui.
  clearbody any. intros df_gui Hall.
  induction gdf as [|b l IH]; [reflexivity|].
  cbn [flat_map map]. rewrite (Hall b (or_introl eq_refl)). cbn [map app].
  f_equal. apply IH. intros b' Hb'. apply Hall. right. exact Hb'.
Qed.

Lemma branches_gui_round_trip_witness :
  read_branches_gui branchid gui_example
    (Some (write_branches_gui gui_example))
  = map (fun r =>
           (r, Some {| gui_branchid := branchid r;
                       gui_branchtype := row_branchtype r;
                       gui_manhole_up :=
                         if existsb (fun r => is_pipe_or_tunnel
                                                (row_branchtype r))
                                    gui_example
                         then manhole_up r else "";
                       gui_manhole_dn :=
                         if existsb (fun r => is_pipe_or_tunnel
                                                (row_branchtype r))
                                    gui_example
                         then manhole_dn r else "" |})) gui_example.
Proof.
  apply (branches_gui_round_trip gui_example).
  - repeat constructor; simpl; intuition discriminate.
  - repeat constructor; eexists; reflexivity.
Defined.

End BranchesGuiFacts.
